(** * DNSpy: the DNS wire-format codec of [dns_packet.py]

    A shallow embedding of [DomainName], [DnsQuestion], [RData], [DnsRecord]
    and [DnsPacket], with the properties the specification states about them.

    Conventions of the embedding:
    - a Python [bytes] object is a [list byte]; a byte read as an integer is
      [byte_val b : Z];
    - offsets into a buffer are [nat] (the code never produces a negative
      one); every other integer is a [Z];
    - a call either returns, raises, or runs out of the fuel that bounds the
      loops and the recursion of the model ([outcome]);
    - the members of [DNSpy.enums] are integer enumerations; the embedding
      keeps their integer value and takes the tables as a parameter
      ([Enums]). *)

From Stdlib Require Import ZArith String Ascii Bool Lia Arith List.
From Stdlib Require Import Strings.Byte.
Import ListNotations.
Local Open Scope Z_scope.

Set Implicit Arguments.

(** ** Exceptions and outcomes *)

Inductive exn : Type :=
| IndexError
| UnicodeDecodeError
| UnicodeEncodeError
| AssertionError
| ValueError
| TypeError
| AttributeError
| StructError
| Exception (msg : string).

Inductive outcome (A : Type) : Type :=
| Return (a : A)
| Raise (e : exn)
| NoFuel.

Arguments Raise {A} e.
Arguments NoFuel {A}.

Definition bind {A B : Type} (m : outcome A) (k : A -> outcome B) : outcome B :=
  match m with
  | Return a => k a
  | Raise e => Raise e
  | NoFuel => NoFuel
  end.

Notation "x <- m ;; k" := (bind m (fun x => k))
  (at level 61, m at next level, right associativity).
Notation "' p <- m ;; k" := (bind m (fun x => let p := x in k))
  (at level 61, p pattern, m at next level, right associativity).

Definition assert (b : bool) : outcome unit :=
  if b then Return tt else Raise AssertionError.

(** ** Bytes *)

Definition bytes := list byte.

Definition byte_val (b : byte) : Z := Z.of_N (Byte.to_N b).

Definition byte_of (z : Z) : byte :=
  match Byte.of_N (Z.to_N z) with
  | Some b => b
  | None => x00
  end.

(** [data[lo:hi]]: a slice never raises, it is cut at the end of the buffer. *)
Definition slice (data : bytes) (lo hi : nat) : bytes :=
  firstn (hi - lo) (skipn lo data).

(** [data[lo:]] *)
Definition slice_from (data : bytes) (lo : nat) : bytes := skipn lo data.

(** [data[i]] *)
Definition index (data : bytes) (i : nat) : outcome byte :=
  match nth_error data i with
  | Some b => Return b
  | None => Raise IndexError
  end.

(** ** [struct.pack] and [struct.unpack_from], big-endian *)

Definition be16 (v : Z) : bytes := [byte_of (v / 256); byte_of (v mod 256)].

Definition be32 (v : Z) : bytes :=
  [byte_of (v / 16777216); byte_of ((v / 65536) mod 256);
   byte_of ((v / 256) mod 256); byte_of (v mod 256)].

Definition pack_B (v : Z) : outcome bytes :=
  if (0 <=? v) && (v <? 256) then Return [byte_of v] else Raise StructError.

Definition pack_H (v : Z) : outcome bytes :=
  if (0 <=? v) && (v <? 65536) then Return (be16 v) else Raise StructError.

Definition pack_I (v : Z) : outcome bytes :=
  if (0 <=? v) && (v <? 4294967296) then Return (be32 v) else Raise StructError.

Fixpoint be_val (bs : bytes) (acc : Z) : Z :=
  match bs with
  | [] => acc
  | b :: bs' => be_val bs' (acc * 256 + byte_val b)
  end.

(** The [n] bytes a format needs at [offset]; [struct.error] when the buffer
    is too short. *)
Definition unpack_bytes (n : nat) (data : bytes) (offset : nat) : outcome bytes :=
  if (offset + n <=? length data)%nat then Return (slice data offset (offset + n))
  else Raise StructError.

Definition unpack_H (data : bytes) (offset : nat) : outcome Z :=
  bs <- unpack_bytes 2 data offset ;; Return (be_val bs 0).

(** ** Strings *)

(** [bytes.decode('ascii')] *)
Fixpoint decode_ascii (bs : bytes) : outcome string :=
  match bs with
  | [] => Return EmptyString
  | b :: bs' =>
      if byte_val b <? 128
      then s <- decode_ascii bs' ;; Return (String (ascii_of_byte b) s)
      else Raise UnicodeDecodeError
  end.

(** [bytes(label, 'ascii')] *)
Fixpoint encode_ascii (s : string) : outcome bytes :=
  match s with
  | EmptyString => Return []
  | String c s' =>
      if byte_val (byte_of_ascii c) <? 128
      then bs <- encode_ascii s' ;; Return (byte_of_ascii c :: bs)
      else Raise UnicodeEncodeError
  end.

Definition char_val (c : ascii) : Z := byte_val (byte_of_ascii c).

(** [string.ascii_letters + string.digits + '-'] *)
Definition allowed_char (c : ascii) : bool :=
  let v := char_val c in
  ((97 <=? v) && (v <=? 122)) || ((65 <=? v) && (v <=? 90))
  || ((48 <=? v) && (v <=? 57)) || (v =? 45).

(** [allowed_charset.issuperset(label)] *)
Fixpoint allowed_charset_issuperset (label : string) : bool :=
  match label with
  | EmptyString => true
  | String c s => allowed_char c && allowed_charset_issuperset s
  end.






(** ['.'.join(labels)] *)
Fixpoint join_dot (labels : list string) : string :=
  match labels with
  | [] => EmptyString
  | [l] => l
  | l :: ls => (l ++ String "."%char (join_dot ls))%string
  end.

(** ** DomainName *)

(** A [DomainName] is a list of labels; [parse_from] attaches the bytes it
    consumed as [compressed_name]. *)
Record DomainName : Type := mkDomainName {
  labels : list string;
  compressed_name : option bytes
}.

(** [DomainName.__init__] *)
Definition DomainName_init (ls : list string) : DomainName :=
  match ls with
  | [] => mkDomainName [EmptyString] None
  | _ => mkDomainName ls None
  end.

(** [DomainName.__str__] *)
Definition DomainName_str (n : DomainName) : string := join_dot (labels n).

(** [sum(map(len, sequence))] *)
Definition sum_len (sequence : list string) : Z :=
  fold_right (fun l acc => Z.of_nat (String.length l) + acc) 0 sequence.

(** The tail of [parse_from]: build the name, attach the consumed span. *)
Definition parse_from_finish (data : bytes) (starting_offset offset : nat)
    (sequence : list string) : DomainName * nat :=
  (mkDomainName (labels (DomainName_init sequence))
                (Some (slice data starting_offset offset)),
   offset).

(** [((data[offset] & 0b00111111) << 8) | data[offset + 1]] *)
Definition pointer_target (c c1 : Z) : nat :=
  Z.to_nat (Z.lor (Z.shiftl (Z.land c 63) 8) c1).

(** [DomainName.parse_from]: the [while] loop, with the recursive call of the
    pointer branch.  One unit of fuel is spent per loop iteration and per
    recursive call. *)
Fixpoint parse_from_loop (fuel : nat) (data : bytes) (starting_offset offset : nat)
    (sequence : list string) {struct fuel} : outcome (DomainName * nat) :=
  match fuel with
  | O => NoFuel
  | S fuel' =>
      b <- index data offset ;;
      let c := byte_val b in
      if c =? 0 then
        (* the loop's else branch: consume the null terminator *)
        Return (parse_from_finish data starting_offset (offset + 1) sequence)
      else if c <? 64 then
        label <- decode_ascii (slice data (offset + 1) (offset + 1 + Z.to_nat c)) ;;
        _ <- assert (allowed_charset_issuperset label) ;;
        let offset' := (offset + (Z.to_nat c + 1))%nat in
        let sequence' := sequence ++ [label] in
        _ <- assert (sum_len sequence' <? 256) ;;
        parse_from_loop fuel' data starting_offset offset' sequence'
      else if 192 <=? c then
        (* a pointer is two bytes *)
        b1 <- index data (offset + 1) ;;
        let ptr := pointer_target c (byte_val b1) in
        let offset' := (offset + 2)%nat in
        t <- index data ptr ;;
        _ <- assert (byte_val t <? 64) ;;
        '(label, n) <- parse_from_loop fuel' data ptr ptr [] ;;
        Return (parse_from_finish data starting_offset offset'
                  (sequence ++ labels label))
      else Raise (Exception "Unknown/Invalid DNS Label")
  end.

Definition parse_from (fuel : nat) (data : bytes) (offset : nat)
  : outcome (DomainName * nat) :=
  parse_from_loop fuel data offset offset [].

(** [DomainName.encode]: the loop over the labels, then the terminator. *)
Fixpoint encode_labels (ls : list string) : outcome bytes :=
  match ls with
  | [] => Return []
  | label :: ls' =>
      match label with
      | EmptyString => Return []   (* break *)
      | _ =>
          let n := Z.of_nat (String.length label) in
          _ <- (if n <? 256 then Return tt else Raise ValueError) ;;
          bs <- encode_ascii label ;;
          rest <- encode_labels ls' ;;
          Return (byte_of n :: bs ++ rest)
      end
  end.

Definition DomainName_encode (n : DomainName) : outcome bytes :=
  bs <- encode_labels (labels n) ;; Return (bs ++ [x00]).

(** [DomainName.__hash__], [__eq__] and [__ne__], over the interpreter's
    [str.upper] and string hash. *)
Section Hashing.
Variable upper : string -> string.
Variable hash : string -> Z.



End Hashing.

(** ** The enumerations of [DNSpy.enums] *)

(** [DnsQR] has the two members of the one-bit header flag. *)
Inductive DnsQR : Type := query | response.

(** Modelled from the spec: [DNSpy.enums] is not part of the sources at hand.
    Its enumerations are integer enumerations (their members are packed and
    shifted as integers); what the codec needs of them is which 4-bit values
    [DnsOpCode] and [DnsResponseCode] accept, and the type codes of the
    record types the RData dispatch names. *)
Class Enums : Type := {
  DnsOpCode_member : Z -> bool;
  DnsResponseCode_member : Z -> bool;
  DnsRType_A : Z;
  DnsRType_NS : Z;
  DnsRType_CNAME : Z;
  DnsRType_SOA : Z;
  DnsRType_PTR : Z;
  DnsRType_AAAA : Z
}.

(** Modelled from the spec: the codes of RFC 1035 (and RFC 3596 for AAAA),
    which the spec's literal scenario uses for A; opcodes 0..2 and response
    codes 0..5 are the members RFC 1035 defines. *)
#[export] Instance rfc1035 : Enums := {|
  DnsOpCode_member := fun v => (0 <=? v) && (v <=? 2);
  DnsResponseCode_member := fun v => (0 <=? v) && (v <=? 5);
  DnsRType_A := 1;
  DnsRType_NS := 2;
  DnsRType_CNAME := 5;
  DnsRType_SOA := 6;
  DnsRType_PTR := 12;
  DnsRType_AAAA := 28
|}.

(** ** Data model *)

Record DnsQuestion : Type := mkDnsQuestion {
  qname : DomainName;
  qtype : Z;
  qclass : Z
}.

Inductive RData : Type :=
| RData_blob (blob : bytes)
| RData_SOA (serial refresh retry expire : Z) (mname rname : DomainName)
| RData_SingleName (name : DomainName)
| RData_A (ip : bytes)
| RData_AAAA (ip : bytes).

(** The classes [RData.get_handler] chooses from. *)
Inductive Handler : Type := H_RData | H_SOA | H_SingleName | H_A | H_AAAA.

Record DnsRecord : Type := mkDnsRecord {
  rname_ : DomainName;
  rtype : Z;
  rclass : Z;
  ttl : Z;
  rdlength : Z;
  rdata : bytes;
  compressed_rdata : option bytes
}.

(** [record.compressed_rdata = compressed_rdata] *)
Definition set_compressed_rdata (r : DnsRecord) (c : bytes) : DnsRecord :=
  mkDnsRecord (rname_ r) (rtype r) (rclass r) (ttl r) (rdlength r) (rdata r) (Some c).

Inductive PacketClass : Type := DnsPacket_class | Query | Response.

Record DnsPacket : Type := mkDnsPacket {
  cls : PacketClass;
  ID : Z;
  QR : DnsQR;
  OPCODE : Z;
  AA : bool;
  TC : bool;
  RD : bool;
  RA : bool;
  Z_ : Z;
  RCODE : Z;
  QDCOUNT : Z;
  ANCOUNT : Z;
  NSCOUNT : Z;
  ARCOUNT : Z;
  questions : list DnsQuestion;
  answers : list DnsRecord;
  nameservers : list DnsRecord;
  additional_records : list DnsRecord;
  suffix : bytes
}.

Definition len {A : Type} (l : list A) : Z := Z.of_nat (length l).

Fixpoint bytes_eqb (a b : bytes) : bool :=
  match a, b with
  | [], [] => true
  | x :: a', y :: b' => Byte.eqb x y && bytes_eqb a' b'
  | _, _ => false
  end.

(** [struct.unpack_from] for the formats of the codec. *)
Definition field (bs : bytes) (lo hi : nat) : Z := be_val (slice bs lo hi) 0.

Definition unpack_HH (data : bytes) (offset : nat) : outcome (Z * Z) :=
  bs <- unpack_bytes 4 data offset ;;
  Return (field bs 0 2, field bs 2 4).

Definition unpack_HHIH (data : bytes) (offset : nat) : outcome (Z * Z * Z * Z) :=
  bs <- unpack_bytes 10 data offset ;;
  Return (field bs 0 2, field bs 2 4, field bs 4 8, field bs 8 10).

Definition unpack_HHHH (data : bytes) (offset : nat) : outcome (Z * Z * Z * Z) :=
  bs <- unpack_bytes 8 data offset ;;
  Return (field bs 0 2, field bs 2 4, field bs 4 6, field bs 6 8).

Definition unpack_IIII (data : bytes) (offset : nat) : outcome (Z * Z * Z * Z) :=
  bs <- unpack_bytes 16 data offset ;;
  Return (field bs 0 4, field bs 4 8, field bs 8 12, field bs 12 16).

(** [struct.pack] of several fields: the packed fields, one after another. *)
Fixpoint pack_all (fs : list (outcome bytes)) : outcome bytes :=
  match fs with
  | [] => Return []
  | f :: fs' => a <- f ;; b <- pack_all fs' ;; Return (a ++ b)
  end.

(** [for x in xs: data += x.encode()] *)
Fixpoint encode_each {A : Type} (enc : A -> outcome bytes) (xs : list A)
  : outcome bytes :=
  match xs with
  | [] => Return []
  | x :: xs' => a <- enc x ;; b <- encode_each enc xs' ;; Return (a ++ b)
  end.

(** ** DnsQuestion *)

Definition DnsQuestion_parse (fuel : nat) (data : bytes) (offset : nat)
  : outcome (DnsQuestion * nat) :=
  '(name, offset) <- parse_from fuel data offset ;;
  '(qtype, qclass) <- unpack_HH data offset ;;
  let offset := (offset + 4)%nat in
  Return (mkDnsQuestion name qtype qclass, offset).

Definition DnsQuestion_encode (q : DnsQuestion) : outcome bytes :=
  n <- DomainName_encode (qname q) ;;
  f <- pack_all [pack_H (qtype q); pack_H (qclass q)] ;;
  Return (n ++ f).

(** ** RData and DnsRecord *)

Section Codec.
Context {E : Enums}.

(** A dict literal keeps, for a repeated key, the last value. *)
Fixpoint dict_get {V : Type} (d : list (Z * V)) (k : Z) : option V :=
  match d with
  | [] => None
  | (k', v) :: d' =>
      match dict_get d' k with
      | Some v' => Some v'
      | None => if k' =? k then Some v else None
      end
  end.

Definition handlers : list (Z * Handler) :=
  [(DnsRType_SOA, H_SOA); (DnsRType_NS, H_SingleName);
   (DnsRType_CNAME, H_SingleName); (DnsRType_PTR, H_SingleName);
   (DnsRType_A, H_A); (DnsRType_AAAA, H_AAAA)].

(** [RData.get_handler] *)
Definition get_handler (rtype : Z) : Handler :=
  match dict_get handlers rtype with
  | Some h => h
  | None => H_RData
  end.

(** [ipaddress.ip_address(rdata)] on a bytes object, then [cls(ip)] with its
    assertion on the address family.  The library is no part of the
    repository: this is its documented behaviour on packed addresses, four
    bytes for IPv4 and sixteen for IPv6, and nothing below is proved about
    it. *)
Definition ip_parse (want_v4 : bool) (rdata : bytes) : outcome RData :=
  if (length rdata =? 4)%nat then
    (if want_v4 then Return (RData_A rdata) else Raise AssertionError)
  else if (length rdata =? 16)%nat then
    (if want_v4 then Raise AssertionError else Return (RData_AAAA rdata))
  else Raise ValueError.

(** [handler.parse(data, offset)], as [DnsRecord.parse] calls it. *)
Definition handler_parse (h : Handler) (fuel : nat) (data : bytes) (offset : nat)
  : outcome RData :=
  match h with
  | H_RData => Raise TypeError   (* RData.parse takes the blob only *)
  | H_SOA =>
      '(mname, offset) <- parse_from fuel data offset ;;
      '(rname, offset) <- parse_from fuel data offset ;;
      '(serial, refresh, retry, expire) <- unpack_IIII data offset ;;
      Return (RData_SOA serial refresh retry expire mname rname)
  | H_SingleName =>
      '(name, offset) <- parse_from fuel data offset ;;
      Return (RData_SingleName name)
  | H_A => ip_parse true data
  | H_AAAA => ip_parse false data
  end.

(** The [encode] method of a parsed payload. *)
Definition RData_encode (r : RData) : outcome bytes :=
  match r with
  | RData_blob _ => Raise AttributeError
  | RData_SOA serial refresh retry expire mname rname =>
      m <- DomainName_encode mname ;;
      r <- DomainName_encode rname ;;
      f <- pack_all [pack_I serial; pack_I refresh; pack_I retry; pack_I expire] ;;
      Return (m ++ r ++ f)
  | RData_SingleName name => DomainName_encode name
  | RData_A ip => Return ip
  | RData_AAAA ip => Return ip
  end.

(** [DnsRecord.__init__] *)
Definition DnsRecord_init (name : DomainName) (rtype rclass ttl : Z) (rdata : bytes)
  : DnsRecord :=
  mkDnsRecord name rtype rclass ttl (len rdata) rdata None.

(** [rtype in [DnsRType.NS, DnsRType.SOA, DnsRType.CNAME, DnsRType.PTR]] *)
Definition compression_eligible (rtype : Z) : bool :=
  existsb (Z.eqb rtype) [DnsRType_NS; DnsRType_SOA; DnsRType_CNAME; DnsRType_PTR].

(** [DnsRecord.parse] *)
Definition DnsRecord_parse (fuel : nat) (data : bytes) (offset : nat)
  : outcome (DnsRecord * nat) :=
  '(name, offset) <- parse_from fuel data offset ;;
  '(rtype, rclass, ttl, rdlength) <- unpack_HHIH data offset ;;
  let offset := (offset + 10)%nat in
  let compressed := slice data offset (offset + Z.to_nat rdlength) in
  _ <- assert (len compressed =? rdlength) ;;
  let record := DnsRecord_init name rtype rclass ttl compressed in
  record <-
    (if compression_eligible rtype then
       payload <- handler_parse (get_handler rtype) fuel data offset ;;
       uncompressed <- RData_encode payload ;;
       if negb (bytes_eqb uncompressed compressed) then
         let record := DnsRecord_init name rtype rclass ttl uncompressed in
         Return (set_compressed_rdata record compressed)
       else Return record
     else Return record) ;;
  let offset := (offset + Z.to_nat rdlength)%nat in
  Return (record, offset).

(** [DnsRecord.encode] *)
Definition DnsRecord_encode (r : DnsRecord) : outcome bytes :=
  n <- DomainName_encode (rname_ r) ;;
  f <- pack_all [pack_H (rtype r); pack_H (rclass r); pack_I (ttl r);
                 pack_H (rdlength r)] ;;
  Return (n ++ f ++ rdata r).
End Codec.

(** ** DnsPacket *)

(** The default of [ID] is the expression [random.getrandbits(16)] in the
    [def] line of [__init__]: it is evaluated when the class body runs, and
    the value is stored with the function.  [define_DnsPacket] is that
    evaluation, over a generator state of any type. *)
Definition define_DnsPacket {S : Type} (getrandbits : Z -> S -> Z * S) (s : S)
  : Z * S :=
  getrandbits 16 s.

Section Packet.
Context {E : Enums}.

(** [DnsOpCode(v)] and [DnsResponseCode(v)]: [ValueError] for a value that
    is no member. *)
Definition DnsOpCode_of (v : Z) : outcome Z :=
  if DnsOpCode_member v then Return v else Raise ValueError.

Definition DnsResponseCode_of (v : Z) : outcome Z :=
  if DnsResponseCode_member v then Return v else Raise ValueError.

(** [DnsQR(v)] for the one-bit value read from the header. *)
Definition DnsQR_of (v : Z) : outcome DnsQR :=
  if v =? 0 then Return query
  else if v =? 1 then Return response
  else Raise ValueError.

Definition default_count {A : Type} (c : option Z) (section : list A) : Z :=
  match c with
  | Some c => c
  | None => len section
  end.

(** The body of [DnsPacket.__init__], every argument bound. *)
Definition DnsPacket_body (cls : PacketClass) (ID : Z) (QR : DnsQR) (OPCODE : Z)
    (AA TC RD RA : bool) (Z_ : Z) (RCODE : Z)
    (QDCOUNT ANCOUNT NSCOUNT ARCOUNT : option Z)
    (questions : list DnsQuestion)
    (answers nameservers additional_records : list DnsRecord)
    (suffix : bytes) : outcome DnsPacket :=
  let QDCOUNT := default_count QDCOUNT questions in
  let ANCOUNT := default_count ANCOUNT answers in
  let NSCOUNT := default_count NSCOUNT nameservers in
  let ARCOUNT := default_count ARCOUNT additional_records in
  OPCODE <- DnsOpCode_of OPCODE ;;
  RCODE <- DnsResponseCode_of RCODE ;;
  Return (mkDnsPacket cls ID QR OPCODE AA TC RD RA Z_ RCODE
            QDCOUNT ANCOUNT NSCOUNT ARCOUNT
            questions answers nameservers additional_records suffix).

(** [DnsPacket(...)]: a call that leaves [ID] out takes the value stored at
    class definition. *)
Definition DnsPacket_init (default_ID : Z) (cls : PacketClass) (ID : option Z)
    (QR : DnsQR) (OPCODE : Z) (AA TC RD RA : bool) (Z_ : Z) (RCODE : Z)
    (QDCOUNT ANCOUNT NSCOUNT ARCOUNT : option Z)
    (questions : list DnsQuestion)
    (answers nameservers additional_records : list DnsRecord)
    (suffix : bytes) : outcome DnsPacket :=
  DnsPacket_body cls
    (match ID with Some i => i | None => default_ID end)
    QR OPCODE AA TC RD RA Z_ RCODE QDCOUNT ANCOUNT NSCOUNT ARCOUNT
    questions answers nameservers additional_records suffix.

(** [while len(questions) < QDCOUNT: ...] *)
Fixpoint questions_loop (n fuel : nat) (data : bytes) (offset : nat) (QDCOUNT : Z)
    (questions : list DnsQuestion) : outcome (list DnsQuestion * nat) :=
  match n with
  | O => NoFuel
  | S n' =>
      if len questions <? QDCOUNT then
        '(question, offset) <- DnsQuestion_parse fuel data offset ;;
        questions_loop n' fuel data offset QDCOUNT (questions ++ [question])
      else Return (questions, offset)
  end.

(** [while offset < len(data): ...], up to the loop's [else]. *)
Fixpoint records_loop (n fuel : nat) (data : bytes) (offset : nat)
    (ANCOUNT NSCOUNT ARCOUNT : Z)
    (answers nameservers additional_records : list DnsRecord)
  : outcome (list DnsRecord * list DnsRecord * list DnsRecord * nat) :=
  match n with
  | O => NoFuel
  | S n' =>
      if (offset <? length data)%nat then
        '(rr, offset) <- DnsRecord_parse fuel data offset ;;
        if len answers <? ANCOUNT then
          records_loop n' fuel data offset ANCOUNT NSCOUNT ARCOUNT
            (answers ++ [rr]) nameservers additional_records
        else if len nameservers <? NSCOUNT then
          records_loop n' fuel data offset ANCOUNT NSCOUNT ARCOUNT
            answers (nameservers ++ [rr]) additional_records
        else if len additional_records <? ARCOUNT then
          records_loop n' fuel data offset ANCOUNT NSCOUNT ARCOUNT
            answers nameservers (additional_records ++ [rr])
        else Raise (Exception "Too many/too few records.")
      else Return (answers, nameservers, additional_records, offset)
  end.

(** The header fields [DnsPacket.parse] reads before it turns to the
    sections. *)
Record Header : Type := mkHeader {
  h_ID : Z;
  h_QR : DnsQR;
  h_OPCODE : Z;
  h_AA : bool;
  h_TC : bool;
  h_RD : bool;
  h_RA : bool;
  h_Z : Z;
  h_RCODE : Z;
  h_QDCOUNT : Z;
  h_ANCOUNT : Z;
  h_NSCOUNT : Z;
  h_ARCOUNT : Z
}.

(** [DnsPacket.parse], first part: the twelve bytes of the header. *)
Definition parse_header (data : bytes) : outcome Header :=
  ID <- unpack_H data 0 ;;
  b2 <- index data 2 ;;
  QR <- DnsQR_of (Z.shiftr (Z.land (byte_val b2) 128) 7) ;;
  OPCODE <- DnsOpCode_of (Z.shiftr (Z.land (byte_val b2) 120) 3) ;;
  let AA := negb (Z.land (byte_val b2) 4 =? 0) in
  let TC := negb (Z.land (byte_val b2) 2 =? 0) in
  let RD := negb (Z.land (byte_val b2) 1 =? 0) in
  b3 <- index data 3 ;;
  let RA := negb (Z.land (byte_val b3) 128 =? 0) in
  let Z_ := Z.shiftr (Z.land (byte_val b3) 112) 4 in
  RCODE <- DnsResponseCode_of (Z.land (byte_val b3) 15) ;;
  '(QDCOUNT, ANCOUNT, NSCOUNT, ARCOUNT) <- unpack_HHHH data 4 ;;
  Return (mkHeader ID QR OPCODE AA TC RD RA Z_ RCODE
            QDCOUNT ANCOUNT NSCOUNT ARCOUNT).

(** [DnsPacket.parse], second part: the questions, the records, the
    assertions of the loop's [else] and the construction of the message. *)
Definition parse_sections (fuel : nat) (data : bytes) (h : Header) (offset : nat)
  : outcome (DnsPacket * nat) :=
  '(questions, offset) <- questions_loop fuel fuel data offset (h_QDCOUNT h) [] ;;
  '(answers, nameservers, additional_records, offset) <-
     records_loop fuel fuel data offset (h_ANCOUNT h) (h_NSCOUNT h) (h_ARCOUNT h)
       [] [] [] ;;
  _ <- assert (len questions =? h_QDCOUNT h) ;;
  _ <- assert (len answers =? h_ANCOUNT h) ;;
  _ <- assert (len nameservers =? h_NSCOUNT h) ;;
  _ <- assert (len additional_records =? h_ARCOUNT h) ;;
  let cls := match h_QR h with query => Query | response => Response end in
  p <- DnsPacket_body cls (h_ID h) (h_QR h) (h_OPCODE h) (h_AA h) (h_TC h)
         (h_RD h) (h_RA h) (h_Z h) (h_RCODE h)
         (Some (h_QDCOUNT h)) (Some (h_ANCOUNT h)) (Some (h_NSCOUNT h))
         (Some (h_ARCOUNT h))
         questions answers nameservers additional_records
         (slice_from data offset) ;;
  Return (p, offset).

(** [DnsPacket.parse] *)
Definition DnsPacket_parse (fuel : nat) (data : bytes) (offset : option nat)
  : outcome (DnsPacket * nat) :=
  h <- parse_header data ;;
  let offset := match offset with Some o => o | None => 12%nat end in
  parse_sections fuel data h offset.

(** The records laid out from [offset] to the end of the buffer, parsed one
    after the other: what the record loop of [DnsPacket.parse] reads, before
    any routing. *)
Fixpoint parse_records (n fuel : nat) (data : bytes) (offset : nat)
  : outcome (list DnsRecord * nat) :=
  match n with
  | O => NoFuel
  | S n' =>
      if (offset <? length data)%nat then
        '(rr, offset) <- DnsRecord_parse fuel data offset ;;
        '(rs, offset) <- parse_records n' fuel data offset ;;
        Return (rr :: rs, offset)
      else Return ([], offset)
  end.

(** The first [k] records at [offset], parsed one after the other, as far as
    the buffer goes; what follows them is not looked at. *)
Fixpoint read_records (k fuel : nat) (data : bytes) (offset : nat)
  : outcome (list DnsRecord * nat) :=
  match k with
  | O => Return ([], offset)
  | S k' =>
      if (offset <? length data)%nat then
        '(rr, offset) <- DnsRecord_parse fuel data offset ;;
        '(rs, offset) <- read_records k' fuel data offset ;;
        Return (rr :: rs, offset)
      else Return ([], offset)
  end.

(** The order the record loop fills the three sections in: a later section
    holds records only when the earlier ones are full, and none is filled
    beyond its count. *)
Definition quota_order (ANCOUNT NSCOUNT ARCOUNT : Z)
    (answers nameservers additional_records : list DnsRecord) : Prop :=
  len answers <= ANCOUNT /\ len nameservers <= NSCOUNT
  /\ len additional_records <= ARCOUNT
  /\ (len answers < ANCOUNT -> nameservers = [] /\ additional_records = [])
  /\ (len nameservers < NSCOUNT -> additional_records = []).

(** The two flag bytes of the header, as [encode] computes them. *)
Definition flags_hi (p : DnsPacket) : Z :=
  Z.lor (Z.lor (Z.lor (Z.lor
    (match QR p with response => 128 | query => 0 end)
    (Z.shiftl (OPCODE p) 3))
    (if AA p then 4 else 0))
    (if TC p then 2 else 0))
    (if RD p then 1 else 0).

Definition flags_lo (p : DnsPacket) : Z :=
  Z.lor (Z.lor (if RA p then 128 else 0) (Z.shiftl (Z_ p) 4)) (RCODE p).

(** [DnsPacket.encode] *)
Definition DnsPacket_encode (p : DnsPacket) : outcome bytes :=
  data <- pack_all [pack_H (ID p); pack_B (flags_hi p); pack_B (flags_lo p);
                    pack_H (QDCOUNT p); pack_H (ANCOUNT p);
                    pack_H (NSCOUNT p); pack_H (ARCOUNT p)] ;;
  q <- encode_each DnsQuestion_encode (questions p) ;;
  a <- encode_each DnsRecord_encode (answers p) ;;
  n <- encode_each DnsRecord_encode (nameservers p) ;;
  r <- encode_each DnsRecord_encode (additional_records p) ;;
  Return (data ++ q ++ a ++ n ++ r).
End Packet.

(** ** The process around the constructor *)

(** The arguments of one call [DnsPacket(...)], [Query(...)] or
    [Response(...)]; [a_ID] and the four counts are [None] where the call
    leaves them out. *)
Record InitArgs := mkInitArgs {
  a_cls : PacketClass;
  a_ID : option Z;
  a_QR : DnsQR;
  a_OPCODE : Z;
  a_AA : bool;
  a_TC : bool;
  a_RD : bool;
  a_RA : bool;
  a_Z : Z;
  a_RCODE : Z;
  a_QDCOUNT : option Z;
  a_ANCOUNT : option Z;
  a_NSCOUNT : option Z;
  a_ARCOUNT : option Z;
  a_questions : list DnsQuestion;
  a_answers : list DnsRecord;
  a_nameservers : list DnsRecord;
  a_additional_records : list DnsRecord;
  a_suffix : bytes
}.

(** What the interpreter holds, as far as the transaction ID goes: the
    state of the [random] generator, and the default of [ID] stored with
    [__init__] when the class statement ran. *)
Record Process (G : Type) := mkProcess {
  generator : G;
  ID_default : Z
}.

(** What the program does after the module is loaded: it calls the
    constructor, or it calls [random.getrandbits(k)] somewhere else. *)
Inductive Statement :=
| Construct (a : InitArgs)
| Getrandbits (k : Z).

(** What a statement leaves behind: the constructor's result, or the number
    drawn. *)
Inductive Effect :=
| Built (r : outcome DnsPacket)
| Drew (v : Z).

Section Process.
Context {E : Enums} {G : Type}.
Variable getrandbits : Z -> G -> Z * G.

(** Loading the module runs the class statement, which evaluates the
    default of [ID]: one draw from the generator. *)
Definition import_module (s : G) : Process G :=
  let '(d, s') := define_DnsPacket getrandbits s in
  mkProcess s' d.

(** A call of the constructor: the body runs with the stored default where
    [ID] is left out, and the generator is not touched. *)
Definition construct (p : Process G) (a : InitArgs) : outcome DnsPacket :=
  DnsPacket_init (ID_default p) (a_cls a) (a_ID a) (a_QR a) (a_OPCODE a)
    (a_AA a) (a_TC a) (a_RD a) (a_RA a) (a_Z a) (a_RCODE a)
    (a_QDCOUNT a) (a_ANCOUNT a) (a_NSCOUNT a) (a_ARCOUNT a)
    (a_questions a) (a_answers a) (a_nameservers a) (a_additional_records a)
    (a_suffix a).

Definition exec (p : Process G) (st : Statement) : Effect * Process G :=
  match st with
  | Construct a => (Built (construct p a), p)
  | Getrandbits k =>
      let '(v, s') := getrandbits k (generator p) in
      (Drew v, mkProcess s' (ID_default p))
  end.

Fixpoint run (p : Process G) (prog : list Statement)
  : list Effect * Process G :=
  match prog with
  | [] => ([], p)
  | st :: rest =>
      let '(e, p') := exec p st in
      let '(es, p'') := run p' rest in
      (e :: es, p'')
  end.
End Process.

(** The statements of a program that draw from the generator, and the
    numbers among its effects. *)
Definition draws (prog : list Statement) : list Statement :=
  filter (fun st => match st with Getrandbits _ => true | _ => false end) prog.

Definition drawn (es : list Effect) : list Effect :=
  filter (fun e => match e with Drew _ => true | _ => false end) es.

(** ** The rest of [DomainName] *)

(** [DomainName.parse] *)
Definition DomainName_parse (fuel : nat) (data : bytes) : outcome DomainName :=
  '(name, _) <- parse_from fuel data 0 ;; Return name.

Definition is_dot (c : ascii) : bool := Ascii.eqb c "."%char.

(** [name.rstrip('.')] *)
Fixpoint rstrip_dot (s : string) : string :=
  match s with
  | EmptyString => EmptyString
  | String c s' =>
      match rstrip_dot s' with
      | EmptyString => if is_dot c then EmptyString else String c EmptyString
      | r => String c r
      end
  end.

(** [s.split('.')]: the pieces between the dots, one piece for a string
    without a dot, the empty string included. *)
Fixpoint split_dot (s : string) : list string :=
  match s with
  | EmptyString => [EmptyString]
  | String c s' =>
      if is_dot c then EmptyString :: split_dot s'
      else match split_dot s' with
           | piece :: pieces => String c piece :: pieces
           | [] => [String c EmptyString]
           end
  end.

(** [DomainName.from_string] *)
Definition from_string (name : string) : DomainName :=
  DomainName_init (split_dot (rstrip_dot name)).

(** [root_label = DomainName.from_string('.')] *)
Definition root_label : DomainName := from_string ".".

(** [self[-(n + 1):]] for [n + 1] up to the length of the list. *)
Definition last_labels (k : nat) (ls : list string) : list string :=
  skipn (length ls - k) ls.

(** [DomainName.enumerate_hierarchy]: the names the generator yields, in
    order. *)
Definition enumerate_hierarchy (n : DomainName) : list DomainName :=
  root_label
  :: map (fun k => DomainName_init (last_labels (k + 1) (labels n)))
         (seq 0 (length (labels n))).

(** A character of a label that is no dot, and a label without dots. *)
Fixpoint dot_free (s : string) : bool :=
  match s with
  | EmptyString => true
  | String c s' => negb (is_dot c) && dot_free s'
  end.

(** A label as the decoder produces it: letters, digits and hyphens, fewer
    than 64 of them. *)
Definition wire_ok (l : string) : Prop :=
  allowed_charset_issuperset l = true /\ (String.length l < 64)%nat.

(** ** Messages that survive a round trip *)

(** A label the decoder accepts: 1 to 63 characters, letters, digits and
    hyphen. *)
Definition valid_label (l : string) : bool :=
  (0 <? Z.of_nat (String.length l)) && (Z.of_nat (String.length l) <? 64)
  && allowed_charset_issuperset l.

(** A name the decoder gives back as it was: the root name, or labels the
    decoder accepts whose texts add up to less than 256 characters. *)
Definition valid_name (n : DomainName) : bool :=
  match labels n with
  | [] => false
  | [EmptyString] => true
  | ls => forallb valid_label ls && (sum_len ls <? 256)
  end.

Definition valid_question (q : DnsQuestion) : Prop :=
  valid_name (qname q) = true
  /\ 0 <= qtype q < 65536 /\ 0 <= qclass q < 65536.

(** The payload a handler produces, with names that survive a round trip. *)
Definition valid_payload (h : Handler) (payload : RData) : Prop :=
  match h, payload with
  | H_SOA, RData_SOA serial refresh retry expire mname rname =>
      valid_name mname = true /\ valid_name rname = true
      /\ 0 <= serial < 4294967296 /\ 0 <= refresh < 4294967296
      /\ 0 <= retry < 4294967296 /\ 0 <= expire < 4294967296
  | H_SingleName, RData_SingleName name => valid_name name = true
  | _, _ => False
  end.

Section Validity.
Context {E : Enums}.

(** A record as [DnsRecord(...)] builds it, with fields that fit the wire;
    the RDATA of a compression-eligible type is the uncompressed encoding of
    a payload of that type. *)
Definition valid_record (r : DnsRecord) : Prop :=
  valid_name (rname_ r) = true
  /\ 0 <= rtype r < 65536 /\ 0 <= rclass r < 65536
  /\ 0 <= ttl r < 4294967296
  /\ rdlength r = len (rdata r) /\ len (rdata r) < 65536
  /\ compressed_rdata r = None
  /\ (compression_eligible (rtype r) = true ->
      exists payload,
        valid_payload (get_handler (rtype r)) payload
        /\ RData_encode payload = Return (rdata r)).

Definition valid_message (m : DnsPacket) : Prop :=
  0 <= ID m < 65536
  /\ DnsOpCode_member (OPCODE m) = true /\ 0 <= OPCODE m < 16
  /\ 0 <= Z_ m < 8
  /\ DnsResponseCode_member (RCODE m) = true /\ 0 <= RCODE m < 16
  /\ QDCOUNT m = len (questions m) /\ ANCOUNT m = len (answers m)
  /\ NSCOUNT m = len (nameservers m) /\ ARCOUNT m = len (additional_records m)
  /\ QDCOUNT m < 65536 /\ ANCOUNT m < 65536
  /\ NSCOUNT m < 65536 /\ ARCOUNT m < 65536
  /\ suffix m = []
  /\ Forall valid_question (questions m)
  /\ Forall valid_record (answers m)
  /\ Forall valid_record (nameservers m)
  /\ Forall valid_record (additional_records m).
End Validity.

(** Agreement of two names, questions, records and messages on what the
    wire carries: names by their labels, every other field by equality.  It
    leaves out [compressed_name] of every name and the class of the message
    object; [received_message] below says what those two are after
    decoding. *)
Definition same_name (a b : DomainName) : Prop := labels a = labels b.

Definition same_question (a b : DnsQuestion) : Prop :=
  same_name (qname a) (qname b) /\ qtype a = qtype b /\ qclass a = qclass b.

Definition same_record (a b : DnsRecord) : Prop :=
  same_name (rname_ a) (rname_ b)
  /\ rtype a = rtype b /\ rclass a = rclass b /\ ttl a = ttl b
  /\ rdlength a = rdlength b /\ rdata a = rdata b
  /\ compressed_rdata a = compressed_rdata b.

Definition same_message (a b : DnsPacket) : Prop :=
  ID a = ID b /\ QR a = QR b /\ OPCODE a = OPCODE b
  /\ AA a = AA b /\ TC a = TC b /\ RD a = RD b /\ RA a = RA b
  /\ Z_ a = Z_ b /\ RCODE a = RCODE b
  /\ QDCOUNT a = QDCOUNT b /\ ANCOUNT a = ANCOUNT b
  /\ NSCOUNT a = NSCOUNT b /\ ARCOUNT a = ARCOUNT b
  /\ Forall2 same_question (questions a) (questions b)
  /\ Forall2 same_record (answers a) (answers b)
  /\ Forall2 same_record (nameservers a) (nameservers b)
  /\ Forall2 same_record (additional_records a) (additional_records b)
  /\ suffix a = suffix b.

(** The bytes of a name, for names that encode. *)
Definition name_bytes (n : DomainName) : bytes :=
  match DomainName_encode n with
  | Return bs => bs
  | _ => []
  end.

(** What the decoder makes of an encoded name, question, record and message:
    every name has the same labels and, in [compressed_name], the bytes it
    was read from; the message object is a [Query] or a [Response] by its QR
    bit, whatever the class of the encoded object; every other field is the
    same. *)
Definition received_name (n : DomainName) : DomainName :=
  mkDomainName (labels n) (Some (name_bytes n)).

Definition received_question (q : DnsQuestion) : DnsQuestion :=
  mkDnsQuestion (received_name (qname q)) (qtype q) (qclass q).

Definition received_record (r : DnsRecord) : DnsRecord :=
  mkDnsRecord (received_name (rname_ r)) (rtype r) (rclass r) (ttl r)
    (rdlength r) (rdata r) (compressed_rdata r).

Definition received_message (m : DnsPacket) : DnsPacket :=
  mkDnsPacket (match QR m with query => Query | response => Response end)
    (ID m) (QR m) (OPCODE m) (AA m) (TC m) (RD m) (RA m) (Z_ m) (RCODE m)
    (QDCOUNT m) (ANCOUNT m) (NSCOUNT m) (ARCOUNT m)
    (map received_question (questions m))
    (map received_record (answers m))
    (map received_record (nameservers m))
    (map received_record (additional_records m))
    (suffix m).

(** The wire form of a sequence of non-empty labels, without terminator. *)
Fixpoint wire_labels (ls : list string) : bytes :=
  match ls with
  | [] => []
  | l :: ls' =>
      byte_of (Z.of_nat (String.length l))
      :: (map byte_of_ascii (list_ascii_of_string l) ++ wire_labels ls')
  end.

(** The wire form of a question and of a record whose fields fit. *)
Definition question_bytes (q : DnsQuestion) : bytes :=
  name_bytes (qname q) ++ be16 (qtype q) ++ be16 (qclass q).

Definition record_bytes (r : DnsRecord) : bytes :=
  name_bytes (rname_ r) ++ be16 (rtype r) ++ be16 (rclass r) ++ be32 (ttl r)
  ++ be16 (rdlength r) ++ rdata r.

(** The message [parse] builds from the header fields and the sections. *)
Definition message_of (h : Header) (qs : list DnsQuestion)
    (a s d : list DnsRecord) (sfx : bytes) : DnsPacket :=
  mkDnsPacket (match h_QR h with query => Query | response => Response end)
    (h_ID h) (h_QR h) (h_OPCODE h) (h_AA h) (h_TC h) (h_RD h) (h_RA h)
    (h_Z h) (h_RCODE h)
    (h_QDCOUNT h) (h_ANCOUNT h) (h_NSCOUNT h) (h_ARCOUNT h) qs a s d sfx.

(** The header fields of a message, and the twelve bytes they are packed
    into when they fit. *)
Definition header_of (m : DnsPacket) : Header :=
  mkHeader (ID m) (QR m) (OPCODE m) (AA m) (TC m) (RD m) (RA m) (Z_ m) (RCODE m)
    (QDCOUNT m) (ANCOUNT m) (NSCOUNT m) (ARCOUNT m).

Definition header_bytes (m : DnsPacket) : bytes :=
  be16 (ID m) ++ [byte_of (flags_hi m); byte_of (flags_lo m)]
  ++ be16 (QDCOUNT m) ++ be16 (ANCOUNT m) ++ be16 (NSCOUNT m)
  ++ be16 (ARCOUNT m).

Definition message_bytes (m : DnsPacket) : bytes :=
  header_bytes m
  ++ concat (map question_bytes (questions m))
  ++ concat (map record_bytes (answers m))
  ++ concat (map record_bytes (nameservers m))
  ++ concat (map record_bytes (additional_records m)).

(** ** Concrete buffers and messages *)

Definition bytes_of (l : list Z) : bytes := map byte_of l.

(** A label, then a pointer back to that label: [01 'a' C0 00]. *)
Definition cyclic_name : bytes := bytes_of [1; 97; 192; 0].

(** A label of 63 letters, as text and on the wire. *)
Definition a63 : string := string_of_list_ascii (repeat "a"%char 63).
Definition label63 : bytes := byte_of 63 :: repeat (byte_of 97) 63.

(** Four labels of 63 letters and the terminator: 257 octets on the wire. *)
Definition long_name : bytes := label63 ++ label63 ++ label63 ++ label63 ++ [x00].

(** A name of three such labels at offset 0, and at offset 193 three more
    labels followed by a pointer to offset 0. *)
Definition long_pointer_name : bytes :=
  (label63 ++ label63 ++ label63 ++ [x00])
  ++ (label63 ++ label63 ++ label63 ++ bytes_of [192; 0]).

(** [n] letters [a], a one-label name for every [n]. *)
Fixpoint letters (n : nat) : string :=
  match n with
  | O => EmptyString
  | S n' => String "a"%char (letters n')
  end.

(** A generator that counts up, for the examples: every draw gives the
    state and moves it on by one. *)
Definition counting (k : Z) (n : Z) : Z * Z := (n, n + 1).

(** A call that leaves everything out, and a call for a response with an
    explicit question count; neither passes [ID]. *)
Definition bare_call : InitArgs :=
  mkInitArgs DnsPacket_class None query 0 false false true true 0 0
    None None None None [] [] [] [] [].

Definition response_call : InitArgs :=
  mkInitArgs Response None response 2 true false true true 0 3
    (Some 4) None None None [] [] [] [] [].

(** The same call with [ID=4660]. *)
Definition explicit_call : InitArgs :=
  mkInitArgs DnsPacket_class (Some 4660) query 0 false false true true 0 0
    None None None None [] [] [] [] [].


(** A message whose stored question count disagrees with its (empty)
    question section. *)
Definition desync_packet : DnsPacket :=
  mkDnsPacket DnsPacket_class 1 query 0 false false true false 0 0
    5 0 0 0 [] [] [] [] [].

(** The name [a] at offset 0, and at offset 3 an NS record whose owner
    name and whose RDATA are both a pointer to offset 0. *)
Definition compressed_ns_buffer : bytes :=
  bytes_of [1; 97; 0;  192; 0;  0; 2;  0; 1;  0; 0; 0; 0;  0; 2;  192; 0].

(** The same buffer with a PTR record in place of the NS record. *)
Definition compressed_ptr_buffer : bytes :=
  bytes_of [1; 97; 0;  192; 0;  0; 12;  0; 1;  0; 0; 0; 0;  0; 2;  192; 0].

(** A header that declares no question and no record, followed by one
    well-formed record (root name, type A, class IN, TTL 0, no RDATA). *)
Definition trailing_record_buffer : bytes :=
  bytes_of [0; 1; 1; 0; 0; 0; 0; 0; 0; 0; 0; 0;
            0; 0; 1; 0; 1; 0; 0; 0; 0; 0; 0].

(** The same header followed by one padding byte. *)
Definition padded_buffer : bytes :=
  bytes_of [0; 1; 1; 0; 0; 0; 0; 0; 0; 0; 0; 0; 0].

(** The spec's literal scenario: a response with the question
    www.example.com A IN and one answer whose name is a pointer to the
    question's name; the header is given with the answer count it declares. *)
Definition scenario_header (ancount : Z) : bytes :=
  bytes_of [0; 1; 129; 128; 0; 1; 0; ancount; 0; 0; 0; 0].

Definition scenario_question : bytes :=
  bytes_of [3; 119; 119; 119; 7; 101; 120; 97; 109; 112; 108; 101;
            3; 99; 111; 109; 0; 0; 1; 0; 1].

Definition scenario_answer : bytes :=
  bytes_of [192; 12; 0; 1; 0; 1; 0; 0; 1; 44; 0; 4; 93; 184; 216; 34].

Definition scenario_buffer : bytes :=
  scenario_header 1 ++ scenario_question ++ scenario_answer.

(** The header declares two answers, one is present. *)
Definition two_declared_one_present : bytes :=
  scenario_header 2 ++ scenario_question ++ scenario_answer.

(** The header declares one answer, two are present. *)
Definition one_declared_two_present : bytes :=
  scenario_header 1 ++ scenario_question ++ scenario_answer ++ scenario_answer.

(** [p] with another suffix. *)
Definition with_suffix (p : DnsPacket) (sfx : bytes) : DnsPacket :=
  mkDnsPacket (cls p) (ID p) (QR p) (OPCODE p) (AA p) (TC p) (RD p) (RA p)
    (Z_ p) (RCODE p) (QDCOUNT p) (ANCOUNT p) (NSCOUNT p) (ARCOUNT p)
    (questions p) (answers p) (nameservers p) (additional_records p) sfx.

(** A query for the name [_dmarc], of an ASCII label with an underscore. *)
Definition underscore_message : DnsPacket :=
  mkDnsPacket DnsPacket_class 1 query 0 false false true false 0 0
    1 0 0 0
    [mkDnsQuestion (DomainName_init ["_dmarc"%string]) 16 1] [] [] [] [].

(** An empty query that carries two bytes of suffix. *)
Definition suffix_message : DnsPacket :=
  mkDnsPacket DnsPacket_class 1 query 0 false false true false 0 0
    0 0 0 0 [] [] [] [] (bytes_of [1; 2]).

(** A response whose one answer is an NS record with empty RDATA, the
    default of [DnsRecord(...)]. *)
Definition opaque_ns_message : DnsPacket :=
  mkDnsPacket DnsPacket_class 1 response 0 false false true true 0 0
    0 1 0 0 []
    [DnsRecord_init (DomainName_init ["example"%string; "com"%string]) 2 1 60 []]
    [] [] [].

(** A response with a question, an A answer, an NS record and an SOA
    record, every name spelled out. *)
Definition example_com : DomainName :=
  DomainName_init ["example"%string; "com"%string].

Definition ns1_example_com : DomainName :=
  DomainName_init ["ns1"%string; "example"%string; "com"%string].

Definition plain_message : DnsPacket :=
  mkDnsPacket DnsPacket_class 4660 response 0 true false true true 0 0
    1 1 1 1
    [mkDnsQuestion example_com 1 1]
    [DnsRecord_init example_com 1 1 300 (bytes_of [93; 184; 216; 34])]
    [DnsRecord_init example_com 2 1 300 (name_bytes ns1_example_com)]
    [DnsRecord_init example_com 6 1 300
       (name_bytes ns1_example_com ++ name_bytes example_com
        ++ be32 2024 ++ be32 7200 ++ be32 3600 ++ be32 1209600)]
    [].

(** A response whose one answer is an NS record as the decoder leaves it
    after reading a compressed RDATA: [rdata] is the uncompressed encoding
    of the name, [compressed_rdata] the two bytes of the pointer. *)
Definition decoded_ns_message : DnsPacket :=
  mkDnsPacket Response 1 response 0 false false true true 0 0
    0 1 0 0 []
    [set_compressed_rdata
       (DnsRecord_init example_com 2 1 60 (name_bytes example_com))
       (bytes_of [192; 12])]
    [] [] [].

(** * Properties of the DomainName codec *)

Lemma parse_from_loop_step fuel data starting_offset offset sequence :
  parse_from_loop (S fuel) data starting_offset offset sequence =
  (b <- index data offset ;;
   let c := byte_val b in
   if c =? 0 then
     Return (parse_from_finish data starting_offset (offset + 1) sequence)
   else if c <? 64 then
     label <- decode_ascii (slice data (offset + 1) (offset + 1 + Z.to_nat c)) ;;
     _ <- assert (allowed_charset_issuperset label) ;;
     let offset' := (offset + (Z.to_nat c + 1))%nat in
     let sequence' := sequence ++ [label] in
     _ <- assert (sum_len sequence' <? 256) ;;
     parse_from_loop fuel data starting_offset offset' sequence'
   else if 192 <=? c then
     b1 <- index data (offset + 1) ;;
     let ptr := pointer_target c (byte_val b1) in
     let offset' := (offset + 2)%nat in
     t <- index data ptr ;;
     _ <- assert (byte_val t <? 64) ;;
     '(label, n) <- parse_from_loop fuel data ptr ptr [] ;;
     Return (parse_from_finish data starting_offset offset'
               (sequence ++ labels label))
   else Raise (Exception "Unknown/Invalid DNS Label")).
Proof. reflexivity. Qed.

(** On the cyclic buffer the loop and the recursive call feed each other:
    whatever the fuel, neither comes back. *)
Lemma parse_from_loop_cyclic (n : nat) :
  parse_from_loop n cyclic_name 0 0 [] = NoFuel
  /\ parse_from_loop n cyclic_name 0 2 ["a"%string] = NoFuel.
Proof.
  induction n as [|n [IH0 IH2]]; [split; reflexivity|].
  split; rewrite parse_from_loop_step.
  - change (parse_from_loop n cyclic_name 0 2 ["a"%string] = NoFuel).
    exact IH2.
  - change ((' (label, _) <- parse_from_loop n cyclic_name 0 0 [] ;;
             Return (parse_from_finish cyclic_name 0 4
                       (["a"%string] ++ labels label))) = NoFuel).
    rewrite IH0. reflexivity.
Qed.

(** C1 (as the code behaves): on the buffer [01 'a' C0 00], a label followed
    by a pointer back to that label, [DomainName.parse_from] neither returns
    nor raises for any amount of fuel: the recursion of the pointer branch
    has no bound of its own. *)
Theorem parse_from_cyclic_unbounded :
  forall fuel, parse_from fuel cyclic_name 0 = NoFuel.
Proof.
  intro fuel. unfold parse_from. apply (parse_from_loop_cyclic fuel).
Qed.

(** C4 (as the code behaves): the name of four 63-letter labels takes 257
    octets on the wire, 256 without its terminator, and [parse_from] returns
    it: the check after each label adds up the label texts only (252 here),
    not the length-prefix bytes. *)
Theorem parse_from_accepts_257_octets :
  parse_from 5 long_name 0
  = Return (mkDomainName [a63; a63; a63; a63] (Some long_name), 257%nat)
  /\ length long_name = 257%nat
  /\ sum_len [a63; a63; a63; a63] + len [a63; a63; a63; a63] = 256.
Proof. vm_compute. repeat split. Qed.

(** The labels a pointer brings in are appended after the loop is left, past
    the length check: three labels read in place and three through a pointer
    make a name of 378 letters. *)
Lemma parse_from_pointer_skips_length_check :
  exists name,
    parse_from 9 long_pointer_name 193 = Return (name, 387%nat)
    /\ labels name = [a63; a63; a63; a63; a63; a63]
    /\ sum_len (labels name) = 378.
Proof. eexists. vm_compute. repeat split. Qed.

(** C8: when the decoder stands on a pointer whose target byte is itself a
    pointer (top two bits 11), it raises the assertion error of the
    pointer-to-pointer check; when the target byte is a plain label length
    (below 64) the target is parsed as a name of its own, its labels are
    appended, and the offset advances by the two bytes of the pointer. *)
Theorem parse_from_pointer_target (fuel : nat) (data : bytes)
    (starting_offset offset : nat) (sequence : list string) (b b1 t : byte) :
  nth_error data offset = Some b ->
  192 <= byte_val b ->
  nth_error data (offset + 1) = Some b1 ->
  nth_error data (pointer_target (byte_val b) (byte_val b1)) = Some t ->
  (192 <= byte_val t ->
   parse_from_loop (S fuel) data starting_offset offset sequence
   = Raise AssertionError)
  /\ (byte_val t < 64 ->
      parse_from_loop (S fuel) data starting_offset offset sequence
      = (' (target, _) <- parse_from fuel data
                            (pointer_target (byte_val b) (byte_val b1)) ;;
         Return (mkDomainName
                   (labels (DomainName_init (sequence ++ labels target)))
                   (Some (slice data starting_offset (offset + 2))),
                 (offset + 2)%nat))).
Proof.
  intros Hb Hptr Hb1 Ht.
  assert (Hz : (byte_val b =? 0) = false) by (apply Z.eqb_neq; lia).
  assert (Hl : (byte_val b <? 64) = false) by (apply Z.ltb_ge; lia).
  assert (Hp : (192 <=? byte_val b) = true) by (apply Z.leb_le; lia).
  split; intro Hk; rewrite parse_from_loop_step; unfold index;
    rewrite Hb; cbn [bind]; rewrite Hz, Hl, Hp, Hb1; cbn [bind];
    rewrite Ht; cbn [bind].
  - assert (Hn : (byte_val t <? 64) = false) by (apply Z.ltb_ge; lia).
    rewrite Hn. reflexivity.
  - assert (Hy : (byte_val t <? 64) = true) by (apply Z.ltb_lt; lia).
    rewrite Hy. reflexivity.
Qed.

(** A pointer to a pointer, [C0 02 C0 00], and a pointer to a label,
    [C0 02 01 'a' 00]. *)
Lemma parse_from_pointer_target_witness :
  parse_from_loop 3 (bytes_of [192; 2; 192; 0]) 0 0 [] = Raise AssertionError
  /\ exists r, parse_from_loop 3 (bytes_of [192; 2; 1; 97; 0]) 0 0 [] = Return r
               /\ labels (fst r) = ["a"%string].
Proof.
  split.
  - refine (proj1 (@parse_from_pointer_target 2 (bytes_of [192; 2; 192; 0]) 0 0 []
                     (byte_of 192) (byte_of 2) (byte_of 192) _ _ _ _) _);
      vm_compute; congruence.
  - eexists.
    rewrite (proj2 (@parse_from_pointer_target 2 (bytes_of [192; 2; 1; 97; 0]) 0 0 []
                     (byte_of 192) (byte_of 2) (byte_of 1)
                     eq_refl ltac:(vm_compute; congruence) eq_refl eq_refl)
                   ltac:(vm_compute; reflexivity)).
    vm_compute. split; reflexivity.
Defined.

(** ** Equality and hashing of names *)

Lemma byte_val_range (b : byte) : 0 <= byte_val b < 256.
Proof. unfold byte_val. pose proof (Byte.to_N_bounded b). lia. Qed.

Lemma byte_val_byte_of (z : Z) : 0 <= z < 256 -> byte_val (byte_of z) = z.
Proof.
  intro Hz. unfold byte_of, byte_val.
  destruct (Byte.of_N (Z.to_N z)) as [b|] eqn:Hb.
  - apply Byte.to_of_N in Hb. lia.
  - apply Byte.of_N_None_iff in Hb. lia.
Qed.








(** * Bytes and fixed-width fields *)

Lemma bind_Return_inv {A B : Type} (m : outcome A) (k : A -> outcome B) (b : B) :
  bind m k = Return b -> exists a, m = Return a /\ k a = Return b.
Proof. destruct m as [a| |]; cbn; intro H; try discriminate. now exists a. Qed.

Lemma be16_val (v : Z) : 0 <= v < 65536 -> be_val (be16 v) 0 = v.
Proof.
  intro Hv. unfold be16. cbn [be_val].
  rewrite !byte_val_byte_of.
  - pose proof (Z.div_mod v 256). lia.
  - apply Z.mod_pos_bound. lia.
  - split; [apply Z.div_pos; lia | apply Z.div_lt_upper_bound; lia].
Qed.

Lemma be32_digits (v : Z) :
  0 <= v < 4294967296 ->
  exists a b c d,
    v = ((a * 256 + b) * 256 + c) * 256 + d
    /\ 0 <= a < 256 /\ 0 <= b < 256 /\ 0 <= c < 256 /\ 0 <= d < 256
    /\ v / 16777216 = a /\ (v / 65536) mod 256 = b
    /\ (v / 256) mod 256 = c /\ v mod 256 = d.
Proof.
  intros Hv.
  assert (E2 : v / 65536 = v / 256 / 256)
    by (rewrite Z.div_div by lia; reflexivity).
  assert (E3 : v / 16777216 = v / 256 / 256 / 256)
    by (rewrite !Z.div_div by lia; reflexivity).
  rewrite E2, E3.
  pose proof (Z.div_mod v 256 ltac:(lia)) as H0.
  pose proof (Z.mod_pos_bound v 256 ltac:(lia)) as B0.
  pose proof (Z.div_mod (v / 256) 256 ltac:(lia)) as H1.
  pose proof (Z.mod_pos_bound (v / 256) 256 ltac:(lia)) as B1.
  pose proof (Z.div_mod (v / 256 / 256) 256 ltac:(lia)) as H2.
  pose proof (Z.mod_pos_bound (v / 256 / 256) 256 ltac:(lia)) as B2.
  exists (v / 256 / 256 / 256), ((v / 256 / 256) mod 256),
         ((v / 256) mod 256), (v mod 256).
  generalize dependent (v mod 256).
  generalize dependent ((v / 256) mod 256).
  generalize dependent ((v / 256 / 256) mod 256).
  generalize dependent (v / 256 / 256 / 256).
  generalize dependent (v / 256 / 256).
  generalize dependent (v / 256).
  intros. repeat split; lia.
Qed.

Lemma be32_val (v : Z) : 0 <= v < 4294967296 -> be_val (be32 v) 0 = v.
Proof.
  intro Hv. unfold be32. cbn [be_val].
  destruct (be32_digits Hv)
    as (a & b & c & d & Hsum & Ha & Hb & Hc & Hd & -> & -> & -> & ->).
  rewrite !byte_val_byte_of by assumption. lia.
Qed.

Lemma pack_H_Return (v : Z) (bs : bytes) :
  pack_H v = Return bs -> 0 <= v < 65536 /\ bs = be16 v.
Proof.
  unfold pack_H. destruct (0 <=? v) eqn:H0; destruct (v <? 65536) eqn:H1;
    cbn; intro H; inversion H. split; [lia | reflexivity].
Qed.

Lemma pack_B_Return (v : Z) (bs : bytes) :
  pack_B v = Return bs -> 0 <= v < 256 /\ bs = [byte_of v].
Proof.
  unfold pack_B. destruct (0 <=? v) eqn:H0; destruct (v <? 256) eqn:H1;
    cbn; intro H; inversion H. split; [lia | reflexivity].
Qed.

Lemma pack_all_cons_Return (f : outcome bytes) (fs : list (outcome bytes)) (bs : bytes) :
  pack_all (f :: fs) = Return bs ->
  exists a b, f = Return a /\ pack_all fs = Return b /\ bs = a ++ b.
Proof.
  cbn [pack_all]. intro H.
  apply bind_Return_inv in H. destruct H as (a & Ha & H).
  apply bind_Return_inv in H. destruct H as (b & Hb & H).
  inversion H. now exists a, b.
Qed.

Lemma field_be16 (v : Z) (pre post : bytes) (lo : nat) :
  0 <= v < 65536 -> length pre = lo ->
  field (pre ++ be16 v ++ post) lo (lo + 2) = v.
Proof.
  intros Hv Hlo. unfold field, slice.
  replace (lo + 2 - lo)%nat with 2%nat by lia.
  rewrite skipn_app, <- Hlo, skipn_all, Nat.sub_diag. cbn [skipn app firstn be16].
  now apply be16_val.
Qed.

(** * Properties of the message codec *)

(** ** The header written by [encode] *)

(** The twelve bytes [encode] starts with. *)
Lemma DnsPacket_encode_header (p : DnsPacket) (bs : bytes) :
  DnsPacket_encode p = Return bs ->
  exists body,
    bs = be16 (ID p) ++ [byte_of (flags_hi p); byte_of (flags_lo p)]
         ++ be16 (QDCOUNT p) ++ be16 (ANCOUNT p) ++ be16 (NSCOUNT p)
         ++ be16 (ARCOUNT p) ++ body
    /\ 0 <= ID p < 65536 /\ 0 <= flags_hi p < 256 /\ 0 <= flags_lo p < 256
    /\ 0 <= QDCOUNT p < 65536 /\ 0 <= ANCOUNT p < 65536
    /\ 0 <= NSCOUNT p < 65536 /\ 0 <= ARCOUNT p < 65536.
Proof.
  unfold DnsPacket_encode. intro H.
  apply bind_Return_inv in H. destruct H as (hdr & Hhdr & H).
  apply bind_Return_inv in H. destruct H as (q & _ & H).
  apply bind_Return_inv in H. destruct H as (a & _ & H).
  apply bind_Return_inv in H. destruct H as (n & _ & H).
  apply bind_Return_inv in H. destruct H as (r & _ & H).
  inversion H; subst bs; clear H.
  repeat (apply pack_all_cons_Return in Hhdr;
          let x := fresh "x" in let y := fresh "y" in
          let Hx := fresh "Hx" in let Hy := fresh "Hy" in let He := fresh "He" in
          destruct Hhdr as (x & y & Hx & Hhdr & He)).
  cbn in Hhdr. inversion Hhdr; subst.
  repeat match goal with
         | H : pack_H _ = Return _ |- _ => apply pack_H_Return in H; destruct H as [? ->]
         | H : pack_B _ = Return _ |- _ => apply pack_B_Return in H; destruct H as [? ->]
         end.
  exists (q ++ a ++ n ++ r).
  repeat split; lia.
Qed.

(** C3 (as stated, refuted): a message that stores QDCOUNT = 5 over an empty
    question section is encoded with 5 in the header's question count, not
    with the length of the section. *)
Lemma encode_counts_not_recomputed :
  exists bs,
    DnsPacket_encode desync_packet = Return bs
    /\ unpack_HHHH bs 4 = Return (5, 0, 0, 0)
    /\ (len (questions desync_packet), len (answers desync_packet),
        len (nameservers desync_packet), len (additional_records desync_packet))
       = (0, 0, 0, 0).
Proof. eexists. vm_compute. repeat split. Qed.

(** C3 (amended): the four 16-bit count fields of the header [encode] writes
    are the stored QDCOUNT, ANCOUNT, NSCOUNT and ARCOUNT fields of the
    message; they are the lengths of the sections when the stored fields
    are. *)
Theorem encode_counts_are_stored_fields (p : DnsPacket) (bs : bytes) :
  DnsPacket_encode p = Return bs ->
  unpack_HHHH bs 4 = Return (QDCOUNT p, ANCOUNT p, NSCOUNT p, ARCOUNT p)
  /\ (QDCOUNT p = len (questions p) -> ANCOUNT p = len (answers p) ->
      NSCOUNT p = len (nameservers p) ->
      ARCOUNT p = len (additional_records p) ->
      unpack_HHHH bs 4
      = Return (len (questions p), len (answers p), len (nameservers p),
                len (additional_records p))).
Proof.
  intro H. apply DnsPacket_encode_header in H.
  destruct H as (body & -> & _ & _ & _ & Hq & Ha & Hn & Hr).
  assert (Hread : unpack_HHHH
                    (be16 (ID p) ++ [byte_of (flags_hi p); byte_of (flags_lo p)]
                     ++ be16 (QDCOUNT p) ++ be16 (ANCOUNT p) ++ be16 (NSCOUNT p)
                     ++ be16 (ARCOUNT p) ++ body) 4
                  = Return (QDCOUNT p, ANCOUNT p, NSCOUNT p, ARCOUNT p)).
  { unfold unpack_HHHH, unpack_bytes.
    replace (4 + 8 <=? _)%nat with true
      by (symmetry; apply Nat.leb_le; rewrite !length_app; cbn; lia).
    cbn [bind]. unfold slice. cbn [be16 app skipn firstn Nat.sub Nat.add].
    repeat f_equal.
    - apply (@field_be16 (QDCOUNT p) [] _ 0 Hq eq_refl).
    - apply (@field_be16 (ANCOUNT p) [_; _] _ 2 Ha eq_refl).
    - apply (@field_be16 (NSCOUNT p) [_; _; _; _] _ 4 Hn eq_refl).
    - apply (@field_be16 (ARCOUNT p) [_; _; _; _; _; _] [] 6 Hr eq_refl). }
  split; [exact Hread|].
  intros <- <- <- <-. exact Hread.
Qed.

Lemma encode_counts_are_stored_fields_witness :
  exists bs,
    DnsPacket_encode desync_packet = Return bs
    /\ unpack_HHHH bs 4 = Return (5, 0, 0, 0).
Proof.
  eexists. split.
  - vm_compute. reflexivity.
  - apply (proj1 (@encode_counts_are_stored_fields desync_packet _ eq_refl)).
Defined.

(** A message built with its counts left out stores the section lengths. *)
Lemma DnsPacket_init_default_counts (E : Enums) (default_ID : Z) (c : PacketClass)
    (i : option Z) (qr : DnsQR) (op : Z) (aa tc rd ra : bool) (z rc : Z)
    (qs : list DnsQuestion) (an ns ar : list DnsRecord) (sfx : bytes)
    (p : DnsPacket) :
  DnsPacket_init default_ID c i qr op aa tc rd ra z rc None None None None
    qs an ns ar sfx = Return p ->
  QDCOUNT p = len (questions p) /\ ANCOUNT p = len (answers p)
  /\ NSCOUNT p = len (nameservers p) /\ ARCOUNT p = len (additional_records p).
Proof.
  unfold DnsPacket_init, DnsPacket_body, DnsOpCode_of, DnsResponseCode_of.
  destruct (DnsOpCode_member op); cbn; [|discriminate].
  destruct (DnsResponseCode_member rc); cbn; [|discriminate].
  intro H; inversion H; subst; cbn. repeat split.
Qed.

(** ** The default transaction ID *)

(** The transaction ID of a packet the constructor returns. *)
Lemma construct_ID (E : Enums) (G : Type) (p : Process G) (a : InitArgs)
    (pkt : DnsPacket) :
  construct p a = Return pkt ->
  ID pkt = match a_ID a with Some i => i | None => ID_default p end.
Proof.
  unfold construct, DnsPacket_init, DnsPacket_body, DnsOpCode_of,
    DnsResponseCode_of.
  destruct (DnsOpCode_member (a_OPCODE a)); cbn; [|discriminate].
  destruct (DnsResponseCode_member (a_RCODE a)); cbn; [|discriminate].
  intro H. inversion H; subst. reflexivity.
Qed.

(** No statement changes the stored default. *)
Lemma exec_ID_default (E : Enums) (G : Type) (getrandbits : Z -> G -> Z * G)
    (p : Process G) (st : Statement) :
  ID_default (snd (exec getrandbits p st)) = ID_default p.
Proof.
  destruct st as [a|k]; cbn; [reflexivity|].
  destruct (getrandbits k (generator p)); reflexivity.
Qed.

Lemma run_cons (E : Enums) (G : Type) (getrandbits : Z -> G -> Z * G)
    (p : Process G) (st : Statement) (rest : list Statement) :
  run getrandbits p (st :: rest)
  = (fst (exec getrandbits p st)
       :: fst (run getrandbits (snd (exec getrandbits p st)) rest),
     snd (run getrandbits (snd (exec getrandbits p st)) rest)).
Proof.
  cbn [run]. destruct (exec getrandbits p st) as [e p'].
  cbn [fst snd]. destruct (run getrandbits p' rest); reflexivity.
Qed.

(** The effect of the [i]-th statement is the effect of running it in a
    process with the default the run started with. *)
Lemma run_nth (E : Enums) (G : Type) (getrandbits : Z -> G -> Z * G) :
  forall (prog : list Statement) (p : Process G) (i : nat) (st : Statement),
    nth_error prog i = Some st ->
    exists p',
      ID_default p' = ID_default p
      /\ nth_error (fst (run getrandbits p prog)) i
         = Some (fst (exec getrandbits p' st)).
Proof.
  induction prog as [|st0 rest IH]; intros p i st Hi.
  - destruct i; discriminate.
  - rewrite run_cons. cbn [fst]. destruct i as [|i]; cbn [nth_error] in *.
    + inversion Hi; subst. exists p. split; reflexivity.
    + destruct (IH (snd (exec getrandbits p st0)) i st Hi) as (p' & Hd & Hn).
      exists p'. split; [|exact Hn].
      rewrite Hd. apply exec_ID_default.
Qed.

(** The constructor calls of a program leave the generator alone: the state
    at the end, and the numbers drawn on the way, are those of the program
    with the constructor calls taken out. *)
Lemma run_draws (E : Enums) (G : Type) (getrandbits : Z -> G -> Z * G) :
  forall (prog : list Statement) (p : Process G),
    snd (run getrandbits p prog) = snd (run getrandbits p (draws prog))
    /\ drawn (fst (run getrandbits p prog))
       = fst (run getrandbits p (draws prog)).
Proof.
  induction prog as [|st rest IH]; intro p; [split; reflexivity|].
  rewrite run_cons. cbn [fst snd].
  destruct st as [a|k].
  - cbn [draws filter exec fst snd drawn]. apply IH.
  - change (draws (Getrandbits k :: rest)) with (Getrandbits k :: draws rest).
    rewrite run_cons. cbn [fst snd].
    destruct (IH (snd (exec getrandbits p (Getrandbits k)))) as [H1 H2].
    split; [exact H1|].
    assert (Hdrew : exists v, fst (exec getrandbits p (Getrandbits k)) = Drew v).
    { cbn [exec]. destruct (getrandbits k (generator p)).
      eexists. reflexivity. }
    destruct Hdrew as [v Hv]. rewrite Hv.
    cbn [drawn filter]. f_equal. exact H2.
Qed.

(** C10: in a process that loads the module with its generator in state
    [s] and then runs any program of constructor calls and further draws
    from the generator, every packet built by a call that leaves [ID] out
    carries the number the class statement drew, [getrandbits 16 s], so any
    two such packets carry the same ID, however many draws lie between
    their constructions; a call that passes [ID] gets that ID; and the
    constructor calls draw nothing: the generator ends in the state, and the
    program's own draws give the numbers, of the program without them. *)
Theorem default_ID_sampled_once (E : Enums) (G : Type)
    (getrandbits : Z -> G -> Z * G) (s : G) (prog : list Statement) :
  let effects := fst (run getrandbits (import_module getrandbits s) prog) in
  (forall i a pkt,
      nth_error prog i = Some (Construct a) -> a_ID a = None ->
      nth_error effects i = Some (Built (Return pkt)) ->
      ID pkt = fst (getrandbits 16 s))
  /\ (forall i j a b p q,
         nth_error prog i = Some (Construct a) -> a_ID a = None ->
         nth_error prog j = Some (Construct b) -> a_ID b = None ->
         nth_error effects i = Some (Built (Return p)) ->
         nth_error effects j = Some (Built (Return q)) ->
         ID p = ID q)
  /\ (forall i a v pkt,
         nth_error prog i = Some (Construct a) -> a_ID a = Some v ->
         nth_error effects i = Some (Built (Return pkt)) ->
         ID pkt = v)
  /\ snd (run getrandbits (import_module getrandbits s) prog)
     = snd (run getrandbits (import_module getrandbits s) (draws prog))
  /\ drawn effects
     = fst (run getrandbits (import_module getrandbits s) (draws prog)).
Proof.
  intro effects. subst effects.
  assert (Hd0 : ID_default (import_module getrandbits s)
                = fst (getrandbits 16 s)).
  { unfold import_module, define_DnsPacket.
    destruct (getrandbits 16 s); reflexivity. }
  assert (Hid : forall i a pkt,
             nth_error prog i = Some (Construct a) ->
             nth_error (fst (run getrandbits (import_module getrandbits s) prog)) i
             = Some (Built (Return pkt)) ->
             ID pkt = match a_ID a with
                      | Some v => v
                      | None => fst (getrandbits 16 s)
                      end).
  { intros i a pkt Hi He.
    destruct (@run_nth E G getrandbits prog (import_module getrandbits s) i
                (Construct a) Hi) as (p' & Hd & Hn).
    rewrite Hn in He. cbn [exec fst] in He.
    inversion He as [Hc]. apply construct_ID in Hc.
    rewrite Hc, Hd, Hd0. reflexivity. }
  split; [|split; [|split]].
  - intros i a pkt Hi Ha He. rewrite (Hid i a pkt Hi He), Ha. reflexivity.
  - intros i j a b p q Hi Ha Hj Hb Hp Hq.
    rewrite (Hid i a p Hi Hp), (Hid j b q Hj Hq), Ha, Hb. reflexivity.
  - intros i a v pkt Hi Ha He. rewrite (Hid i a pkt Hi He), Ha. reflexivity.
  - apply run_draws.
Qed.

(** Over the counting generator started at 7: the class statement draws 7;
    the program builds a packet, draws twice, builds a response, and builds
    a packet with [ID=4660].  Both packets built without [ID] carry 7,
    though the draws between them gave 8 and 9. *)
Lemma default_ID_sampled_once_witness :
  exists p1 p2 p3,
    fst (run counting (import_module counting 7)
           [Construct bare_call; Getrandbits 16; Getrandbits 16;
            Construct response_call; Construct explicit_call])
    = [Built (Return p1); Drew 8; Drew 9; Built (Return p2);
       Built (Return p3)]
    /\ ID p1 = 7 /\ ID p2 = 7 /\ ID p1 = ID p2 /\ ID p3 = 4660
    /\ generator
         (snd (run counting (import_module counting 7)
                 [Construct bare_call; Getrandbits 16; Getrandbits 16;
                  Construct response_call; Construct explicit_call]))
       = 10.
Proof.
  pose proof (@default_ID_sampled_once rfc1035 Z counting 7
                [Construct bare_call; Getrandbits 16; Getrandbits 16;
                 Construct response_call; Construct explicit_call])
    as (Hone & Htwo & Hexp & Hgen & _).
  do 3 eexists.
  split; [vm_compute; reflexivity|].
  split; [exact (Hone 0%nat bare_call _ eq_refl eq_refl eq_refl)|].
  split; [exact (Hone 3%nat response_call _ eq_refl eq_refl eq_refl)|].
  split; [exact (Htwo 0%nat 3%nat bare_call response_call _ _
                   eq_refl eq_refl eq_refl eq_refl eq_refl eq_refl)|].
  split; [exact (Hexp 4%nat explicit_call 4660 _ eq_refl eq_refl eq_refl)|].
  rewrite Hgen. reflexivity.
Defined.


(** * Properties of the resource record codec *)

(** Take one [bind] of a hypothesis [m >>= k = Return b] apart. *)
Tactic Notation "bind_inv" hyp(H) ident(x) ident(Hx) :=
  apply bind_Return_inv in H; destruct H as (x & Hx & H).

Lemma bytes_eqb_eq (a b : bytes) : bytes_eqb a b = true <-> a = b.
Proof.
  revert b. induction a as [|x a IH]; intros [|y b]; cbn; split; intro H;
    try reflexivity; try discriminate.
  - apply andb_true_iff in H. destruct H as [Hxy Hab].
    apply Byte.byte_dec_bl in Hxy. apply IH in Hab. congruence.
  - inversion H; subst. apply andb_true_iff. split.
    + now apply Byte.byte_dec_lb.
    + now apply IH.
Qed.

Lemma assert_Return (b : bool) (u : unit) : assert b = Return u -> b = true.
Proof. destruct b; cbn; [reflexivity | discriminate]. Qed.

(** The types [DnsRecord.parse] decodes again are NS, SOA, CNAME and PTR,
    and no other. *)
Lemma compression_eligible_iff (E : Enums) (t : Z) :
  compression_eligible t = true
  <-> t = DnsRType_NS \/ t = DnsRType_SOA \/ t = DnsRType_CNAME
      \/ t = DnsRType_PTR.
Proof.
  unfold compression_eligible. cbn [existsb]. rewrite !orb_true_iff, !Z.eqb_eq.
  intuition discriminate.
Qed.

(** C7: a parsed record whose type is NS, SOA, CNAME or PTR has had its
    payload decoded by the handler of its type, on the whole buffer at the
    offset of its RDATA, and encoded again; when the encoding differs from
    the raw [rdlength]-byte slice, the record's RDATA is that encoding and
    the raw slice is kept as [compressed_rdata]; when it does not differ,
    and for a record of any other type, the RDATA is the raw slice and
    nothing else is kept. *)
Theorem DnsRecord_parse_rdata (E : Enums) (fuel : nat) (data : bytes)
    (offset : nat) (record : DnsRecord) (offset' : nat) :
  DnsRecord_parse fuel data offset = Return (record, offset') ->
  exists (name : DomainName) (o : nat) (rdlen : Z),
    parse_from fuel data offset = Return (name, o)
    /\ unpack_HHIH data o
       = Return (rtype record, rclass record, ttl record, rdlen)
    /\ rname_ record = name
    /\ offset' = (o + 10 + Z.to_nat rdlen)%nat
    /\ let raw := slice data (o + 10) (o + 10 + Z.to_nat rdlen) in
       len raw = rdlen
       /\ rdlength record = len (rdata record)
       /\ (rtype record = DnsRType_NS \/ rtype record = DnsRType_SOA
           \/ rtype record = DnsRType_CNAME \/ rtype record = DnsRType_PTR ->
           exists (payload : RData) (canonical : bytes),
             handler_parse (get_handler (rtype record)) fuel data (o + 10)%nat
             = Return payload
             /\ RData_encode payload = Return canonical
             /\ (canonical <> raw ->
                 rdata record = canonical /\ compressed_rdata record = Some raw)
             /\ (canonical = raw ->
                 rdata record = raw /\ compressed_rdata record = None))
       /\ (rtype record <> DnsRType_NS -> rtype record <> DnsRType_SOA ->
           rtype record <> DnsRType_CNAME -> rtype record <> DnsRType_PTR ->
           rdata record = raw /\ compressed_rdata record = None).
Proof.
  unfold DnsRecord_parse. intro H.
  bind_inv H r1 Hname. destruct r1 as [name o]. cbn beta iota in H.
  bind_inv H r2 Hfix. destruct r2 as [[[ty cl] tl] rdlen]. cbn beta iota zeta in H.
  bind_inv H u Hlen. apply assert_Return, Z.eqb_eq in Hlen.
  bind_inv H rec Hrec. inversion H; subst rec offset'; clear H.
  exists name, o, rdlen.
  pose proof (compression_eligible_iff E ty) as Hiff.
  destruct (compression_eligible ty) eqn:Helig.
  - assert (Hno : ~ (ty <> DnsRType_NS /\ ty <> DnsRType_SOA
                     /\ ty <> DnsRType_CNAME /\ ty <> DnsRType_PTR))
      by (destruct (proj1 Hiff eq_refl) as [Ht|[Ht|[Ht|Ht]]]; tauto).
    bind_inv Hrec payload Hpay. bind_inv Hrec canonical Hcan.
    destruct (bytes_eqb canonical
                (slice data (o + 10) (o + 10 + Z.to_nat rdlen))) eqn:Heq;
      cbn [negb] in Hrec; inversion Hrec; subst record; clear Hrec;
      cbn [rtype rclass ttl rname_ rdata rdlength compressed_rdata
           DnsRecord_init set_compressed_rdata];
      (split; [assumption|]); (split; [assumption|]); (split; [reflexivity|]);
      (split; [reflexivity|]); (split; [assumption|]);
      (split; [reflexivity|]); (split; [|tauto]); intros _;
      exists payload, canonical;
      (split; [assumption|]); (split; [assumption|]).
    + apply bytes_eqb_eq in Heq. split; [congruence | auto].
    + assert (canonical <> slice data (o + 10) (o + 10 + Z.to_nat rdlen))
        by (intro Hc; apply bytes_eqb_eq in Hc; congruence).
      split; [auto | contradiction].
  - inversion Hrec; subst record; clear Hrec.
    cbn [rtype rclass ttl rname_ rdata rdlength compressed_rdata DnsRecord_init].
    repeat (split; [first [assumption | reflexivity]|]).
    split; [|auto].
    intro Ht. apply Hiff in Ht. discriminate.
Qed.

(** An NS record and a PTR record whose RDATA is a pointer. *)
Lemma DnsRecord_parse_rdata_witness :
  (exists record,
      DnsRecord_parse 5 compressed_ns_buffer 3 = Return (record, 17%nat)
      /\ rdata record = bytes_of [1; 97; 0]
      /\ compressed_rdata record = Some (bytes_of [192; 0]))
  /\ (exists record,
         DnsRecord_parse 5 compressed_ptr_buffer 3 = Return (record, 17%nat)
         /\ rdata record = bytes_of [1; 97; 0]
         /\ compressed_rdata record = Some (bytes_of [192; 0])).
Proof.
  split.
  - assert (Hrun : exists record,
               DnsRecord_parse 5 compressed_ns_buffer 3 = Return (record, 17%nat))
      by (eexists; vm_compute; reflexivity).
    destruct Hrun as [record Hrun]. exists record. split; [exact Hrun|].
    destruct (@DnsRecord_parse_rdata rfc1035 5 compressed_ns_buffer 3 record 17
                Hrun)
      as (name & o & rdlen & Hname & Hfix & _ & _ & _ & _ & Hcase & _).
    vm_compute in Hname. inversion Hname; subst name o; clear Hname.
    vm_compute in Hrun. inversion Hrun; subst record; clear Hrun.
    vm_compute in Hfix. inversion Hfix; subst rdlen; clear Hfix.
    destruct (Hcase (or_introl eq_refl))
      as (payload & canonical & Hpay & Hcan & Hdiff & _).
    vm_compute in Hpay. inversion Hpay; subst payload; clear Hpay.
    vm_compute in Hcan. inversion Hcan; subst canonical; clear Hcan.
    apply Hdiff. vm_compute. discriminate.
  - assert (Hrun : exists record,
               DnsRecord_parse 5 compressed_ptr_buffer 3 = Return (record, 17%nat))
      by (eexists; vm_compute; reflexivity).
    destruct Hrun as [record Hrun]. exists record. split; [exact Hrun|].
    destruct (@DnsRecord_parse_rdata rfc1035 5 compressed_ptr_buffer 3 record 17
                Hrun)
      as (name & o & rdlen & Hname & Hfix & _ & _ & _ & _ & Hcase & _).
    vm_compute in Hname. inversion Hname; subst name o; clear Hname.
    vm_compute in Hrun. inversion Hrun; subst record; clear Hrun.
    vm_compute in Hfix. inversion Hfix; subst rdlen; clear Hfix.
    destruct (Hcase (or_intror (or_intror (or_intror eq_refl))))
      as (payload & canonical & Hpay & Hcan & Hdiff & _).
    vm_compute in Hpay. inversion Hpay; subst payload; clear Hpay.
    vm_compute in Hcan. inversion Hcan; subst canonical; clear Hcan.
    apply Hdiff. vm_compute. discriminate.
Defined.

(** * Properties of the message decoder *)

Lemma len_app {A : Type} (l l' : list A) : len (l ++ l') = len l + len l'.
Proof. unfold len. rewrite length_app. lia. Qed.

Lemma len_nonneg {A : Type} (l : list A) : 0 <= len l.
Proof. unfold len. lia. Qed.

(** ** Questions *)

(** The question loop stops with as many questions as the count asks for. *)
Lemma questions_loop_length (n fuel : nat) (data : bytes) (offset : nat)
    (QD : Z) (qs qs' : list DnsQuestion) (offset' : nat) :
  questions_loop n fuel data offset QD qs = Return (qs', offset') ->
  len qs <= QD ->
  len qs' = QD.
Proof.
  revert offset qs. induction n as [|n IH]; intros offset qs H Hle; [discriminate|].
  cbn [questions_loop] in H.
  destruct (len qs <? QD) eqn:Hlt.
  - bind_inv H r Hq. destruct r as [q o]. cbn beta iota in H.
    apply (IH _ _ H). rewrite len_app. apply Z.ltb_lt in Hlt.
    change (len [q]) with 1. lia.
  - inversion H; subst. apply Z.ltb_ge in Hlt. lia.
Qed.

(** A name cannot be read at or past the end of the buffer. *)
Lemma parse_from_past_end (fuel : nat) (data : bytes) (offset : nat) :
  (length data <= offset)%nat ->
  parse_from (S fuel) data offset = Raise IndexError.
Proof.
  intro H. unfold parse_from. rewrite parse_from_loop_step. unfold index.
  apply nth_error_None in H. now rewrite H.
Qed.

(** ** Records *)

(** The record loop leaves only at the end of the buffer. *)
Lemma records_loop_end (E : Enums) (n fuel : nat) (data : bytes) (offset : nat)
    (AN NS AR : Z) (a s d a' s' d' : list DnsRecord) (offset' : nat) :
  records_loop n fuel data offset AN NS AR a s d = Return (a', s', d', offset') ->
  (length data <= offset')%nat.
Proof.
  revert offset a s d. induction n as [|n IH]; intros offset a s d H; [discriminate|].
  cbn [records_loop] in H.
  destruct (offset <? length data)%nat eqn:Hlt.
  - bind_inv H r Hr. destruct r as [rr o]. cbn beta iota in H.
    destruct (len a <? AN); [exact (IH _ _ _ _ H)|].
    destruct (len s <? NS); [exact (IH _ _ _ _ H)|].
    destruct (len d <? AR); [exact (IH _ _ _ _ H)|discriminate].
  - inversion H; subst. now apply Nat.ltb_ge in Hlt.
Qed.

Lemma quota_order_nil (AN NS AR : Z) :
  0 <= AN -> 0 <= NS -> 0 <= AR -> quota_order AN NS AR [] [] [].
Proof.
  intros. unfold quota_order. change (len (@nil DnsRecord)) with 0.
  repeat split; auto.
Qed.

(** The record loop against the records of the buffer: when the three counts
    have room for all of them, the loop returns them in buffer order, split
    by quota; when they have not, it raises at the first record that finds
    the three quotas full. *)
Lemma records_loop_routes (E : Enums) (n fuel : nat) (data : bytes) (AN NS AR : Z) :
  forall (offset : nat) (a s d rs : list DnsRecord) (offset' : nat),
    parse_records n fuel data offset = Return (rs, offset') ->
    quota_order AN NS AR a s d ->
    (len a + len s + len d + len rs <= AN + NS + AR ->
     exists a' s' d',
       records_loop n fuel data offset AN NS AR a s d = Return (a', s', d', offset')
       /\ quota_order AN NS AR a' s' d'
       /\ a' ++ s' ++ d' = (a ++ s ++ d) ++ rs)
    /\ (AN + NS + AR < len a + len s + len d + len rs ->
        records_loop n fuel data offset AN NS AR a s d
        = Raise (Exception "Too many/too few records.")).
Proof.
  induction n as [|n IH]; intros offset a s d rs offset' H Hq; [discriminate|].
  cbn [parse_records] in H. cbn [records_loop].
  destruct (offset <? length data)%nat eqn:Hlt.
  - bind_inv H r Hr. destruct r as [rr o]. cbn beta iota in H.
    bind_inv H r' Hrest. destruct r' as [rs' o']. cbn beta iota in H.
    inversion H; subst rs offset'; clear H.
    rewrite Hr. cbn [bind].
    assert (Hlen : len (rr :: rs') = 1 + len rs')
      by (unfold len; cbn [length]; lia).
    rewrite Hlen.
    destruct Hq as (Ha & Hs & Hd & Has & Hsd).
    destruct (len a <? AN) eqn:Ea; [apply Z.ltb_lt in Ea | apply Z.ltb_ge in Ea].
    { destruct (Has Ea) as [-> ->].
      assert (Hq' : quota_order AN NS AR (a ++ [rr]) [] []).
      { unfold quota_order. rewrite len_app. change (len [rr]) with 1.
        change (len (@nil DnsRecord)) with 0 in *. repeat split; auto; lia. }
      destruct (IH o (a ++ [rr]) [] [] rs' o' Hrest Hq') as [IHok IHbad].
      rewrite len_app in IHok, IHbad. change (len [rr]) with 1 in IHok, IHbad.
      split; intro Hsum.
      - destruct (IHok ltac:(lia)) as (a' & s' & d' & Hrun & Hq'' & Happ).
        exists a', s', d'. split; [exact Hrun|]. split; [exact Hq''|].
        rewrite Happ. cbn [app]. rewrite !app_nil_r, <- app_assoc. reflexivity.
      - apply IHbad. lia. }
    destruct (len s <? NS) eqn:Es; [apply Z.ltb_lt in Es | apply Z.ltb_ge in Es].
    { rewrite (Hsd Es) in *.
      assert (Hq' : quota_order AN NS AR a (s ++ [rr]) []).
      { unfold quota_order. rewrite len_app. change (len [rr]) with 1.
        change (len (@nil DnsRecord)) with 0 in *. repeat split; auto; lia. }
      destruct (IH o a (s ++ [rr]) [] rs' o' Hrest Hq') as [IHok IHbad].
      rewrite len_app in IHok, IHbad. change (len [rr]) with 1 in IHok, IHbad.
      split; intro Hsum.
      - destruct (IHok ltac:(lia)) as (a' & s' & d' & Hrun & Hq'' & Happ).
        exists a', s', d'. split; [exact Hrun|]. split; [exact Hq''|].
        rewrite Happ. rewrite !app_nil_r, <- !app_assoc. reflexivity.
      - apply IHbad. lia. }
    destruct (len d <? AR) eqn:Ed; [apply Z.ltb_lt in Ed | apply Z.ltb_ge in Ed].
    { assert (Hq' : quota_order AN NS AR a s (d ++ [rr])).
      { unfold quota_order. rewrite len_app. change (len [rr]) with 1.
        repeat split; auto; lia. }
      destruct (IH o a s (d ++ [rr]) rs' o' Hrest Hq') as [IHok IHbad].
      rewrite len_app in IHok, IHbad. change (len [rr]) with 1 in IHok, IHbad.
      split; intro Hsum.
      - destruct (IHok ltac:(lia)) as (a' & s' & d' & Hrun & Hq'' & Happ).
        exists a', s', d'. split; [exact Hrun|]. split; [exact Hq''|].
        rewrite Happ. rewrite <- !app_assoc. reflexivity.
      - apply IHbad. lia. }
    split; intro Hsum; [|reflexivity].
    pose proof (len_nonneg rs'). lia.
  - inversion H; subst rs offset'; clear H.
    change (len (@nil DnsRecord)) with 0.
    split; intro Hsum.
    + exists a, s, d. split; [reflexivity|]. split; [exact Hq|].
      now rewrite app_nil_r.
    + destruct Hq as (Ha & Hs & Hd & _). lia.
Qed.

(** ** The header as [parse] reads it *)

Lemma be_val_nonneg (bs : bytes) (acc : Z) : 0 <= acc -> 0 <= be_val bs acc.
Proof.
  revert acc. induction bs as [|b bs IH]; intros acc Hacc; cbn; [assumption|].
  apply IH. pose proof (byte_val_range b). lia.
Qed.

Lemma field_nonneg (bs : bytes) (lo hi : nat) : 0 <= field bs lo hi.
Proof. unfold field. apply be_val_nonneg. lia. Qed.

Lemma parse_header_Return (E : Enums) (data : bytes) (h : Header) :
  parse_header data = Return h ->
  DnsOpCode_member (h_OPCODE h) = true
  /\ DnsResponseCode_member (h_RCODE h) = true
  /\ unpack_HHHH data 4
     = Return (h_QDCOUNT h, h_ANCOUNT h, h_NSCOUNT h, h_ARCOUNT h)
  /\ 0 <= h_QDCOUNT h /\ 0 <= h_ANCOUNT h /\ 0 <= h_NSCOUNT h /\ 0 <= h_ARCOUNT h.
Proof.
  unfold parse_header. intro H.
  bind_inv H i Hi. bind_inv H b2 Hb2. bind_inv H qr Hqr.
  bind_inv H op Hop. bind_inv H b3 Hb3. bind_inv H rc Hrc.
  bind_inv H cs Hcs. destruct cs as [[[qd an] ns] ar].
  inversion H; subst h; clear H. cbn.
  unfold DnsOpCode_of in Hop. unfold DnsResponseCode_of in Hrc.
  destruct (DnsOpCode_member _) eqn:Eop in Hop; [|discriminate].
  destruct (DnsResponseCode_member _) eqn:Erc in Hrc; [|discriminate].
  inversion Hop; inversion Hrc; subst.
  repeat split; try assumption.
  all: unfold unpack_HHHH in Hcs; bind_inv Hcs bs Hbs; inversion Hcs;
    apply field_nonneg.
Qed.

(** A decoded message carries the header's counts, and its sections have
    exactly these lengths. *)
Lemma DnsPacket_parse_counts (E : Enums) (fuel : nat) (data : bytes)
    (offset : option nat) (p : DnsPacket) (offset' : nat) :
  DnsPacket_parse fuel data offset = Return (p, offset') ->
  unpack_HHHH data 4 = Return (QDCOUNT p, ANCOUNT p, NSCOUNT p, ARCOUNT p)
  /\ len (questions p) = QDCOUNT p
  /\ len (answers p) = ANCOUNT p
  /\ len (nameservers p) = NSCOUNT p
  /\ len (additional_records p) = ARCOUNT p.
Proof.
  unfold DnsPacket_parse. intro H. bind_inv H h Hh.
  apply parse_header_Return in Hh. destruct Hh as (_ & _ & Hc & _).
  unfold parse_sections in H.
  bind_inv H r Hqs. destruct r as [qs qo]. cbn beta iota in H.
  bind_inv H r Hrs. destruct r as [[[a s] d] o]. cbn beta iota in H.
  bind_inv H u1 H1. bind_inv H u2 H2. bind_inv H u3 H3. bind_inv H u4 H4.
  apply assert_Return, Z.eqb_eq in H1, H2, H3, H4.
  cbn zeta in H. bind_inv H p' Hp. inversion H; subst p' o; clear H.
  unfold DnsPacket_body in Hp.
  bind_inv Hp op Hop. bind_inv Hp rc Hrc. inversion Hp; subst p; cbn.
  repeat split; assumption.
Qed.

(** A decoded message has used up the buffer: its suffix is what lies past
    the end. *)
Lemma DnsPacket_parse_end (E : Enums) (fuel : nat) (data : bytes)
    (offset : option nat) (p : DnsPacket) (offset' : nat) :
  DnsPacket_parse fuel data offset = Return (p, offset') ->
  (length data <= offset')%nat /\ suffix p = slice_from data offset'.
Proof.
  unfold DnsPacket_parse. intro H. bind_inv H h Hh.
  unfold parse_sections in H.
  bind_inv H r Hqs. destruct r as [qs qo]. cbn beta iota in H.
  bind_inv H r Hrs. destruct r as [[[a s] d] o]. cbn beta iota in H.
  bind_inv H u1 H1. bind_inv H u2 H2. bind_inv H u3 H3. bind_inv H u4 H4.
  cbn zeta in H. bind_inv H p' Hp. inversion H; subst p' o; clear H.
  apply records_loop_end in Hrs. split; [assumption|].
  unfold DnsPacket_body in Hp.
  bind_inv Hp op Hop. bind_inv Hp rc Hrc. inversion Hp; subst p; reflexivity.
Qed.

(** [encode] does not read the suffix. *)
Lemma DnsPacket_encode_ignores_suffix (p : DnsPacket) (sfx : bytes) :
  DnsPacket_encode (with_suffix p sfx) = DnsPacket_encode p.
Proof. reflexivity. Qed.

(** C2 (as stated, refuted): a header that declares no question and no record
    has its counts satisfied at offset 12; the eleven bytes of a record after
    it are not kept as a suffix, the decoder raises on them, and it raises
    on a single padding byte as well. *)
Lemma trailing_bytes_not_retained :
  (12 < length trailing_record_buffer)%nat
  /\ ~ (exists fuel p o,
          DnsPacket_parse fuel trailing_record_buffer None = Return (p, o))
  /\ DnsPacket_parse 50 trailing_record_buffer None
     = Raise (Exception "Too many/too few records.")
  /\ DnsPacket_parse 50 padded_buffer None = Raise StructError.
Proof.
  split; [vm_compute; lia|]. split; [|split; vm_compute; reflexivity].
  intros (fuel & p & o & H).
  destruct fuel as [|fuel]; vm_compute in H; discriminate H.
Qed.

(** C2 (amended): a message that decodes has had its buffer read to the end
    by the record loop, so its suffix is empty; and [encode] gives the same
    bytes whatever the suffix of the message. *)
Theorem decode_suffix_empty (E : Enums) (fuel : nat) (data : bytes)
    (offset : option nat) (p : DnsPacket) (offset' : nat) :
  DnsPacket_parse fuel data offset = Return (p, offset') ->
  suffix p = []
  /\ (length data <= offset')%nat
  /\ forall sfx, DnsPacket_encode (with_suffix p sfx) = DnsPacket_encode p.
Proof.
  intro H. apply DnsPacket_parse_end in H. destruct H as [Hend Hsfx].
  split; [|split; [assumption|]].
  - rewrite Hsfx. unfold slice_from. now apply skipn_all2.
  - intro sfx. apply DnsPacket_encode_ignores_suffix.
Qed.

Lemma decode_suffix_empty_witness :
  exists p,
    DnsPacket_parse 50 scenario_buffer None = Return (p, 49%nat)
    /\ suffix p = [].
Proof.
  assert (Hrun : exists p,
             DnsPacket_parse 50 scenario_buffer None = Return (p, 49%nat))
    by (eexists; vm_compute; reflexivity).
  destruct Hrun as [p Hrun]. exists p. split; [exact Hrun|].
  exact (proj1 (@decode_suffix_empty rfc1035 50 scenario_buffer None p 49 Hrun)).
Defined.

(** ** Routing by quota and count enforcement *)

(** A question that is still owed cannot be read at the end of the buffer. *)
Lemma questions_loop_exhausted (n fuel : nat) (data : bytes)
    (offset : nat) (QD : Z) (qs : list DnsQuestion) :
  (length data <= offset)%nat -> len qs < QD ->
  questions_loop (S n) (S fuel) data offset QD qs = Raise IndexError.
Proof.
  intros Hend Hlt. cbn [questions_loop].
  apply Z.ltb_lt in Hlt. rewrite Hlt.
  unfold DnsQuestion_parse. now rewrite parse_from_past_end.
Qed.

(** The sections of the decoder, once the questions are read and the records
    of the buffer are known. *)
Lemma parse_sections_routes (E : Enums) (fuel : nat) (data : bytes) (h : Header)
    (offset : nat) (qs : list DnsQuestion) (qo : nat) (rs : list DnsRecord)
    (offset' : nat) :
  parse_header data = Return h ->
  questions_loop fuel fuel data offset (h_QDCOUNT h) [] = Return (qs, qo) ->
  parse_records fuel fuel data qo = Return (rs, offset') ->
  (len rs = h_ANCOUNT h + h_NSCOUNT h + h_ARCOUNT h ->
   exists a s d,
     parse_sections fuel data h offset
     = Return (message_of h qs a s d (slice_from data offset'), offset')
     /\ a ++ s ++ d = rs
     /\ len a = h_ANCOUNT h /\ len s = h_NSCOUNT h /\ len d = h_ARCOUNT h)
  /\ (h_ANCOUNT h + h_NSCOUNT h + h_ARCOUNT h < len rs ->
      parse_sections fuel data h offset
      = Raise (Exception "Too many/too few records."))
  /\ (len rs < h_ANCOUNT h + h_NSCOUNT h + h_ARCOUNT h ->
      parse_sections fuel data h offset = Raise AssertionError).
Proof.
  intros Hh Hqs Hrs.
  apply parse_header_Return in Hh.
  destruct Hh as (Hop & Hrc & _ & Hqd & Han & Hns & Har).
  assert (Hlenq : len qs = h_QDCOUNT h).
  { eapply questions_loop_length; [exact Hqs|].
    change (len (@nil DnsQuestion)) with 0. assumption. }
  destruct (@records_loop_routes E fuel fuel data (h_ANCOUNT h) (h_NSCOUNT h)
              (h_ARCOUNT h) qo [] [] [] rs offset' Hrs
              (quota_order_nil Han Hns Har)) as [Hok Hbad].
  change (len (@nil DnsRecord)) with 0 in Hok, Hbad.
  unfold parse_sections. rewrite Hqs. cbn [bind].
  split; [|split]; intro Hsum.
  - destruct (Hok ltac:(lia)) as (a & s & d & Hrun & Hq & Happ).
    cbn [app] in Happ.
    destruct Hq as (Ha & Hs & Hd & _).
    assert (Hl : len a + len s + len d = len rs)
      by (rewrite <- Happ, !len_app; lia).
    rewrite Hrun. cbn [bind].
    rewrite Hlenq, Z.eqb_refl. cbn [assert bind].
    replace (len a =? h_ANCOUNT h) with true by (symmetry; apply Z.eqb_eq; lia).
    replace (len s =? h_NSCOUNT h) with true by (symmetry; apply Z.eqb_eq; lia).
    replace (len d =? h_ARCOUNT h) with true by (symmetry; apply Z.eqb_eq; lia).
    cbn [assert bind]. unfold DnsPacket_body, DnsOpCode_of, DnsResponseCode_of.
    rewrite Hop, Hrc. cbn [bind].
    exists a, s, d. split; [reflexivity|].
    split; [assumption|]. repeat split; lia.
  - rewrite (Hbad ltac:(lia)). reflexivity.
  - destruct (Hok ltac:(lia)) as (a & s & d & Hrun & Hq & Happ).
    cbn [app] in Happ.
    assert (Hl : len a + len s + len d = len rs)
      by (rewrite <- Happ, !len_app; lia).
    rewrite Hrun. cbn [bind].
    rewrite Hlenq, Z.eqb_refl. cbn [assert bind].
    destruct (len a =? h_ANCOUNT h) eqn:Ea; [|reflexivity].
    destruct (len s =? h_NSCOUNT h) eqn:Es; [|reflexivity].
    destruct (len d =? h_ARCOUNT h) eqn:Ed; [|reflexivity].
    apply Z.eqb_eq in Ea, Es, Ed. lia.
Qed.

(** One turn of the record loop on a record that parses: it goes to the
    first section whose quota has room, and is an error when none has,
    whatever follows the record in the buffer. *)
Lemma records_loop_step (E : Enums) (n fuel : nat) (data : bytes) (offset : nat)
    (AN NS AR : Z) (a s d : list DnsRecord) (rr : DnsRecord) (o : nat) :
  (offset < length data)%nat ->
  DnsRecord_parse fuel data offset = Return (rr, o) ->
  (len a < AN ->
   records_loop (S n) fuel data offset AN NS AR a s d
   = records_loop n fuel data o AN NS AR (a ++ [rr]) s d)
  /\ (AN <= len a -> len s < NS ->
      records_loop (S n) fuel data offset AN NS AR a s d
      = records_loop n fuel data o AN NS AR a (s ++ [rr]) d)
  /\ (AN <= len a -> NS <= len s -> len d < AR ->
      records_loop (S n) fuel data offset AN NS AR a s d
      = records_loop n fuel data o AN NS AR a s (d ++ [rr]))
  /\ (AN <= len a -> NS <= len s -> AR <= len d ->
      records_loop (S n) fuel data offset AN NS AR a s d
      = Raise (Exception "Too many/too few records.")).
Proof.
  intros Hlt Hrr. cbn [records_loop].
  apply Nat.ltb_lt in Hlt. rewrite Hlt, Hrr. cbn [bind].
  repeat split; intros;
    repeat match goal with
           | H : ?x < ?y |- context [?x <? ?y] =>
               replace (x <? y) with true by (symmetry; apply Z.ltb_lt; lia)
           | H : ?y <= ?x |- context [?x <? ?y] =>
               replace (x <? y) with false by (symmetry; apply Z.ltb_ge; lia)
           end; reflexivity.
Qed.

(** More records at the head of what the loop reads than the quotas have
    room for: the loop raises at the first record that finds them full,
    whatever lies after it. *)
Lemma records_loop_too_many (E : Enums) (fuel : nat) (data : bytes) (AN NS AR : Z) :
  forall (k n offset : nat) (a s d rs : list DnsRecord) (o : nat),
    read_records k fuel data offset = Return (rs, o) ->
    length rs = k ->
    quota_order AN NS AR a s d ->
    AN + NS + AR < len a + len s + len d + Z.of_nat k ->
    (k <= n)%nat ->
    records_loop n fuel data offset AN NS AR a s d
    = Raise (Exception "Too many/too few records.").
Proof.
  induction k as [|k IH]; intros n offset a s d rs o Hread Hlen Hq Hsum Hn.
  - destruct Hq as (Ha & Hs & Hd & _). lia.
  - destruct n as [|n]; [lia|].
    cbn [read_records] in Hread.
    destruct (offset <? length data)%nat eqn:Hlt;
      [|inversion Hread; subst; discriminate].
    bind_inv Hread r Hr. destruct r as [rr o1]. cbn beta iota in Hread.
    bind_inv Hread r' Hrest. destruct r' as [rs' o']. cbn beta iota in Hread.
    inversion Hread; subst rs o; clear Hread.
    cbn [length] in Hlen. injection Hlen as Hlen.
    apply Nat.ltb_lt in Hlt.
    destruct (@records_loop_step E n fuel data offset AN NS AR a s d rr o1
                Hlt Hr) as (H1 & H2 & H3 & H4).
    pose proof Hq as (Ha & Hs & Hd & Has & Hsd).
    destruct (Z.lt_ge_cases (len a) AN) as [Ea|Ea].
    { rewrite (H1 Ea). destruct (Has Ea) as [-> ->].
      change (len (@nil DnsRecord)) with 0 in *.
      apply (IH n o1 (a ++ [rr]) [] [] rs' o' Hrest Hlen).
      - unfold quota_order. rewrite len_app. change (len [rr]) with 1.
        change (len (@nil DnsRecord)) with 0. repeat split; auto; lia.
      - rewrite len_app. change (len [rr]) with 1.
        change (len (@nil DnsRecord)) with 0. lia.
      - lia. }
    destruct (Z.lt_ge_cases (len s) NS) as [Es|Es].
    { rewrite (H2 Ea Es). rewrite (Hsd Es) in *.
      change (len (@nil DnsRecord)) with 0 in *.
      apply (IH n o1 a (s ++ [rr]) [] rs' o' Hrest Hlen).
      - unfold quota_order. rewrite len_app. change (len [rr]) with 1.
        change (len (@nil DnsRecord)) with 0. repeat split; auto; lia.
      - rewrite len_app. change (len [rr]) with 1.
        change (len (@nil DnsRecord)) with 0. lia.
      - lia. }
    destruct (Z.lt_ge_cases (len d) AR) as [Ed|Ed].
    { rewrite (H3 Ea Es Ed).
      apply (IH n o1 a s (d ++ [rr]) rs' o' Hrest Hlen).
      - unfold quota_order. rewrite len_app. change (len [rr]) with 1.
        repeat split; auto; lia.
      - rewrite len_app. change (len [rr]) with 1. lia.
      - lia. }
    exact (H4 Ea Es Ed).
Qed.

(** C5: the decoder fills answers, then nameservers, then additional records
    by quota, in the order the records lie in the buffer; a record that
    arrives when the three quotas are full is an error, whatever follows it;
    a buffer that ends before a count is reached is an error; and a decoded
    message has sections of exactly the lengths its header declares. *)
Theorem decode_routes_by_quota (E : Enums) (fuel : nat) (data : bytes) :
  (* a decoded message: lengths are the header's counts *)
  (forall offset p offset',
      DnsPacket_parse fuel data offset = Return (p, offset') ->
      unpack_HHHH data 4 = Return (QDCOUNT p, ANCOUNT p, NSCOUNT p, ARCOUNT p)
      /\ len (questions p) = QDCOUNT p /\ len (answers p) = ANCOUNT p
      /\ len (nameservers p) = NSCOUNT p
      /\ len (additional_records p) = ARCOUNT p)
  (* the records of the buffer against the three quotas *)
  /\ (forall h qs qo rs offset',
         parse_header data = Return h ->
         questions_loop fuel fuel data 12 (h_QDCOUNT h) [] = Return (qs, qo) ->
         parse_records fuel fuel data qo = Return (rs, offset') ->
         (len rs = h_ANCOUNT h + h_NSCOUNT h + h_ARCOUNT h ->
          exists p,
            DnsPacket_parse fuel data None = Return (p, offset')
            /\ questions p = qs
            /\ answers p ++ nameservers p ++ additional_records p = rs
            /\ len (answers p) = h_ANCOUNT h
            /\ len (nameservers p) = h_NSCOUNT h
            /\ len (additional_records p) = h_ARCOUNT h)
         /\ (h_ANCOUNT h + h_NSCOUNT h + h_ARCOUNT h < len rs ->
             DnsPacket_parse fuel data None
             = Raise (Exception "Too many/too few records."))
         /\ (len rs < h_ANCOUNT h + h_NSCOUNT h + h_ARCOUNT h ->
             DnsPacket_parse fuel data None = Raise AssertionError))
  (* a question owed at the end of the buffer *)
  /\ (forall n fuel' offset QD qs,
         (length data <= offset)%nat -> len qs < QD ->
         questions_loop (S n) (S fuel') data offset QD qs = Raise IndexError)
  (* one turn of the record loop, in any state of the three sections *)
  /\ (forall n offset AN NS AR a s d rr o,
         (offset < length data)%nat ->
         DnsRecord_parse fuel data offset = Return (rr, o) ->
         (len a < AN ->
          records_loop (S n) fuel data offset AN NS AR a s d
          = records_loop n fuel data o AN NS AR (a ++ [rr]) s d)
         /\ (AN <= len a -> len s < NS ->
             records_loop (S n) fuel data offset AN NS AR a s d
             = records_loop n fuel data o AN NS AR a (s ++ [rr]) d)
         /\ (AN <= len a -> NS <= len s -> len d < AR ->
             records_loop (S n) fuel data offset AN NS AR a s d
             = records_loop n fuel data o AN NS AR a s (d ++ [rr]))
         /\ (AN <= len a -> NS <= len s -> AR <= len d ->
             records_loop (S n) fuel data offset AN NS AR a s d
             = Raise (Exception "Too many/too few records.")))
  (* one record more than the counts declare, whatever follows it *)
  /\ (forall h qs qo k rs o,
         parse_header data = Return h ->
         questions_loop fuel fuel data 12 (h_QDCOUNT h) [] = Return (qs, qo) ->
         read_records k fuel data qo = Return (rs, o) ->
         length rs = k ->
         h_ANCOUNT h + h_NSCOUNT h + h_ARCOUNT h < Z.of_nat k ->
         (k <= fuel)%nat ->
         DnsPacket_parse fuel data None
         = Raise (Exception "Too many/too few records.")).
Proof.
  split; [|split; [|split; [|split]]].
  - intros offset p offset'. apply DnsPacket_parse_counts.
  - intros h qs qo rs offset' Hh Hqs Hrs.
    unfold DnsPacket_parse. rewrite Hh. cbn [bind].
    destruct (@parse_sections_routes E fuel data h 12 qs qo rs offset' Hh Hqs Hrs)
      as (Hexact & Hmany & Hfew).
    split; [|split; assumption].
    intro Hsum. destruct (Hexact Hsum) as (a & s & d & Hrun & Happ & Hlen).
    eexists. split; [exact Hrun|]. cbn. split; [reflexivity|].
    split; assumption.
  - intros n fuel' offset QD qs. apply questions_loop_exhausted.
  - intros n offset AN NS AR a s d rr o. apply records_loop_step.
  - intros h qs qo k rs o Hh Hqs Hread Hlen Hsum Hk.
    unfold DnsPacket_parse. rewrite Hh. cbn [bind].
    unfold parse_sections. rewrite Hqs. cbn [bind].
    apply parse_header_Return in Hh.
    destruct Hh as (_ & _ & _ & _ & Han & Hns & Har).
    rewrite (@records_loop_too_many E fuel data (h_ANCOUNT h) (h_NSCOUNT h)
               (h_ARCOUNT h) k fuel qo [] [] [] rs o Hread Hlen
               (quota_order_nil Han Hns Har)
               ltac:(change (len (@nil DnsRecord)) with 0; lia) Hk).
    reflexivity.
Qed.

(** Count enforcement on the literal scenario: one answer declared and one
    present decodes; one declared and two present is an error, also when the
    bytes after the second record are no record; two declared and one present
    is an error. *)
Lemma decode_routes_by_quota_witness :
  (exists p,
      DnsPacket_parse 50 scenario_buffer None = Return (p, 49%nat)
      /\ len (answers p) = 1)
  /\ DnsPacket_parse 50 one_declared_two_present None
     = Raise (Exception "Too many/too few records.")
  /\ DnsPacket_parse 50 two_declared_one_present None = Raise AssertionError
  /\ DnsPacket_parse 50 (one_declared_two_present ++ bytes_of [64]) None
     = Raise (Exception "Too many/too few records.").
Proof.
  split; [|split; [|split]].
  - destruct (@decode_routes_by_quota rfc1035 50 scenario_buffer)
      as (_ & Hroute & _).
    edestruct Hroute as (Hexact & _ & _);
      [vm_compute; reflexivity | vm_compute; reflexivity
       | vm_compute; reflexivity |].
    destruct (Hexact ltac:(vm_compute; reflexivity))
      as (p & Hrun & _ & _ & Hlen & _).
    exists p. split; [exact Hrun | exact Hlen].
  - destruct (@decode_routes_by_quota rfc1035 50 one_declared_two_present)
      as (_ & Hroute & _).
    edestruct Hroute as (_ & Hmany & _);
      [vm_compute; reflexivity | vm_compute; reflexivity
       | vm_compute; reflexivity |].
    apply Hmany. vm_compute. reflexivity.
  - destruct (@decode_routes_by_quota rfc1035 50 two_declared_one_present)
      as (_ & Hroute & _).
    edestruct Hroute as (_ & _ & Hfew);
      [vm_compute; reflexivity | vm_compute; reflexivity
       | vm_compute; reflexivity |].
    apply Hfew. vm_compute. reflexivity.
  - destruct (@decode_routes_by_quota rfc1035 50
                (one_declared_two_present ++ bytes_of [64]))
      as (_ & _ & _ & _ & Hhead).
    eapply (Hhead _ _ _ 2%nat);
      [vm_compute; reflexivity | vm_compute; reflexivity
       | vm_compute; reflexivity | reflexivity
       | vm_compute; reflexivity | lia].
Defined.

(** * Round trip *)

(** ** Labels and names *)

Lemma allowed_char_ascii (c : ascii) :
  allowed_char c = true -> byte_val (byte_of_ascii c) < 128.
Proof.
  unfold allowed_char, char_val. intro H.
  repeat (apply orb_true_iff in H; destruct H as [H|H]);
    try (apply andb_true_iff in H; destruct H as [H1 H2]); lia.
Qed.

Lemma encode_ascii_allowed (l : string) :
  allowed_charset_issuperset l = true ->
  encode_ascii l = Return (map byte_of_ascii (list_ascii_of_string l)).
Proof.
  induction l as [|c l IH]; cbn; intro H; [reflexivity|].
  apply andb_true_iff in H. destruct H as [Hc Hl].
  apply allowed_char_ascii in Hc. apply Z.ltb_lt in Hc. rewrite Hc.
  rewrite (IH Hl). reflexivity.
Qed.

Lemma decode_ascii_allowed (l : string) :
  allowed_charset_issuperset l = true ->
  decode_ascii (map byte_of_ascii (list_ascii_of_string l)) = Return l.
Proof.
  induction l as [|c l IH]; cbn; intro H; [reflexivity|].
  apply andb_true_iff in H. destruct H as [Hc Hl].
  apply allowed_char_ascii in Hc. apply Z.ltb_lt in Hc. rewrite Hc.
  rewrite (IH Hl). cbn. now rewrite ascii_of_byte_of_ascii.
Qed.

Lemma length_label_bytes (l : string) :
  length (map byte_of_ascii (list_ascii_of_string l)) = String.length l.
Proof. rewrite length_map. induction l; cbn; congruence. Qed.

Lemma valid_label_inv (l : string) :
  valid_label l = true ->
  0 < Z.of_nat (String.length l) < 64 /\ allowed_charset_issuperset l = true.
Proof.
  unfold valid_label. intro H.
  apply andb_true_iff in H. destruct H as [H Hc].
  apply andb_true_iff in H. destruct H as [H0 H1].
  split; [lia | assumption].
Qed.

Lemma encode_labels_valid (ls : list string) :
  forallb valid_label ls = true ->
  encode_labels ls = Return (wire_labels ls).
Proof.
  induction ls as [|l ls IH]; cbn [forallb encode_labels wire_labels]; intro H;
    [reflexivity|].
  apply andb_true_iff in H. destruct H as [Hl Hls].
  apply valid_label_inv in Hl. destruct Hl as [Hlen Hc].
  destruct l as [|c l]; [cbn in Hlen; lia|].
  replace (Z.of_nat (String.length (String c l)) <? 256) with true
    by (symmetry; apply Z.ltb_lt; lia).
  cbn [bind]. rewrite (encode_ascii_allowed _ Hc). cbn [bind].
  rewrite (IH Hls). reflexivity.
Qed.

Lemma sum_len_app (a b : list string) : sum_len (a ++ b) = sum_len a + sum_len b.
Proof. induction a as [|x a IH]; cbn; [reflexivity|]. unfold sum_len in *. cbn. lia. Qed.

Lemma sum_len_nonneg (a : list string) : 0 <= sum_len a.
Proof. induction a as [|x a IH]; cbn; [lia|]. unfold sum_len in *. cbn. lia. Qed.

(** Reading a buffer from an offset on. *)
Lemma index_skipn (data : bytes) (off : nat) (b : byte) (rest : bytes) :
  skipn off data = b :: rest -> index data off = Return b.
Proof.
  intro H. unfold index. rewrite <- hd_error_skipn, H. reflexivity.
Qed.

Lemma slice_skipn (data : bytes) (off k : nat) (bs rest : bytes) :
  skipn off data = bs ++ rest -> length bs = k ->
  slice data off (off + k) = bs.
Proof.
  intros H Hk. unfold slice.
  replace (off + k - off)%nat with k by lia.
  rewrite H, firstn_app, <- Hk, firstn_all, Nat.sub_diag. cbn [firstn].
  now rewrite app_nil_r.
Qed.

Lemma skipn_more (data : bytes) (off k : nat) (bs rest : bytes) :
  skipn off data = bs ++ rest -> length bs = k ->
  skipn (off + k) data = rest.
Proof.
  intros H Hk. rewrite Nat.add_comm, <- skipn_skipn, H.
  rewrite skipn_app, <- Hk, skipn_all, Nat.sub_diag. reflexivity.
Qed.

Lemma skipn_bound (data : bytes) (off : nat) (bs rest : bytes) :
  skipn off data = bs ++ rest -> bs <> [] ->
  (off + length bs <= length data)%nat.
Proof.
  intros H Hne.
  assert (Hl : length (skipn off data) = (length bs + length rest)%nat)
    by (rewrite H; apply length_app).
  rewrite length_skipn in Hl.
  destruct bs; [contradiction|]. cbn [length] in *. lia.
Qed.

(** The loop of [parse_from] on the wire form of valid labels: it appends
    them to the sequence, one per iteration, and stops at the terminator. *)
Lemma parse_from_loop_labels (ls : list string) :
  forallb valid_label ls = true ->
  forall (fuel : nat) (data : bytes) (start off : nat) (sequence : list string)
         (post : bytes),
    skipn off data = wire_labels ls ++ x00 :: post ->
    sum_len (sequence ++ ls) < 256 ->
    (length ls < fuel)%nat ->
    parse_from_loop fuel data start off sequence
    = Return (parse_from_finish data start (off + length (wire_labels ls) + 1)
                (sequence ++ ls)).
Proof.
  induction ls as [|l ls IH]; intros Hv fuel data start off sequence post
                                     Hdata Hsum Hfuel;
    (destruct fuel as [|fuel]; [cbn in Hfuel; lia|]);
    rewrite parse_from_loop_step.
  - cbn [wire_labels app] in Hdata. rewrite (@index_skipn _ _ _ _ Hdata).
    cbn [bind]. change (byte_val x00) with 0. cbv zeta. cbn [Z.eqb].
    cbn [wire_labels length]. rewrite Nat.add_0_r, app_nil_r. reflexivity.
  - cbn [forallb] in Hv. apply andb_true_iff in Hv. destruct Hv as [Hl Hls].
    apply valid_label_inv in Hl. destruct Hl as [Hlen Hc].
    cbn [wire_labels app] in Hdata. rewrite <- app_assoc in Hdata.
    rewrite (@index_skipn _ _ _ _ Hdata). cbn [bind]. cbv zeta.
    rewrite byte_val_byte_of by lia.
    replace (Z.of_nat (String.length l) =? 0) with false
      by (symmetry; apply Z.eqb_neq; lia).
    replace (Z.of_nat (String.length l) <? 64) with true
      by (symmetry; apply Z.ltb_lt; lia).
    rewrite Nat2Z.id.
    assert (Hrest : skipn (off + 1) data
                    = map byte_of_ascii (list_ascii_of_string l)
                      ++ (wire_labels ls ++ x00 :: post)).
    { apply (@skipn_more data off 1 [byte_of (Z.of_nat (String.length l))]);
        [exact Hdata | reflexivity]. }
    rewrite (@slice_skipn _ _ _ _ _ Hrest (length_label_bytes l)).
    rewrite (decode_ascii_allowed _ Hc). cbn [bind].
    rewrite Hc. cbn [assert bind].
    assert (Hsum' : sum_len ((sequence ++ [l]) ++ ls) < 256)
      by (rewrite <- app_assoc; exact Hsum).
    assert (Hs1 : sum_len (sequence ++ [l]) < 256).
    { rewrite sum_len_app in Hsum'. pose proof (sum_len_nonneg ls). lia. }
    apply Z.ltb_lt in Hs1. rewrite Hs1. cbn [assert bind].
    assert (Hnext : skipn (off + (String.length l + 1)) data
                    = wire_labels ls ++ x00 :: post).
    { rewrite (Nat.add_comm (String.length l) 1), Nat.add_assoc.
      apply (@skipn_more _ _ _ _ _ Hrest (length_label_bytes l)). }
    rewrite (IH Hls fuel data start _ _ post Hnext Hsum')
      by (cbn [length] in Hfuel; lia).
    rewrite <- app_assoc. cbn [app wire_labels length].
    rewrite length_app, length_label_bytes.
    f_equal. f_equal; lia.
Qed.

Lemma length_wire_labels (ls : list string) :
  (length ls <= length (wire_labels ls))%nat.
Proof.
  induction ls as [|l ls IH]; cbn [wire_labels length]; [lia|].
  rewrite length_app. lia.
Qed.

(** A valid name is the root name or a sequence of valid labels; either way
    its encoding is the wire form of a sequence of valid labels, followed by
    the terminator, and the decoder's constructor gives the labels back. *)
Lemma valid_name_wire (n : DomainName) :
  valid_name n = true ->
  exists ls,
    forallb valid_label ls = true
    /\ sum_len ls < 256
    /\ encode_labels (labels n) = Return (wire_labels ls)
    /\ labels (DomainName_init ls) = labels n.
Proof.
  unfold valid_name. destruct (labels n) as [|l ls] eqn:Hn; [discriminate|].
  intro H.
  assert (Hcase : (l = EmptyString /\ ls = [])
                  \/ forallb valid_label (l :: ls) && (sum_len (l :: ls) <? 256)
                     = true).
  { destruct l as [|c l]; [destruct ls|]; auto. }
  destruct Hcase as [[-> ->] | Hv].
  - exists []. repeat split; reflexivity.
  - apply andb_true_iff in Hv. destruct Hv as [Hv Hs].
    exists (l :: ls). split; [exact Hv|]. split; [lia|].
    split; [now apply encode_labels_valid | reflexivity].
Qed.

Lemma DomainName_encode_valid (n : DomainName) :
  valid_name n = true -> DomainName_encode n = Return (name_bytes n).
Proof.
  intro H. destruct (@valid_name_wire n H) as (ls & _ & _ & Henc & _).
  unfold name_bytes, DomainName_encode. rewrite Henc. reflexivity.
Qed.

Lemma name_bytes_nonempty (n : DomainName) :
  valid_name n = true -> name_bytes n <> [].
Proof.
  intro H. destruct (@valid_name_wire n H) as (ls & _ & _ & Henc & _).
  unfold name_bytes, DomainName_encode. rewrite Henc. cbn [bind].
  destruct (wire_labels ls); discriminate.
Qed.

(** The decoder on the encoding of a valid name, wherever it lies in the
    buffer and whatever follows it. *)
Lemma parse_from_valid (n : DomainName) :
  valid_name n = true ->
  forall (fuel : nat) (data : bytes) (off : nat) (post : bytes),
    skipn off data = name_bytes n ++ post ->
    (length data < fuel)%nat ->
    parse_from fuel data off
    = Return (received_name n, (off + length (name_bytes n))%nat).
Proof.
  intros H fuel data off post Hdata Hfuel.
  pose proof (@skipn_bound _ _ _ _ Hdata (@name_bytes_nonempty n H)) as Hbound.
  destruct (@valid_name_wire n H) as (ls & Hv & Hs & Henc & Hlab).
  assert (Hnb : name_bytes n = wire_labels ls ++ [x00]).
  { unfold name_bytes, DomainName_encode. rewrite Henc. reflexivity. }
  rewrite Hnb in *. rewrite <- app_assoc in Hdata. cbn [app] in Hdata.
  unfold parse_from.
  rewrite (@parse_from_loop_labels ls Hv fuel data off off [] post Hdata Hs).
  - unfold parse_from_finish, received_name. cbn [app].
    rewrite Hlab, Hnb, length_app. cbn [length].
    replace (off + length (wire_labels ls) + 1)%nat
      with (off + (length (wire_labels ls) + 1))%nat by lia.
    rewrite (@slice_skipn data off (length (wire_labels ls) + 1)
               (wire_labels ls ++ [x00]) post).
    + reflexivity.
    + rewrite <- app_assoc. exact Hdata.
    + rewrite length_app. reflexivity.
  - pose proof (length_wire_labels ls). rewrite length_app in Hbound.
    cbn [length] in Hbound. lia.
Qed.

(** ** Fixed-width fields read back *)

Lemma pack_H_ok (v : Z) : 0 <= v < 65536 -> pack_H v = Return (be16 v).
Proof.
  intro H. unfold pack_H.
  replace (0 <=? v) with true by (symmetry; apply Z.leb_le; lia).
  replace (v <? 65536) with true by (symmetry; apply Z.ltb_lt; lia).
  reflexivity.
Qed.

Lemma pack_I_ok (v : Z) : 0 <= v < 4294967296 -> pack_I v = Return (be32 v).
Proof.
  intro H. unfold pack_I.
  replace (0 <=? v) with true by (symmetry; apply Z.leb_le; lia).
  replace (v <? 4294967296) with true by (symmetry; apply Z.ltb_lt; lia).
  reflexivity.
Qed.

Lemma pack_B_ok (v : Z) : 0 <= v < 256 -> pack_B v = Return [byte_of v].
Proof.
  intro H. unfold pack_B.
  replace (0 <=? v) with true by (symmetry; apply Z.leb_le; lia).
  replace (v <? 256) with true by (symmetry; apply Z.ltb_lt; lia).
  reflexivity.
Qed.

Lemma unpack_bytes_skipn (n : nat) (data : bytes) (off : nat) (bs post : bytes) :
  skipn off data = bs ++ post -> length bs = n -> bs <> [] ->
  unpack_bytes n data off = Return bs.
Proof.
  intros H Hn Hne. unfold unpack_bytes.
  pose proof (@skipn_bound _ _ _ _ H Hne) as Hb. rewrite Hn in Hb.
  apply Nat.leb_le in Hb. rewrite Hb.
  now rewrite (@slice_skipn _ _ _ _ _ H Hn).
Qed.

(** Read a field of a buffer whose bytes are spelled out. *)
Ltac solve_field :=
  unfold field, slice, be16, be32;
  cbn [app skipn firstn Nat.sub];
  first [apply be16_val | apply be32_val]; assumption.

Lemma unpack_HH_packed (data : bytes) (off : nat) (a b : Z) (post : bytes) :
  0 <= a < 65536 -> 0 <= b < 65536 ->
  skipn off data = be16 a ++ be16 b ++ post ->
  unpack_HH data off = Return (a, b).
Proof.
  intros Ha Hb H. unfold unpack_HH.
  rewrite (@unpack_bytes_skipn 4 data off (be16 a ++ be16 b) post);
    [| now rewrite <- app_assoc | reflexivity | discriminate].
  cbn [bind]. f_equal. f_equal; solve_field.
Qed.

Lemma unpack_HHIH_packed (data : bytes) (off : nat) (a b c d : Z) (post : bytes) :
  0 <= a < 65536 -> 0 <= b < 65536 -> 0 <= c < 4294967296 -> 0 <= d < 65536 ->
  skipn off data = be16 a ++ be16 b ++ be32 c ++ be16 d ++ post ->
  unpack_HHIH data off = Return (a, b, c, d).
Proof.
  intros Ha Hb Hc Hd H. unfold unpack_HHIH.
  rewrite (@unpack_bytes_skipn 10 data off
             (be16 a ++ be16 b ++ be32 c ++ be16 d) post);
    [| now rewrite <- !app_assoc | reflexivity | discriminate].
  cbn [bind]. f_equal. repeat f_equal; solve_field.
Qed.

Lemma unpack_IIII_packed (data : bytes) (off : nat) (a b c d : Z) (post : bytes) :
  0 <= a < 4294967296 -> 0 <= b < 4294967296 ->
  0 <= c < 4294967296 -> 0 <= d < 4294967296 ->
  skipn off data = be32 a ++ be32 b ++ be32 c ++ be32 d ++ post ->
  unpack_IIII data off = Return (a, b, c, d).
Proof.
  intros Ha Hb Hc Hd H. unfold unpack_IIII.
  rewrite (@unpack_bytes_skipn 16 data off
             (be32 a ++ be32 b ++ be32 c ++ be32 d) post);
    [| now rewrite <- !app_assoc | reflexivity | discriminate].
  cbn [bind]. f_equal. repeat f_equal; solve_field.
Qed.

(** ** Questions *)

Lemma DnsQuestion_encode_valid (q : DnsQuestion) :
  valid_question q -> DnsQuestion_encode q = Return (question_bytes q).
Proof.
  intros (Hn & Ht & Hc). unfold DnsQuestion_encode, question_bytes.
  rewrite (DomainName_encode_valid _ Hn). cbn [bind pack_all].
  rewrite (pack_H_ok Ht), (pack_H_ok Hc). cbn [bind].
  now rewrite app_nil_r.
Qed.

Lemma DnsQuestion_parse_valid (q : DnsQuestion) :
  valid_question q ->
  forall (fuel : nat) (data : bytes) (off : nat) (post : bytes),
    skipn off data = question_bytes q ++ post ->
    (length data < fuel)%nat ->
    DnsQuestion_parse fuel data off
    = Return (received_question q, (off + length (question_bytes q))%nat).
Proof.
  intros (Hn & Ht & Hc) fuel data off post Hdata Hfuel.
  unfold question_bytes in *. rewrite <- !app_assoc in Hdata.
  unfold DnsQuestion_parse.
  rewrite (@parse_from_valid _ Hn fuel data off _ Hdata Hfuel). cbn [bind].
  rewrite (@unpack_HH_packed data _ (qtype q) (qclass q) post Ht Hc
             (@skipn_more _ _ _ _ _ Hdata eq_refl)).
  cbn [bind]. unfold received_question.
  rewrite !length_app. cbn [be16 length]. f_equal. f_equal. lia.
Qed.

(** ** Records *)

Lemma Return_inj {A : Type} (a b : A) : Return a = Return b -> a = b.
Proof. congruence. Qed.

Lemma DomainName_encode_received (n : DomainName) :
  DomainName_encode (received_name n) = DomainName_encode n.
Proof. reflexivity. Qed.

(** A payload in canonical form is parsed out of the whole buffer and encodes
    to the same bytes again. *)
Lemma handler_parse_valid (E : Enums) (h : Handler) (payload : RData) (rd : bytes) :
  valid_payload h payload ->
  RData_encode payload = Return rd ->
  forall (fuel : nat) (data : bytes) (off : nat) (post : bytes),
    skipn off data = rd ++ post ->
    (length data < fuel)%nat ->
    exists payload',
      handler_parse h fuel data off = Return payload'
      /\ RData_encode payload' = Return rd.
Proof.
  intros Hv Henc fuel data off post Hdata Hfuel.
  destruct h, payload; cbn [valid_payload] in Hv; try contradiction.
  - (* SOA *)
    destruct Hv as (Hm & Hr & Hs & Hf & Ht & He).
    cbn [RData_encode] in Henc.
    rewrite (DomainName_encode_valid _ Hm), (DomainName_encode_valid _ Hr) in Henc.
    cbn [bind pack_all] in Henc.
    rewrite (pack_I_ok Hs), (pack_I_ok Hf), (pack_I_ok Ht), (pack_I_ok He) in Henc.
    cbn [bind] in Henc. apply Return_inj in Henc; subst rd.
    rewrite app_nil_r in *. rewrite <- !app_assoc in Hdata.
    exists (RData_SOA serial refresh retry expire
              (received_name mname) (received_name rname)).
    cbn [handler_parse RData_encode].
    rewrite (@parse_from_valid _ Hm fuel data off _ Hdata Hfuel). cbn [bind].
    pose proof (@skipn_more _ _ _ _ _ Hdata eq_refl) as Hdata1.
    rewrite (@parse_from_valid _ Hr fuel data _ _ Hdata1 Hfuel). cbn [bind].
    pose proof (@skipn_more _ _ _ _ _ Hdata1 eq_refl) as Hdata2.
    rewrite (@unpack_IIII_packed data _ serial refresh retry expire post
               Hs Hf Ht He Hdata2).
    cbn [bind]. split; [reflexivity|].
    rewrite !DomainName_encode_received.
    rewrite (DomainName_encode_valid _ Hm), (DomainName_encode_valid _ Hr).
    cbn [bind pack_all].
    rewrite (pack_I_ok Hs), (pack_I_ok Hf), (pack_I_ok Ht), (pack_I_ok He).
    cbn [bind]. now rewrite app_nil_r.
  - (* a single name *)
    cbn [RData_encode] in Henc.
    rewrite (DomainName_encode_valid _ Hv) in Henc.
    apply Return_inj in Henc; subst rd.
    exists (RData_SingleName (received_name name)).
    cbn [handler_parse RData_encode].
    rewrite (@parse_from_valid _ Hv fuel data off _ Hdata Hfuel). cbn [bind].
    split; [reflexivity|].
    rewrite DomainName_encode_received. now apply DomainName_encode_valid.
Qed.

Lemma bytes_eqb_refl (a : bytes) : bytes_eqb a a = true.
Proof. now apply bytes_eqb_eq. Qed.

Lemma len_range_to_nat {A : Type} (l : list A) : Z.to_nat (len l) = length l.
Proof. unfold len. apply Nat2Z.id. Qed.

Lemma DnsRecord_encode_valid (E : Enums) (r : DnsRecord) :
  valid_record r -> DnsRecord_encode r = Return (record_bytes r).
Proof.
  intros (Hn & Ht & Hc & Htl & Hrl & Hlen & _).
  unfold DnsRecord_encode, record_bytes.
  rewrite (DomainName_encode_valid _ Hn). cbn [bind pack_all].
  assert (Hr : 0 <= rdlength r < 65536)
    by (rewrite Hrl; pose proof (len_nonneg (rdata r)); lia).
  rewrite (pack_H_ok Ht), (pack_H_ok Hc), (pack_I_ok Htl), (pack_H_ok Hr).
  cbn [bind]. rewrite app_nil_r, <- !app_assoc. reflexivity.
Qed.

Lemma DnsRecord_parse_valid (E : Enums) (r : DnsRecord) :
  valid_record r ->
  forall (fuel : nat) (data : bytes) (off : nat) (post : bytes),
    skipn off data = record_bytes r ++ post ->
    (length data < fuel)%nat ->
    DnsRecord_parse fuel data off
    = Return (received_record r, (off + length (record_bytes r))%nat).
Proof.
  intros (Hn & Ht & Hc & Htl & Hrl & Hlen & Hcomp & Hpay)
         fuel data off post Hdata Hfuel.
  destruct r as [nm ty cl tl rdl rd comp].
  cbn [rname_ rtype rclass ttl rdlength rdata compressed_rdata] in *.
  subst rdl comp.
  unfold record_bytes in *.
  cbn [rname_ rtype rclass ttl rdlength rdata compressed_rdata] in *.
  rewrite <- !app_assoc in Hdata.
  assert (Hr : 0 <= len rd < 65536) by (pose proof (len_nonneg rd); lia).
  unfold DnsRecord_parse.
  rewrite (@parse_from_valid _ Hn fuel data off _ Hdata Hfuel). cbn [bind].
  pose proof (@skipn_more _ _ _ _ _ Hdata eq_refl) as Hfix.
  rewrite (@unpack_HHIH_packed data _ ty cl tl (len rd) (rd ++ post)
             Ht Hc Htl Hr Hfix).
  cbn [bind]. cbv zeta.
  assert (Hrd : skipn (off + length (name_bytes nm) + 10) data = rd ++ post).
  { apply (@skipn_more data _ 10
             (be16 ty ++ be16 cl ++ be32 tl ++ be16 (len rd)) (rd ++ post));
      [now rewrite <- !app_assoc | reflexivity]. }
  rewrite len_range_to_nat.
  rewrite (@slice_skipn _ _ _ _ _ Hrd eq_refl).
  rewrite Z.eqb_refl. cbn [assert bind].
  assert (Hfinal :
            (off + length (name_bytes nm) + 10 + length rd)%nat
            = (off + length (name_bytes nm ++ be16 ty ++ be16 cl ++ be32 tl
                             ++ be16 (len rd) ++ rd))%nat).
  { rewrite !length_app. cbn [be16 be32 length]. lia. }
  destruct (compression_eligible ty) eqn:Helig.
  - destruct (Hpay eq_refl) as (payload & Hv & Henc).
    destruct (@handler_parse_valid E _ _ _ Hv Henc fuel data _ post Hrd Hfuel)
      as (payload' & Hparse & Henc').
    rewrite Hparse. cbn [bind]. rewrite Henc'. cbn [bind].
    rewrite bytes_eqb_refl. cbn [negb bind].
    unfold received_record, DnsRecord_init. cbn. rewrite Hfinal. reflexivity.
  - cbn [bind]. unfold received_record, DnsRecord_init. cbn.
    rewrite Hfinal. reflexivity.
Qed.

(** ** The header read back *)

Lemma small_nat (v : Z) (n : nat) :
  0 <= v < Z.of_nat n -> exists k, (k < n)%nat /\ v = Z.of_nat k.
Proof. intro H. exists (Z.to_nat v). lia. Qed.

(** The first flag byte, by cases on its five fields. *)
Lemma flags_hi_read (p : DnsPacket) :
  0 <= OPCODE p < 16 ->
  0 <= flags_hi p < 256
  /\ Z.shiftr (Z.land (byte_val (byte_of (flags_hi p))) 128) 7
     = match QR p with query => 0 | response => 1 end
  /\ Z.shiftr (Z.land (byte_val (byte_of (flags_hi p))) 120) 3 = OPCODE p
  /\ negb (Z.land (byte_val (byte_of (flags_hi p))) 4 =? 0) = AA p
  /\ negb (Z.land (byte_val (byte_of (flags_hi p))) 2 =? 0) = TC p
  /\ negb (Z.land (byte_val (byte_of (flags_hi p))) 1 =? 0) = RD p.
Proof.
  destruct p as [c i qr op aa tc rd ra z rc qd an ns ar qs a s d sfx].
  unfold flags_hi. cbn [QR OPCODE AA TC RD]. intro Hop.
  destruct (@small_nat op 16 Hop) as (k & Hk & ->).
  do 16 (destruct k as [|k];
         [destruct qr, aa, tc, rd; vm_compute;
          repeat split; first [reflexivity | intro; discriminate]|]).
  lia.
Qed.

(** The second flag byte, by cases on its three fields. *)
Lemma flags_lo_read (p : DnsPacket) :
  0 <= Z_ p < 8 -> 0 <= RCODE p < 16 ->
  0 <= flags_lo p < 256
  /\ negb (Z.land (byte_val (byte_of (flags_lo p))) 128 =? 0) = RA p
  /\ Z.shiftr (Z.land (byte_val (byte_of (flags_lo p))) 112) 4 = Z_ p
  /\ Z.land (byte_val (byte_of (flags_lo p))) 15 = RCODE p.
Proof.
  destruct p as [c i qr op aa tc rd ra z rc qd an ns ar qs a s d sfx].
  unfold flags_lo. cbn [RA Z_ RCODE]. intros Hz Hrc.
  destruct (@small_nat z 8 Hz) as (kz & Hkz & ->).
  destruct (@small_nat rc 16 Hrc) as (k & Hk & ->).
  do 8 (destruct kz as [|kz];
        [do 16 (destruct k as [|k];
                [destruct ra; vm_compute;
                 repeat split; first [reflexivity | intro; discriminate]|]);
         lia|]).
  lia.
Qed.

(** The four counts at offset 4 of a buffer that starts with a packed
    header. *)
Lemma header_counts_read (i f1 f2 : byte) (i' : byte) (qd an ns ar : Z)
    (body : bytes) :
  0 <= qd < 65536 -> 0 <= an < 65536 -> 0 <= ns < 65536 -> 0 <= ar < 65536 ->
  unpack_HHHH ([i; i'] ++ [f1; f2] ++ be16 qd ++ be16 an ++ be16 ns
               ++ be16 ar ++ body) 4
  = Return (qd, an, ns, ar).
Proof.
  intros Hq Ha Hn Hr. unfold unpack_HHHH.
  rewrite (@unpack_bytes_skipn 8 _ 4 (be16 qd ++ be16 an ++ be16 ns ++ be16 ar)
             body);
    [| cbn [app skipn]; now rewrite <- !app_assoc | reflexivity | discriminate].
  cbn [bind]. f_equal. repeat f_equal; solve_field.
Qed.

Lemma parse_header_valid (E : Enums) (m : DnsPacket) (body : bytes) :
  valid_message m ->
  parse_header (header_bytes m ++ body) = Return (header_of m).
Proof.
  intros (Hid & Hopm & Hop & Hz & Hrcm & Hrc & Hqd & Han & Hns & Har
          & Hqd' & Han' & Hns' & Har' & _).
  destruct (flags_hi_read m Hop) as (_ & Hqr & Hopc & Haa & Htc & Hrd).
  destruct (flags_lo_read m Hz Hrc) as (_ & Hra & Hzz & Hrcode).
  unfold header_bytes. rewrite <- !app_assoc.
  change (be16 (ID m)) with [byte_of (ID m / 256); byte_of (ID m mod 256)].
  unfold parse_header.
  assert (Hu : unpack_H ([byte_of (ID m / 256); byte_of (ID m mod 256)]
                         ++ [byte_of (flags_hi m); byte_of (flags_lo m)]
                         ++ be16 (QDCOUNT m) ++ be16 (ANCOUNT m)
                         ++ be16 (NSCOUNT m) ++ be16 (ARCOUNT m) ++ body) 0
               = Return (ID m)).
  { unfold unpack_H.
    rewrite (@unpack_bytes_skipn 2 _ 0
               [byte_of (ID m / 256); byte_of (ID m mod 256)]
               ([byte_of (flags_hi m); byte_of (flags_lo m)]
                ++ be16 (QDCOUNT m) ++ be16 (ANCOUNT m)
                ++ be16 (NSCOUNT m) ++ be16 (ARCOUNT m) ++ body));
      [| reflexivity | reflexivity | discriminate].
    cbn [bind]. f_equal. now apply be16_val. }
  rewrite Hu. cbn [bind].
  unfold index. cbn [app nth_error bind].
  rewrite Hqr, Hopc.
  assert (Hq : DnsQR_of (match QR m with query => 0 | response => 1 end)
               = Return (QR m)) by (destruct (QR m); reflexivity).
  rewrite Hq. cbn [bind].
  unfold DnsOpCode_of. rewrite Hopm. cbn [bind].
  rewrite Hrcode. unfold DnsResponseCode_of. rewrite Hrcm. cbn [bind].
  pose proof (len_nonneg (questions m)). pose proof (len_nonneg (answers m)).
  pose proof (len_nonneg (nameservers m)).
  pose proof (len_nonneg (additional_records m)).
  change (byte_of (ID m / 256) :: byte_of (ID m mod 256)
          :: byte_of (flags_hi m) :: byte_of (flags_lo m)
          :: be16 (QDCOUNT m) ++ be16 (ANCOUNT m) ++ be16 (NSCOUNT m)
             ++ be16 (ARCOUNT m) ++ body)
    with ([byte_of (ID m / 256); byte_of (ID m mod 256)]
          ++ [byte_of (flags_hi m); byte_of (flags_lo m)]
          ++ be16 (QDCOUNT m) ++ be16 (ANCOUNT m) ++ be16 (NSCOUNT m)
          ++ be16 (ARCOUNT m) ++ body).
  rewrite header_counts_read by lia.
  cbn [bind]. rewrite Haa, Htc, Hrd, Hra, Hzz. reflexivity.
Qed.

(** ** The sections read back *)

Lemma encode_each_valid {A : Type} (enc : A -> outcome bytes) (wire : A -> bytes)
    (P : A -> Prop) (l : list A) :
  (forall x, P x -> enc x = Return (wire x)) ->
  Forall P l ->
  encode_each enc l = Return (concat (map wire l)).
Proof.
  intros Henc Hl. induction Hl as [|x l Hx Hl IH]; cbn; [reflexivity|].
  rewrite (Henc x Hx). cbn [bind]. rewrite IH. reflexivity.
Qed.

Lemma DnsPacket_encode_valid (E : Enums) (m : DnsPacket) :
  valid_message m -> DnsPacket_encode m = Return (message_bytes m).
Proof.
  intros (Hid & Hopm & Hop & Hz & Hrcm & Hrc & Hqd & Han & Hns & Har
          & Hqd' & Han' & Hns' & Har' & _ & Hqs & Has & Hnss & Hars).
  destruct (flags_hi_read m Hop) as (Hhi & _).
  destruct (flags_lo_read m Hz Hrc) as (Hlo & _).
  pose proof (len_nonneg (questions m)). pose proof (len_nonneg (answers m)).
  pose proof (len_nonneg (nameservers m)).
  pose proof (len_nonneg (additional_records m)).
  unfold DnsPacket_encode, message_bytes, header_bytes. cbn [pack_all].
  rewrite (pack_H_ok Hid), (pack_B_ok Hhi), (pack_B_ok Hlo).
  rewrite !pack_H_ok by lia. cbn [bind].
  rewrite (encode_each_valid _ _ DnsQuestion_encode_valid Hqs). cbn [bind].
  rewrite (encode_each_valid _ _ (@DnsRecord_encode_valid E) Has). cbn [bind].
  rewrite (encode_each_valid _ _ (@DnsRecord_encode_valid E) Hnss). cbn [bind].
  rewrite (encode_each_valid _ _ (@DnsRecord_encode_valid E) Hars). cbn [bind].
  rewrite app_nil_r, <- !app_assoc. reflexivity.
Qed.

Lemma questions_loop_valid (qs : list DnsQuestion) :
  Forall valid_question qs ->
  forall (n fuel : nat) (data : bytes) (off : nat) (QD : Z)
         (acc : list DnsQuestion) (post : bytes),
    skipn off data = concat (map question_bytes qs) ++ post ->
    (length data < fuel)%nat -> (length qs < n)%nat ->
    QD = len acc + len qs ->
    questions_loop n fuel data off QD acc
    = Return (acc ++ map received_question qs,
              (off + length (concat (map question_bytes qs)))%nat).
Proof.
  induction 1 as [|q qs Hq Hqs IH];
    intros n fuel data off QD acc post Hdata Hfuel Hn HQD;
    (destruct n as [|n]; [cbn in Hn; lia|]); cbn [questions_loop].
  - change (len (@nil DnsQuestion)) with 0 in HQD.
    replace (len acc <? QD) with false by (symmetry; apply Z.ltb_ge; lia).
    cbn [map concat length]. now rewrite app_nil_r, Nat.add_0_r.
  - assert (Hl : len (q :: qs) = 1 + len qs) by (unfold len; cbn [length]; lia).
    pose proof (len_nonneg qs).
    replace (len acc <? QD) with true by (symmetry; apply Z.ltb_lt; lia).
    cbn [map concat] in Hdata. rewrite <- app_assoc in Hdata.
    rewrite (@DnsQuestion_parse_valid q Hq fuel data off _ Hdata Hfuel).
    cbn [bind].
    rewrite (IH n fuel data _ QD (acc ++ [received_question q]) post).
    + cbn [map concat]. rewrite <- app_assoc, length_app. cbn [app].
      f_equal. f_equal. lia.
    + apply (@skipn_more _ _ _ _ _ Hdata eq_refl).
    + exact Hfuel.
    + cbn [length] in Hn. lia.
    + rewrite len_app. change (len [received_question q]) with 1. lia.
Qed.

Lemma record_bytes_nonempty (r : DnsRecord) :
  valid_name (rname_ r) = true -> record_bytes r <> [].
Proof.
  intros Hn Hnil. unfold record_bytes in Hnil.
  apply app_eq_nil in Hnil. destruct Hnil as [Hnil _].
  exact (name_bytes_nonempty _ Hn Hnil).
Qed.

Lemma parse_records_valid (E : Enums) (rs : list DnsRecord) :
  Forall valid_record rs ->
  forall (n fuel : nat) (data : bytes) (off : nat),
    skipn off data = concat (map record_bytes rs) ->
    (length data < fuel)%nat -> (length rs < n)%nat ->
    parse_records n fuel data off
    = Return (map received_record rs,
              (off + length (concat (map record_bytes rs)))%nat).
Proof.
  induction 1 as [|r rs Hr Hrs IH]; intros n fuel data off Hdata Hfuel Hn;
    (destruct n as [|n]; [cbn in Hn; lia|]); cbn [parse_records].
  - cbn [map concat] in *.
    assert (Hlen : length (skipn off data) = 0%nat) by now rewrite Hdata.
    rewrite length_skipn in Hlen.
    replace (off <? length data)%nat with false
      by (symmetry; apply Nat.ltb_ge; lia).
    cbn [length]. now rewrite Nat.add_0_r.
  - cbn [map concat] in *.
    pose proof (@record_bytes_nonempty r (proj1 Hr)) as Hne.
    pose proof (@skipn_bound _ _ _ _ Hdata Hne) as Hb.
    assert (0 < length (record_bytes r))%nat
      by (destruct (record_bytes r); [contradiction | cbn; lia]).
    replace (off <? length data)%nat with true
      by (symmetry; apply Nat.ltb_lt; lia).
    rewrite (@DnsRecord_parse_valid E r Hr fuel data off _ Hdata Hfuel).
    cbn [bind].
    rewrite (IH n fuel data _ (@skipn_more _ _ _ _ _ Hdata eq_refl) Hfuel)
      by (cbn [length] in Hn; lia).
    cbn [bind]. rewrite length_app. f_equal. f_equal. lia.
Qed.

Lemma app_inv_length {A : Type} (a a' b b' : list A) :
  a ++ b = a' ++ b' -> length a = length a' -> a = a' /\ b = b'.
Proof.
  revert a'. induction a as [|x a IH]; intros [|x' a'] H Hl;
    cbn in *; try discriminate; [auto|].
  inversion H; subst. destruct (IH a' H2 ltac:(lia)) as [-> ->]. auto.
Qed.

Lemma same_questions_received (qs : list DnsQuestion) :
  Forall2 same_question (map received_question qs) qs.
Proof.
  induction qs as [|q qs IH]; cbn; constructor; [|exact IH].
  repeat split.
Qed.

Lemma same_records_received (rs : list DnsRecord) :
  Forall2 same_record (map received_record rs) rs.
Proof.
  induction rs as [|r rs IH]; cbn; constructor; [|exact IH].
  repeat split.
Qed.

Lemma length_header_bytes (m : DnsPacket) : length (header_bytes m) = 12%nat.
Proof. reflexivity. Qed.

Lemma len_map {A B : Type} (f : A -> B) (l : list A) : len (map f l) = len l.
Proof. unfold len. now rewrite length_map. Qed.

(** Every question and every record takes at least one byte. *)
Lemma length_questions_bytes (qs : list DnsQuestion) :
  Forall valid_question qs ->
  (length qs <= length (concat (map question_bytes qs)))%nat.
Proof.
  induction 1 as [|q qs Hq Hqs IH]; cbn [map concat length]; [lia|].
  rewrite length_app. unfold question_bytes at 1. rewrite !length_app.
  cbn [be16 length]. lia.
Qed.

Lemma length_records_bytes (E : Enums) (rs : list DnsRecord) :
  Forall valid_record rs ->
  (length rs <= length (concat (map record_bytes rs)))%nat.
Proof.
  induction 1 as [|r rs Hr Hrs IH]; cbn [map concat length]; [lia|].
  rewrite length_app. unfold record_bytes at 1. rewrite !length_app.
  cbn [be16 length]. lia.
Qed.

(** Decoding the bytes of a valid message. *)
Lemma DnsPacket_parse_valid (E : Enums) (m : DnsPacket) (fuel : nat) :
  valid_message m ->
  (length (message_bytes m) < fuel)%nat ->
  DnsPacket_parse fuel (message_bytes m) None
  = Return (received_message m, length (message_bytes m)).
Proof.
  intros Hm Hfuel.
  pose proof (@parse_header_valid E m
                (concat (map question_bytes (questions m))
                 ++ concat (map record_bytes (answers m))
                 ++ concat (map record_bytes (nameservers m))
                 ++ concat (map record_bytes (additional_records m))) Hm)
    as Hh.
  fold (message_bytes m) in Hh.
  destruct Hm as (Hid & Hopm & Hop & Hz & Hrcm & Hrc & Hqd & Han & Hns & Har
                  & Hqd' & Han' & Hns' & Har' & Hsfx & Hqs & Has & Hnss & Hars).
  assert (Hrs : Forall valid_record
                  (answers m ++ nameservers m ++ additional_records m))
    by (repeat (apply Forall_app; split); assumption).
  assert (Hlen : length (message_bytes m)
                 = (12 + length (concat (map question_bytes (questions m)))
                    + length (concat (map record_bytes
                                        (answers m ++ nameservers m
                                         ++ additional_records m))))%nat).
  { unfold message_bytes. rewrite !map_app, !concat_app, !length_app.
    rewrite length_header_bytes. lia. }
  pose proof (length_questions_bytes Hqs) as Hlq.
  pose proof (length_records_bytes Hrs) as Hlr.
  assert (Hq12 : skipn 12 (message_bytes m)
                 = concat (map question_bytes (questions m))
                   ++ concat (map record_bytes
                                (answers m ++ nameservers m
                                 ++ additional_records m))).
  { unfold message_bytes.
    rewrite skipn_app, length_header_bytes, Nat.sub_diag.
    rewrite skipn_all2 by (rewrite length_header_bytes; lia).
    cbn [skipn app]. now rewrite !map_app, !concat_app. }
  pose proof (@questions_loop_valid (questions m) Hqs fuel fuel
                (message_bytes m) 12 (QDCOUNT m) [] _ Hq12 Hfuel
                ltac:(lia) ltac:(change (len (@nil DnsQuestion)) with 0; lia))
    as Hql.
  cbn [app] in Hql.
  pose proof (@parse_records_valid E _ Hrs fuel fuel (message_bytes m) _
                (@skipn_more _ _ _ _ _ Hq12 eq_refl) Hfuel ltac:(lia)) as Hpr.
  rewrite <- Nat.add_assoc, <- Hlen in Hpr || rewrite <- Hlen in Hpr.
  destruct (@parse_sections_routes E fuel (message_bytes m) (header_of m) 12
              _ _ _ _ Hh Hql Hpr) as (Hexact & _).
  cbn [header_of h_ANCOUNT h_NSCOUNT h_ARCOUNT] in Hexact.
  destruct Hexact as (a & s & d & Hrun & Happ & Hla & Hls & Hld).
  { rewrite len_map, !len_app. lia. }
  rewrite !map_app in Happ.
  apply app_inv_length in Happ;
    [| unfold len in *; rewrite length_map; lia].
  destruct Happ as [-> Happ].
  apply app_inv_length in Happ;
    [| unfold len in *; rewrite length_map; lia].
  destruct Happ as [-> ->].
  unfold DnsPacket_parse. rewrite Hh. cbn [bind]. rewrite Hrun.
  unfold message_of, received_message, slice_from.
  rewrite skipn_all, Hsfx. reflexivity.
Qed.

(** C6 (as stated, refuted): a message whose one question has the ASCII
    label [_dmarc] encodes to 24 octets without any pointer, and decoding
    them fails on the label's underscore; a message with a non-empty suffix
    comes back with an empty one; an NS record with arbitrary RDATA does
    not come back either; and a record that carries [compressed_rdata]
    comes back without it, since the encoder writes [rdata] only. *)
Lemma roundtrip_fails_outside_charset :
  (exists bs,
      DnsPacket_encode underscore_message = Return bs
      /\ DnsPacket_parse 50 bs None = Raise AssertionError)
  /\ (exists bs p o,
         DnsPacket_encode suffix_message = Return bs
         /\ DnsPacket_parse 50 bs None = Return (p, o)
         /\ suffix p <> suffix suffix_message)
  /\ (exists bs,
         DnsPacket_encode opaque_ns_message = Return bs
         /\ DnsPacket_parse 50 bs None = Raise IndexError)
  /\ (exists bs p o,
         DnsPacket_encode decoded_ns_message = Return bs
         /\ DnsPacket_parse 50 bs None = Return (p, o)
         /\ map (@compressed_rdata) (answers decoded_ns_message)
            = [Some (bytes_of [192; 12])]
         /\ map (@compressed_rdata) (answers p) = [None]
         /\ map (@rdata) (answers p)
            = map (@rdata) (answers decoded_ns_message)).
Proof.
  split; [|split; [|split]].
  - eexists. split; [vm_compute; reflexivity | vm_compute; reflexivity].
  - do 3 eexists. split; [vm_compute; reflexivity|].
    split; [vm_compute; reflexivity|]. vm_compute. discriminate.
  - eexists. split; [vm_compute; reflexivity | vm_compute; reflexivity].
  - do 3 eexists. split; [vm_compute; reflexivity|].
    split; [vm_compute; reflexivity|].
    split; [reflexivity|]. split; reflexivity.
Qed.

(** C6 (amended): a message whose names are the root name or made of labels
    of 1 to 63 letters, digits and hyphens adding up to less than 256
    characters, whose fields fit their wire widths, whose counts are the
    section lengths, whose suffix is empty, whose records carry no
    [compressed_rdata] and whose NS, SOA, CNAME and PTR records carry the
    uncompressed encoding of their payload, is encoded without error, and
    the bytes decode, with enough fuel, to the whole buffer's length and to
    exactly [received_message m]: the header fields, the four counts, the
    suffix and, for every question and record in order, the labels of its
    name and each of its other fields are those of [m]; every decoded name
    carries its encoding in [compressed_name], and the decoded object is a
    [Query] or a [Response] by the QR bit, whatever the class of [m]. *)
Theorem decode_encode_roundtrip (E : Enums) (m : DnsPacket) :
  valid_message m ->
  exists bs,
    DnsPacket_encode m = Return bs
    /\ forall fuel, (length bs < fuel)%nat ->
         exists p,
           DnsPacket_parse fuel bs None = Return (p, length bs)
           /\ p = received_message m
           /\ same_message p m
           /\ cls p = match QR m with query => Query | response => Response end
           /\ map (fun q => compressed_name (qname q)) (questions p)
              = map (fun q => Some (name_bytes (qname q))) (questions m)
           /\ map (fun r => compressed_name (rname_ r))
                (answers p ++ nameservers p ++ additional_records p)
              = map (fun r => Some (name_bytes (rname_ r)))
                  (answers m ++ nameservers m ++ additional_records m).
Proof.
  intro Hm. exists (message_bytes m).
  split; [exact (@DnsPacket_encode_valid E m Hm)|].
  intros fuel Hfuel. exists (received_message m).
  split; [exact (@DnsPacket_parse_valid E m fuel Hm Hfuel)|].
  split; [reflexivity|].
  split.
  { unfold same_message, received_message. cbn.
    repeat split;
      first [apply same_questions_received | apply same_records_received]. }
  split; [reflexivity|].
  unfold received_message.
  cbn [questions answers nameservers additional_records].
  split.
  - rewrite map_map. reflexivity.
  - rewrite <- !map_app, map_map. reflexivity.
Qed.

(** A record that is valid for a type without compression. *)
Lemma valid_record_plain (E : Enums) (r : DnsRecord) :
  valid_name (rname_ r) = true ->
  0 <= rtype r < 65536 -> 0 <= rclass r < 65536 -> 0 <= ttl r < 4294967296 ->
  rdlength r = len (rdata r) -> len (rdata r) < 65536 ->
  compressed_rdata r = None ->
  compression_eligible (rtype r) = false ->
  valid_record r.
Proof.
  intros Hn Ht Hc Htl Hrl Hlen Hcomp Helig.
  repeat split; try assumption; try lia.
  intro H. congruence.
Qed.

(** Decide a closed comparison or equation by evaluation. *)
Ltac crunch :=
  match goal with
  | |- _ /\ _ => split; crunch
  | |- _ -> exists _, _ => idtac
  | |- Forall _ _ => idtac
  | |- _ =>
      first [reflexivity
            | lia
            | vm_compute; first [reflexivity | intro; discriminate]]
  end.

Lemma plain_message_valid : @valid_message rfc1035 plain_message.
Proof.
  unfold valid_message, plain_message.
  cbn [ID OPCODE Z_ RCODE QDCOUNT ANCOUNT NSCOUNT ARCOUNT questions answers
       nameservers additional_records suffix].
  repeat match goal with |- _ /\ _ => split end; crunch.
  - constructor; [|constructor].
    unfold valid_question.
    repeat match goal with |- _ /\ _ => split end; crunch.
  - constructor; [|constructor].
    apply valid_record_plain; crunch.
  - constructor; [|constructor]. unfold valid_record.
    repeat match goal with |- _ /\ _ => split end; crunch.
    intros _. exists (RData_SingleName ns1_example_com).
    split; [reflexivity | vm_compute; reflexivity].
  - constructor; [|constructor]. unfold valid_record.
    repeat match goal with |- _ /\ _ => split end; crunch.
    intros _. exists (RData_SOA 2024 7200 3600 1209600 ns1_example_com example_com).
    split; [|vm_compute; reflexivity].
    cbn [valid_payload get_handler].
    change (get_handler (rtype _)) with H_SOA. cbn [valid_payload].
    repeat match goal with |- _ /\ _ => split end; crunch.
Qed.

Lemma decode_encode_roundtrip_witness :
  exists bs p,
    DnsPacket_encode plain_message = Return bs
    /\ DnsPacket_parse 200 bs None = Return (p, length bs)
    /\ p = received_message plain_message
    /\ same_message p plain_message
    /\ cls p = Response.
Proof.
  destruct (@decode_encode_roundtrip rfc1035 plain_message plain_message_valid)
    as (bs & Henc & Hdec).
  assert (Hlen : (length bs < 200)%nat).
  { vm_compute in Henc. apply Return_inj in Henc. subst bs.
    vm_compute. lia. }
  destruct (Hdec 200%nat Hlen) as (p & Hrun & Heq & Hsame & Hcls & _).
  exists bs, p. split; [exact Henc|]. split; [exact Hrun|].
  split; [exact Heq|]. split; [exact Hsame | exact Hcls].
Defined.

(** * Further properties of the DomainName codec *)

Lemma skipn_prefix (pre x : bytes) : skipn (length pre) (pre ++ x) = x.
Proof. now rewrite skipn_app, skipn_all, Nat.sub_diag. Qed.

(** X1: the encoding of a valid name, placed anywhere in a buffer, is decoded
    to the same labels; the decoder consumes exactly the encoding and
    attaches it to the name. *)
Theorem DomainName_roundtrip (n : DomainName) (pre post : bytes) (fuel : nat) :
  valid_name n = true ->
  (length (pre ++ name_bytes n ++ post) < fuel)%nat ->
  DomainName_encode n = Return (name_bytes n)
  /\ parse_from fuel (pre ++ name_bytes n ++ post) (length pre)
     = Return (mkDomainName (labels n) (Some (name_bytes n)),
               (length pre + length (name_bytes n))%nat).
Proof.
  intros Hn Hfuel. split; [now apply DomainName_encode_valid|].
  apply (@parse_from_valid n Hn fuel _ _ post); [|exact Hfuel].
  apply skipn_prefix.
Qed.

Lemma DomainName_roundtrip_witness :
  parse_from 40 (bytes_of [7; 7] ++ name_bytes ns1_example_com ++ bytes_of [9])
    2
  = Return (mkDomainName ["ns1"%string; "example"%string; "com"%string]
              (Some (name_bytes ns1_example_com)), 19%nat).
Proof.
  refine (proj2 (@DomainName_roundtrip ns1_example_com (bytes_of [7; 7])
                   (bytes_of [9]) 40 _ _)).
  - vm_compute. reflexivity.
  - vm_compute. lia.
Defined.

(** X2: [encode] stops at the first empty label: the labels after it are not
    written, and no error is raised for them. *)
Theorem encode_stops_at_empty_label (ls rest : list string) :
  Forall (fun l => l <> EmptyString) ls ->
  DomainName_encode (mkDomainName (ls ++ EmptyString :: rest) None)
  = DomainName_encode (mkDomainName ls None).
Proof.
  intro H. unfold DomainName_encode. cbn [labels]. f_equal.
  induction H as [|l ls Hl Hls IH]; [reflexivity|].
  cbn [app encode_labels]. destruct l as [|c l]; [contradiction|].
  rewrite IH. reflexivity.
Qed.

Lemma encode_stops_at_empty_label_witness :
  DomainName_encode
    (mkDomainName ["com"%string; EmptyString; "not written"%string] None)
  = Return (bytes_of [3; 99; 111; 109; 0]).
Proof.
  refine (eq_trans (@encode_stops_at_empty_label ["com"%string]
                      ["not written"%string] _) _).
  - repeat constructor. discriminate.
  - vm_compute. reflexivity.
Defined.

Lemma length_slice_le (data : bytes) (lo hi : nat) :
  (length (slice data lo hi) <= hi - lo)%nat.
Proof. unfold slice. rewrite length_firstn. lia. Qed.

Lemma length_slice (data : bytes) (lo hi : nat) :
  (hi <= length data)%nat -> length (slice data lo hi) = (hi - lo)%nat.
Proof. intro H. unfold slice. rewrite length_firstn, length_skipn. lia. Qed.

Lemma index_Return (data : bytes) (i : nat) (b : byte) :
  index data i = Return b -> (i < length data)%nat.
Proof.
  unfold index. destruct (nth_error data i) eqn:H; [|discriminate].
  intros _. apply nth_error_Some. congruence.
Qed.

(** The loop of [parse_from] stops past the offset it was at, within the
    buffer. *)
Lemma parse_from_loop_progress (fuel : nat) (data : bytes) :
  forall (start off : nat) (sequence : list string) (n : DomainName) (off' : nat),
    parse_from_loop fuel data start off sequence = Return (n, off') ->
    (off < off' <= length data)%nat
    /\ compressed_name n = Some (slice data start off').
Proof.
  induction fuel as [|fuel IH]; intros start off sequence n off' H;
    [discriminate|].
  rewrite parse_from_loop_step in H.
  bind_inv H b Hb. apply index_Return in Hb. cbv zeta in H.
  destruct (byte_val b =? 0).
  { unfold parse_from_finish in H. inversion H; subst. cbn. split; [lia|auto]. }
  destruct (byte_val b <? 64).
  { bind_inv H label Hl. bind_inv H u1 H1. bind_inv H u2 H2.
    apply IH in H. destruct H as [Hp Hc]. split; [lia | exact Hc]. }
  destruct (192 <=? byte_val b); [|discriminate].
  bind_inv H b1 Hb1. apply index_Return in Hb1.
  bind_inv H t Ht. bind_inv H u Hu. bind_inv H r Hr. destruct r as [label k].
  unfold parse_from_finish in H. inversion H; subst. cbn. split; [lia|auto].
Qed.

(** X3: a name that is decoded ends past the offset it started at and within
    the buffer, and the bytes attached to it are the bytes in between. *)
Theorem parse_from_consumes (fuel : nat) (data : bytes) (offset : nat)
    (n : DomainName) (offset' : nat) :
  parse_from fuel data offset = Return (n, offset') ->
  (offset < offset' <= length data)%nat
  /\ compressed_name n = Some (slice data offset offset')
  /\ length (slice data offset offset') = (offset' - offset)%nat.
Proof.
  intro H. apply parse_from_loop_progress in H. destruct H as [Hp Hc].
  repeat split; try lia; [exact Hc|]. apply length_slice. lia.
Qed.

Lemma parse_from_consumes_witness :
  exists n,
    parse_from 9 long_pointer_name 193 = Return (n, 387%nat)
    /\ compressed_name n = Some (slice long_pointer_name 193 387).
Proof.
  assert (Hrun : exists n, parse_from 9 long_pointer_name 193 = Return (n, 387%nat))
    by (eexists; vm_compute; reflexivity).
  destruct Hrun as [n Hrun]. exists n. split; [exact Hrun|].
  exact (proj1 (proj2 (@parse_from_consumes 9 long_pointer_name 193 n 387 Hrun))).
Defined.

Lemma decode_ascii_length (bs : bytes) (s : string) :
  decode_ascii bs = Return s -> String.length s = length bs.
Proof.
  revert s. induction bs as [|b bs IH]; cbn; intros s H.
  - inversion H. reflexivity.
  - destruct (byte_val b <? 128); [|discriminate].
    bind_inv H s' Hs. inversion H; subst. cbn. now rewrite (IH s').
Qed.

Lemma DomainName_init_ok (ls : list string) :
  Forall wire_ok ls -> Forall wire_ok (labels (DomainName_init ls)).
Proof.
  destruct ls as [|l ls]; cbn; intro H; [|exact H].
  constructor; [|constructor]. split; [reflexivity | cbn; lia].
Qed.

(** Every label the loop of [parse_from] adds is a label of the wire. *)
Lemma parse_from_loop_ok (fuel : nat) (data : bytes) :
  forall (start off : nat) (sequence : list string) (n : DomainName) (off' : nat),
    Forall wire_ok sequence ->
    parse_from_loop fuel data start off sequence = Return (n, off') ->
    Forall wire_ok (labels n).
Proof.
  induction fuel as [|fuel IH]; intros start off sequence n off' Hseq H;
    [discriminate|].
  rewrite parse_from_loop_step in H.
  bind_inv H b Hb. cbv zeta in H.
  destruct (byte_val b =? 0).
  { unfold parse_from_finish in H. inversion H; subst. cbn [labels].
    now apply DomainName_init_ok. }
  destruct (byte_val b <? 64) eqn:Hlt.
  { bind_inv H label Hl. bind_inv H u1 H1. bind_inv H u2 H2.
    apply assert_Return in H1.
    refine (IH _ _ _ _ _ _ H).
    apply Forall_app. split; [exact Hseq|].
    constructor; [|constructor]. split; [exact H1|].
    rewrite (decode_ascii_length _ Hl).
    pose proof (length_slice_le data (off + 1) (off + 1 + Z.to_nat (byte_val b))).
    apply Z.ltb_lt in Hlt. lia. }
  destruct (192 <=? byte_val b); [|discriminate].
  bind_inv H b1 Hb1. bind_inv H t Ht. bind_inv H u Hu.
  bind_inv H r Hr. destruct r as [label k].
  unfold parse_from_finish in H. inversion H; subst. cbn [labels].
  apply DomainName_init_ok. apply Forall_app. split; [exact Hseq|].
  exact (IH _ _ _ _ _ (Forall_nil _) Hr).
Qed.

Lemma encode_labels_ok (ls : list string) :
  Forall wire_ok ls -> exists bs, encode_labels ls = Return bs.
Proof.
  induction 1 as [|l ls [Hc Hlen] Hls [bs IH]]; [now exists []|].
  cbn [encode_labels]. destruct l as [|c l]; [now exists []|].
  replace (Z.of_nat (String.length (String c l)) <? 256) with true
    by (symmetry; apply Z.ltb_lt; lia).
  cbn [bind]. rewrite (encode_ascii_allowed _ Hc), IH. cbn [bind].
  eexists. reflexivity.
Qed.

(** X4: every label of a decoded name, whether read in place or through a
    pointer, has fewer than 64 characters, all letters, digits or hyphens;
    encoding a decoded name never raises. *)
Theorem decoded_name_encodes (fuel : nat) (data : bytes) (offset : nat)
    (n : DomainName) (offset' : nat) :
  parse_from fuel data offset = Return (n, offset') ->
  Forall (fun l => allowed_charset_issuperset l = true
                   /\ (String.length l < 64)%nat) (labels n)
  /\ exists bs, DomainName_encode n = Return bs.
Proof.
  intro H. apply (@parse_from_loop_ok fuel data offset offset [] n offset'
                   (Forall_nil _)) in H.
  split; [exact H|].
  destruct (encode_labels_ok H) as [bs Hbs].
  exists (bs ++ [x00]). unfold DomainName_encode. now rewrite Hbs.
Qed.

Lemma decoded_name_encodes_witness :
  exists n bs,
    parse_from 5 compressed_ns_buffer 3 = Return (n, 5%nat)
    /\ DomainName_encode n = Return bs.
Proof.
  assert (Hrun : exists n, parse_from 5 compressed_ns_buffer 3 = Return (n, 5%nat))
    by (eexists; vm_compute; reflexivity).
  destruct Hrun as [n Hrun].
  destruct (proj2 (@decoded_name_encodes 5 compressed_ns_buffer 3 n 5 Hrun))
    as [bs Hbs].
  exists n, bs. split; [exact Hrun | exact Hbs].
Defined.

Lemma decode_ascii_not_NoFuel (bs : bytes) : decode_ascii bs <> NoFuel.
Proof.
  induction bs as [|b bs IH]; cbn; [discriminate|].
  destruct (byte_val b <? 128); [|discriminate].
  destruct (decode_ascii bs); cbn; congruence.
Qed.

(** Without a pointer byte in the buffer the loop of [parse_from] moves
    forward until it returns or raises. *)
Lemma parse_from_loop_terminates (data : bytes) :
  Forall (fun b => byte_val b < 192) data ->
  forall (fuel start off : nat) (sequence : list string),
    (length data - off < fuel)%nat ->
    parse_from_loop fuel data start off sequence <> NoFuel.
Proof.
  intros Hdata. induction fuel as [|fuel IH]; intros start off sequence Hfuel;
    [lia|].
  rewrite parse_from_loop_step. unfold index.
  destruct (nth_error data off) as [b|] eqn:Hb; [|discriminate].
  cbn [bind]. cbv zeta.
  assert (Hoff : (off < length data)%nat)
    by (apply nth_error_Some; congruence).
  destruct (byte_val b =? 0); [discriminate|].
  destruct (byte_val b <? 64).
  { pose proof (decode_ascii_not_NoFuel
                  (slice data (off + 1) (off + 1 + Z.to_nat (byte_val b)))).
    destruct (decode_ascii _) as [label| |]; cbn [bind];
      [|discriminate|contradiction].
    destruct (allowed_charset_issuperset label); cbn [assert bind];
      [|discriminate].
    destruct (sum_len (sequence ++ [label]) <? 256); cbn [assert bind];
      [|discriminate].
    apply IH. lia. }
  destruct (192 <=? byte_val b) eqn:Hp; [|discriminate].
  apply nth_error_In in Hb.
  pose proof (proj1 (Forall_forall _ _) Hdata b Hb) as Hlt.
  cbv beta in Hlt. apply Z.leb_le in Hp. lia.
Qed.

(** X5: on a buffer without a byte of 192 or more (no compression pointer),
    [parse_from] at any offset returns or raises within as many steps as the
    buffer has bytes. *)
Theorem parse_from_terminates_without_pointers (data : bytes) (fuel offset : nat) :
  Forall (fun b => byte_val b < 192) data ->
  (length data < fuel)%nat ->
  (exists r, parse_from fuel data offset = Return r)
  \/ (exists e, parse_from fuel data offset = Raise e).
Proof.
  intros Hdata Hfuel.
  pose proof (@parse_from_loop_terminates data Hdata fuel offset offset []
                ltac:(lia)) as H.
  unfold parse_from.
  destruct (parse_from_loop fuel data offset offset []) as [r|e|];
    [left; now exists r | right; now exists e | contradiction].
Qed.

Lemma parse_from_terminates_without_pointers_witness :
  (exists r, parse_from 258 long_name 0 = Return r)
  \/ (exists e, parse_from 258 long_name 0 = Raise e).
Proof.
  apply (@parse_from_terminates_without_pointers long_name 258 0).
  - unfold long_name, label63.
    repeat (apply Forall_app; split);
      repeat (apply Forall_cons; [vm_compute; reflexivity|]);
      apply Forall_nil.
  - vm_compute. lia.
Defined.

(** X6: [encode] does not enforce the 63-octet limit of a label: a label of
    64 to 191 letters, digits or hyphens is written with its length byte, and
    the decoder rejects that byte as an invalid label type. *)
Theorem encode_accepts_long_label (l : string) (fuel : nat) :
  allowed_charset_issuperset l = true ->
  64 <= Z.of_nat (String.length l) < 192 ->
  exists bs,
    DomainName_encode (DomainName_init [l]) = Return bs
    /\ parse_from (S fuel) bs 0 = Raise (Exception "Unknown/Invalid DNS Label").
Proof.
  intros Hc Hlen.
  exists ((byte_of (Z.of_nat (String.length l))
           :: map byte_of_ascii (list_ascii_of_string l) ++ []) ++ [x00]).
  split.
  - unfold DomainName_encode. cbn [DomainName_init labels encode_labels].
    destruct l as [|c l]; [cbn in Hlen; lia|].
    replace (Z.of_nat (String.length (String c l)) <? 256) with true
      by (symmetry; apply Z.ltb_lt; lia).
    cbn [bind]. rewrite (encode_ascii_allowed _ Hc). reflexivity.
  - unfold parse_from. rewrite parse_from_loop_step.
    unfold index. cbn [app nth_error bind]. cbv zeta.
    rewrite byte_val_byte_of by lia.
    replace (Z.of_nat (String.length l) =? 0) with false
      by (symmetry; apply Z.eqb_neq; lia).
    replace (Z.of_nat (String.length l) <? 64) with false
      by (symmetry; apply Z.ltb_ge; lia).
    replace (192 <=? Z.of_nat (String.length l)) with false
      by (symmetry; apply Z.leb_gt; lia).
    reflexivity.
Qed.

Lemma encode_accepts_long_label_witness :
  exists bs,
    DomainName_encode (DomainName_init [letters 64]) = Return bs
    /\ parse_from 1 bs 0 = Raise (Exception "Unknown/Invalid DNS Label").
Proof.
  apply (@encode_accepts_long_label (letters 64) 0).
  - vm_compute. reflexivity.
  - vm_compute. split; [intro; discriminate | reflexivity].
Defined.

(** * Properties of the RData dispatch *)

(** X7: with pairwise distinct type codes, [get_handler] gives the SOA class
    for SOA, the single-name class for NS, CNAME and PTR, the address classes
    for A and AAAA, and the base class for every other code. *)
Theorem get_handler_dispatch (E : Enums) :
  NoDup [DnsRType_A; DnsRType_NS; DnsRType_CNAME; DnsRType_SOA; DnsRType_PTR;
         DnsRType_AAAA] ->
  get_handler DnsRType_SOA = H_SOA
  /\ get_handler DnsRType_NS = H_SingleName
  /\ get_handler DnsRType_CNAME = H_SingleName
  /\ get_handler DnsRType_PTR = H_SingleName
  /\ get_handler DnsRType_A = H_A
  /\ get_handler DnsRType_AAAA = H_AAAA
  /\ forall rtype,
       ~ In rtype [DnsRType_A; DnsRType_NS; DnsRType_CNAME; DnsRType_SOA;
                   DnsRType_PTR; DnsRType_AAAA] ->
       get_handler rtype = H_RData.
Proof.
  intro H.
  repeat (apply NoDup_cons_iff in H;
          let Hn := fresh "Hn" in destruct H as [Hn H]).
  cbn [In] in *.
  unfold get_handler, handlers. cbn [dict_get].
  repeat split; try (intros rtype Hr);
    repeat match goal with
           | |- context [?a =? ?b] => destruct (Z.eqb_spec a b)
           end;
    try reflexivity; exfalso; intuition congruence.
Qed.

Lemma get_handler_dispatch_witness :
  @get_handler rfc1035 6 = H_SOA /\ @get_handler rfc1035 12 = H_SingleName
  /\ @get_handler rfc1035 99 = H_RData.
Proof.
  destruct (@get_handler_dispatch rfc1035) as (Hsoa & _ & _ & Hptr & _ & _ & Hother).
  - repeat constructor; cbn; intuition discriminate.
  - split; [exact Hsoa|]. split; [exact Hptr|].
    apply Hother. cbn. intuition discriminate.
Defined.

(** * Properties of names as text *)

(** X8: [enumerate_hierarchy] yields the root name first and then, for a
    name of [m] labels, [m] more names: the [k]-th of them is made of the
    last [k] labels, so the last one is the name itself. *)
Theorem enumerate_hierarchy_suffixes (n : DomainName) :
  labels n <> [] ->
  length (enumerate_hierarchy n) = S (length (labels n))
  /\ nth_error (enumerate_hierarchy n) 0 = Some (mkDomainName [EmptyString] None)
  /\ (forall k, (k < length (labels n))%nat ->
        nth_error (enumerate_hierarchy n) (S k)
        = Some (mkDomainName
                  (skipn (length (labels n) - S k) (labels n)) None))
  /\ nth_error (enumerate_hierarchy n) (length (labels n))
     = Some (mkDomainName (labels n) None).
Proof.
  intro Hne. unfold enumerate_hierarchy.
  assert (Hk : forall k, (k < length (labels n))%nat ->
               nth_error
                 (root_label
                  :: map (fun k => DomainName_init
                                     (last_labels (k + 1) (labels n)))
                       (seq 0 (length (labels n)))) (S k)
               = Some (mkDomainName
                         (skipn (length (labels n) - S k) (labels n)) None)).
  { intros k Hlt. cbn [nth_error].
    rewrite nth_error_map, nth_error_seq.
    replace (k <? length (labels n))%nat with true
      by (symmetry; apply Nat.ltb_lt; lia).
    cbn [option_map Nat.add]. unfold last_labels.
    rewrite Nat.add_1_r.
    destruct (skipn (length (labels n) - S k) (labels n)) as [|l ls] eqn:Hs;
      [|reflexivity].
    apply (f_equal (@length string)) in Hs.
    rewrite length_skipn in Hs. cbn [length] in Hs. lia. }
  repeat split.
  - cbn [length]. now rewrite length_map, length_seq.
  - exact Hk.
  - assert (Hpos : (0 < length (labels n))%nat)
      by (destruct (labels n); [contradiction | cbn; lia]).
    specialize (Hk (length (labels n) - 1)%nat ltac:(lia)).
    replace (S (length (labels n) - 1)) with (length (labels n)) in Hk by lia.
    rewrite Nat.sub_diag in Hk. exact Hk.
Qed.

Lemma enumerate_hierarchy_suffixes_witness :
  nth_error (enumerate_hierarchy ns1_example_com) 2
  = Some (mkDomainName ["example"%string; "com"%string] None).
Proof.
  refine (eq_trans
            (proj1 (proj2 (proj2 (@enumerate_hierarchy_suffixes ns1_example_com _)))
                   1%nat _) _).
  - discriminate.
  - vm_compute. lia.
  - reflexivity.
Defined.

Lemma split_dot_label (l : string) :
  dot_free l = true -> split_dot l = [l].
Proof.
  induction l as [|c l IH]; cbn; intro H; [reflexivity|].
  apply andb_true_iff in H. destruct H as [Hc Hl].
  apply negb_true_iff in Hc. rewrite Hc, (IH Hl). reflexivity.
Qed.

Lemma split_dot_cons (l rest : string) :
  dot_free l = true ->
  split_dot (l ++ String "."%char rest) = l :: split_dot rest.
Proof.
  induction l as [|c l IH]; cbn; intro H; [reflexivity|].
  apply andb_true_iff in H. destruct H as [Hc Hl].
  apply negb_true_iff in Hc. rewrite Hc, (IH Hl). reflexivity.
Qed.

Lemma split_dot_join (ls : list string) :
  ls <> [] -> Forall (fun l => dot_free l = true) ls ->
  split_dot (join_dot ls) = ls.
Proof.
  intros Hne H. induction H as [|l ls Hl Hls IH]; [contradiction|].
  destruct ls as [|l' ls]; [now apply split_dot_label|].
  change (join_dot (l :: l' :: ls))
    with (l ++ String "."%char (join_dot (l' :: ls)))%string.
  rewrite (@split_dot_cons l _ Hl), IH by discriminate. reflexivity.
Qed.

Lemma rstrip_dot_dot (s : string) :
  rstrip_dot (s ++ ".") = rstrip_dot s.
Proof.
  induction s as [|c s IH]; [reflexivity|].
  cbn [String.append rstrip_dot]. now rewrite IH.
Qed.

(** A string whose last character is no dot is left alone. *)
Lemma rstrip_dot_last (s : string) (c : ascii) :
  is_dot c = false ->
  rstrip_dot (s ++ String c EmptyString) = (s ++ String c EmptyString)%string.
Proof.
  intro Hc. induction s as [|a s IH].
  - cbn. now rewrite Hc.
  - cbn [String.append rstrip_dot]. rewrite IH.
    destruct (s ++ String c EmptyString)%string eqn:Hs; [|reflexivity].
    destruct s; discriminate.
Qed.

Lemma label_last (l : string) :
  l <> EmptyString -> dot_free l = true ->
  exists s c, l = (s ++ String c EmptyString)%string /\ is_dot c = false.
Proof.
  induction l as [|a l IH]; [contradiction|]. intros _ H.
  cbn in H. apply andb_true_iff in H. destruct H as [Ha Hl].
  apply negb_true_iff in Ha.
  destruct l as [|b l].
  - exists EmptyString, a. auto.
  - destruct (IH ltac:(discriminate) Hl) as (s & c & Hs & Hc).
    exists (String a s), c. cbn. now rewrite Hs.
Qed.

Lemma join_dot_last (ls : list string) :
  ls <> [] ->
  Forall (fun l => l <> EmptyString /\ dot_free l = true) ls ->
  exists s c, join_dot ls = (s ++ String c EmptyString)%string
              /\ is_dot c = false.
Proof.
  intros Hne H. induction H as [|l ls [Hl Hd] Hls IH]; [contradiction|].
  destruct ls as [|l' ls]; [now apply label_last|].
  destruct (IH ltac:(discriminate)) as (s & c & Hs & Hc).
  exists (l ++ String "."%char s)%string, c. split; [|exact Hc].
  change (join_dot (l :: l' :: ls))
    with (l ++ String "."%char (join_dot (l' :: ls)))%string.
  rewrite Hs. clear. induction l as [|a l IH]; cbn; [reflexivity|].
  now rewrite IH.
Qed.

(** X9: a name of non-empty labels without dots is read back from its text:
    [from_string(str(n))] has the labels of [n], with or without a trailing
    dot on the text. *)
Theorem from_string_str (n : DomainName) :
  labels n <> [] ->
  Forall (fun l => l <> EmptyString /\ dot_free l = true) (labels n) ->
  labels (from_string (DomainName_str n)) = labels n
  /\ labels (from_string (DomainName_str n ++ ".")) = labels n.
Proof.
  intros Hne H.
  destruct (join_dot_last Hne H) as (s & c & Hs & Hc).
  assert (Hd : Forall (fun l => dot_free l = true) (labels n))
    by (eapply Forall_impl; [|exact H]; intros l [_ Hl]; exact Hl).
  assert (Hstrip : rstrip_dot (DomainName_str n) = DomainName_str n).
  { unfold DomainName_str. rewrite Hs. now apply rstrip_dot_last. }
  assert (Hlabels : labels (DomainName_init (split_dot (DomainName_str n)))
                    = labels n).
  { unfold DomainName_str. rewrite (split_dot_join Hne Hd).
    destruct (labels n); [contradiction | reflexivity]. }
  unfold from_string. rewrite rstrip_dot_dot, Hstrip. split; exact Hlabels.
Qed.

Lemma from_string_str_witness :
  labels (from_string "ns1.example.com.")
  = ["ns1"%string; "example"%string; "com"%string].
Proof.
  refine (proj2 (@from_string_str ns1_example_com _ _)).
  - discriminate.
  - repeat constructor; discriminate.
Defined.

(** * Further properties of the record and question codecs *)

(** X10: the encoding of a valid question, placed anywhere in a buffer, is
    decoded to the same name labels, type and class, and the offset advances
    by the length of the encoding. *)
Theorem DnsQuestion_roundtrip (q : DnsQuestion) (pre post : bytes) (fuel : nat) :
  valid_question q ->
  (length (pre ++ question_bytes q ++ post) < fuel)%nat ->
  DnsQuestion_encode q = Return (question_bytes q)
  /\ exists q',
       DnsQuestion_parse fuel (pre ++ question_bytes q ++ post) (length pre)
       = Return (q', (length pre + length (question_bytes q))%nat)
       /\ same_question q' q.
Proof.
  intros Hq Hfuel. split; [now apply DnsQuestion_encode_valid|].
  exists (received_question q). split.
  - apply (@DnsQuestion_parse_valid q Hq fuel _ _ post); [|exact Hfuel].
    apply skipn_prefix.
  - repeat split.
Qed.

Lemma DnsQuestion_roundtrip_witness :
  exists q',
    DnsQuestion_parse 40
      (bytes_of [5] ++ question_bytes (mkDnsQuestion example_com 1 1) ++ []) 1
    = Return (q', 18%nat)
    /\ same_question q' (mkDnsQuestion example_com 1 1).
Proof.
  refine (proj2 (@DnsQuestion_roundtrip (mkDnsQuestion example_com 1 1)
                   (bytes_of [5]) [] 40 _ _)).
  - repeat split; vm_compute; first [reflexivity | intro; discriminate].
  - vm_compute. lia.
Defined.

(** X11: the encoding of a valid record, placed anywhere in a buffer, is
    decoded to the same fields; for NS, SOA, CNAME and PTR the payload is
    parsed out of the buffer, found to encode to the same bytes, and no
    compressed copy is kept. *)
Theorem DnsRecord_roundtrip (E : Enums) (r : DnsRecord) (pre post : bytes)
    (fuel : nat) :
  valid_record r ->
  (length (pre ++ record_bytes r ++ post) < fuel)%nat ->
  DnsRecord_encode r = Return (record_bytes r)
  /\ exists r',
       DnsRecord_parse fuel (pre ++ record_bytes r ++ post) (length pre)
       = Return (r', (length pre + length (record_bytes r))%nat)
       /\ same_record r' r.
Proof.
  intros Hr Hfuel. split; [exact (@DnsRecord_encode_valid E r Hr)|].
  exists (received_record r). split.
  - apply (@DnsRecord_parse_valid E r Hr fuel _ _ post); [|exact Hfuel].
    apply skipn_prefix.
  - repeat split.
Qed.

Lemma DnsRecord_roundtrip_witness :
  exists r',
    DnsRecord_parse 60
      (bytes_of [5; 5]
       ++ record_bytes (DnsRecord_init example_com 2 1 300
                          (name_bytes ns1_example_com))
       ++ bytes_of [7]) 2
    = Return (r', 42%nat)
    /\ same_record r' (DnsRecord_init example_com 2 1 300
                         (name_bytes ns1_example_com)).
Proof.
  refine (proj2 (@DnsRecord_roundtrip rfc1035
                   (DnsRecord_init example_com 2 1 300
                      (name_bytes ns1_example_com))
                   (bytes_of [5; 5]) (bytes_of [7]) 60 _ _)).
  - unfold valid_record.
    repeat match goal with |- _ /\ _ => split end; crunch.
    intros _. exists (RData_SingleName ns1_example_com).
    split; [reflexivity | vm_compute; reflexivity].
  - vm_compute. lia.
Defined.

(** X12: a record whose declared RDATA length runs past the end of the
    buffer is refused with the assertion error of the length check. *)
Theorem DnsRecord_parse_truncated (E : Enums) (fuel : nat) (data : bytes)
    (offset : nat) (name : DomainName) (o : nat) (ty cl tl rdl : Z) :
  parse_from fuel data offset = Return (name, o) ->
  unpack_HHIH data o = Return (ty, cl, tl, rdl) ->
  (length data < o + 10 + Z.to_nat rdl)%nat ->
  DnsRecord_parse fuel data offset = Raise AssertionError.
Proof.
  intros Hname Hfix Hshort. unfold DnsRecord_parse.
  rewrite Hname. cbn [bind]. rewrite Hfix. cbn [bind]. cbv zeta.
  assert (Hfixed : (o + 10 <= length data)%nat).
  { unfold unpack_HHIH, unpack_bytes in Hfix.
    destruct (o + 10 <=? length data)%nat eqn:Hle; [|discriminate].
    now apply Nat.leb_le. }
  assert (Hlen : (len (slice data (o + 10) (o + 10 + Z.to_nat rdl)) =? rdl)
                 = false).
  { apply Z.eqb_neq. unfold len, slice.
    rewrite length_firstn, length_skipn. lia. }
  rewrite Hlen. reflexivity.
Qed.

Lemma DnsRecord_parse_truncated_witness :
  DnsRecord_parse 5 (bytes_of [0; 0; 1; 0; 1; 0; 0; 0; 0; 0; 4; 1; 2]) 0
  = Raise AssertionError.
Proof.
  eapply (@DnsRecord_parse_truncated rfc1035 5 _ 0).
  - vm_compute. reflexivity.
  - vm_compute. reflexivity.
  - vm_compute. lia.
Defined.

(** * Further properties of the message codec *)

Lemma parse_header_length (E : Enums) (data : bytes) (h : Header) :
  parse_header data = Return h -> (12 <= length data)%nat.
Proof.
  intro H. apply parse_header_Return in H. destruct H as (_ & _ & Hc & _).
  unfold unpack_HHHH, unpack_bytes in Hc.
  destruct (4 + 8 <=? length data)%nat eqn:Hle; [|discriminate].
  apply Nat.leb_le in Hle. lia.
Qed.

Lemma parse_header_not_NoFuel (E : Enums) (data : bytes) :
  parse_header data <> NoFuel.
Proof.
  unfold parse_header, unpack_H, unpack_HHHH, unpack_bytes, index,
    DnsQR_of, DnsOpCode_of, DnsResponseCode_of.
  repeat match goal with
         | |- context [if ?c then _ else _] => destruct c; cbn [bind]
         | |- context [match nth_error ?l ?i with _ => _ end] =>
             destruct (nth_error l i); cbn [bind]
         end;
    discriminate.
Qed.

(** X14: a buffer of fewer than twelve bytes is never decoded: reading the
    header raises. *)
Theorem DnsPacket_parse_short (E : Enums) (fuel : nat) (data : bytes)
    (offset : option nat) :
  (length data < 12)%nat ->
  exists e, DnsPacket_parse fuel data offset = Raise e.
Proof.
  intro Hshort. unfold DnsPacket_parse.
  destruct (parse_header data) as [h|e|] eqn:Hh.
  - apply parse_header_length in Hh. lia.
  - exists e. reflexivity.
  - exfalso. exact (@parse_header_not_NoFuel E data Hh).
Qed.

Lemma DnsPacket_parse_short_witness :
  exists e,
    DnsPacket_parse 9 (bytes_of [0; 1; 1; 0; 0; 0; 0; 0; 0; 0; 0]) None = Raise e.
Proof.
  apply (@DnsPacket_parse_short rfc1035 9). vm_compute. lia.
Defined.

(** A message that [parse_sections] returns is built from the header. *)
Lemma parse_sections_Return (E : Enums) (fuel : nat) (data : bytes) (h : Header)
    (offset : nat) (p : DnsPacket) (offset' : nat) :
  parse_sections fuel data h offset = Return (p, offset') ->
  exists qs qo a s d,
    questions_loop fuel fuel data offset (h_QDCOUNT h) [] = Return (qs, qo)
    /\ records_loop fuel fuel data qo (h_ANCOUNT h) (h_NSCOUNT h) (h_ARCOUNT h)
         [] [] [] = Return (a, s, d, offset')
    /\ p = message_of h qs a s d (slice_from data offset').
Proof.
  unfold parse_sections. intro H.
  bind_inv H r Hqs. destruct r as [qs qo]. cbn beta iota in H.
  bind_inv H r Hrs. destruct r as [[[a s] d] o]. cbn beta iota in H.
  bind_inv H u1 H1. bind_inv H u2 H2. bind_inv H u3 H3. bind_inv H u4 H4.
  cbn zeta in H. bind_inv H p' Hp. inversion H; subst p' o; clear H.
  unfold DnsPacket_body in Hp.
  bind_inv Hp op Hop. bind_inv Hp rc Hrc.
  unfold DnsOpCode_of in Hop. unfold DnsResponseCode_of in Hrc.
  destruct (DnsOpCode_member (h_OPCODE h)); [|discriminate].
  destruct (DnsResponseCode_member (h_RCODE h)); [|discriminate].
  inversion Hop; inversion Hrc; subst op rc. inversion Hp; subst p.
  exists qs, qo, a, s, d. repeat split; assumption.
Qed.

Lemma be_val_bound (bs : bytes) (acc : Z) :
  0 <= acc -> be_val bs acc < (acc + 1) * 256 ^ Z.of_nat (length bs).
Proof.
  revert acc. induction bs as [|b bs IH]; intros acc Hacc.
  - cbn. lia.
  - cbn [be_val length]. pose proof (byte_val_range b).
    specialize (IH (acc * 256 + byte_val b) ltac:(lia)).
    rewrite Nat2Z.inj_succ, Z.pow_succ_r by lia.
    assert (0 < 256 ^ Z.of_nat (length bs)) by (apply Z.pow_pos_nonneg; lia).
    nia.
Qed.

Lemma field_bound (bs : bytes) (lo hi : nat) :
  0 <= field bs lo hi < 256 ^ Z.of_nat (hi - lo).
Proof.
  split; [apply field_nonneg|]. unfold field.
  pose proof (@be_val_bound (slice bs lo hi) 0 ltac:(lia)) as Hb.
  pose proof (length_slice_le bs lo hi) as Hl.
  assert (256 ^ Z.of_nat (length (slice bs lo hi)) <= 256 ^ Z.of_nat (hi - lo))
    by (apply Z.pow_le_mono_r; lia).
  lia.
Qed.

(** The bit fields of a byte fit their widths. *)
Lemma bit_fields_range (b : byte) :
  0 <= Z.shiftr (Z.land (byte_val b) 120) 3 < 16
  /\ 0 <= Z.shiftr (Z.land (byte_val b) 112) 4 < 8
  /\ 0 <= Z.land (byte_val b) 15 < 16.
Proof.
  destruct b; vm_compute;
    repeat split; first [reflexivity | intro; discriminate].
Qed.

Lemma parse_header_ranges (E : Enums) (data : bytes) (h : Header) :
  parse_header data = Return h ->
  0 <= h_ID h < 65536 /\ 0 <= h_OPCODE h < 16 /\ 0 <= h_Z h < 8
  /\ 0 <= h_RCODE h < 16
  /\ 0 <= h_QDCOUNT h < 65536 /\ 0 <= h_ANCOUNT h < 65536
  /\ 0 <= h_NSCOUNT h < 65536 /\ 0 <= h_ARCOUNT h < 65536.
Proof.
  unfold parse_header. intro H.
  bind_inv H i Hi. bind_inv H b2 Hb2. bind_inv H qr Hqr.
  bind_inv H op Hop. bind_inv H b3 Hb3. bind_inv H rc Hrc.
  bind_inv H cs Hcs. destruct cs as [[[qd an] ns] ar].
  inversion H; subst h; clear H. cbn [h_ID h_OPCODE h_Z h_RCODE h_QDCOUNT
                                     h_ANCOUNT h_NSCOUNT h_ARCOUNT].
  unfold DnsOpCode_of in Hop. unfold DnsResponseCode_of in Hrc.
  destruct (DnsOpCode_member _) in Hop; [|discriminate].
  destruct (DnsResponseCode_member _) in Hrc; [|discriminate].
  inversion Hop; inversion Hrc; subst op rc.
  destruct (bit_fields_range b2) as (Hopr & _ & _).
  destruct (bit_fields_range b3) as (_ & Hzr & Hrcr).
  unfold unpack_H in Hi. bind_inv Hi bs Hbs. inversion Hi; subst i.
  unfold unpack_bytes in Hbs.
  destruct (0 + 2 <=? length data)%nat; [|discriminate].
  inversion Hbs; subst bs.
  pose proof (field_bound data 0 2) as Hid. unfold field in Hid.
  unfold unpack_HHHH in Hcs. bind_inv Hcs cb Hcb. inversion Hcs; subst.
  pose proof (field_bound cb 0 2). pose proof (field_bound cb 2 4).
  pose proof (field_bound cb 4 6). pose proof (field_bound cb 6 8).
  change (256 ^ Z.of_nat (2 - 0)) with 65536 in *.
  change (256 ^ Z.of_nat (4 - 2)) with 65536 in *.
  change (256 ^ Z.of_nat (6 - 4)) with 65536 in *.
  change (256 ^ Z.of_nat (8 - 6)) with 65536 in *.
  repeat split; lia.
Qed.

(** X15: the fields of a decoded message fit their wire widths, OPCODE and
    RCODE are members of their enumerations, and the class of the message is
    [Query] for a query and [Response] for a response. *)
Theorem decoded_fields_fit (E : Enums) (fuel : nat) (data : bytes)
    (offset : option nat) (p : DnsPacket) (offset' : nat) :
  DnsPacket_parse fuel data offset = Return (p, offset') ->
  0 <= ID p < 65536 /\ 0 <= OPCODE p < 16 /\ 0 <= Z_ p < 8 /\ 0 <= RCODE p < 16
  /\ 0 <= QDCOUNT p < 65536 /\ 0 <= ANCOUNT p < 65536
  /\ 0 <= NSCOUNT p < 65536 /\ 0 <= ARCOUNT p < 65536
  /\ DnsOpCode_member (OPCODE p) = true
  /\ DnsResponseCode_member (RCODE p) = true
  /\ cls p = match QR p with query => Query | response => Response end.
Proof.
  unfold DnsPacket_parse. intro H. bind_inv H h Hh.
  pose proof (@parse_header_ranges E data h Hh) as Hr.
  pose proof (@parse_header_Return E data h Hh) as (Hop & Hrc & _).
  apply parse_sections_Return in H.
  destruct H as (qs & qo & a & s & d & _ & _ & ->).
  cbn [message_of ID OPCODE Z_ RCODE QDCOUNT ANCOUNT NSCOUNT ARCOUNT cls QR].
  destruct Hr as (H1 & H2 & H3 & H4 & H5 & H6 & H7 & H8).
  repeat split; try assumption; lia.
Qed.

Lemma decoded_fields_fit_witness :
  exists p,
    DnsPacket_parse 50 scenario_buffer None = Return (p, 49%nat)
    /\ cls p = Response /\ 0 <= OPCODE p < 16.
Proof.
  assert (Hrun : exists p,
             DnsPacket_parse 50 scenario_buffer None = Return (p, 49%nat))
    by (eexists; vm_compute; reflexivity).
  destruct Hrun as [p Hrun]. exists p. split; [exact Hrun|].
  destruct (@decoded_fields_fit rfc1035 50 scenario_buffer None p 49 Hrun)
    as (_ & Hop & _ & _ & _ & _ & _ & _ & _ & _ & Hcls).
  split; [|exact Hop]. rewrite Hcls.
  vm_compute in Hrun. apply Return_inj in Hrun.
  inversion Hrun; subst p. reflexivity.
Defined.

Lemma byte_of_val (b : byte) : byte_of (byte_val b) = b.
Proof. unfold byte_of, byte_val. now rewrite N2Z.id, Byte.of_to_N. Qed.

Lemma be16_be_val (b0 b1 : byte) : be16 (be_val [b0; b1] 0) = [b0; b1].
Proof.
  unfold be16. cbn [be_val].
  pose proof (byte_val_range b0). pose proof (byte_val_range b1).
  replace (((0 * 256 + byte_val b0) * 256 + byte_val b1) / 256)
    with (byte_val b0)
    by (apply Z.div_unique with (byte_val b1); lia).
  replace (((0 * 256 + byte_val b0) * 256 + byte_val b1) mod 256)
    with (byte_val b1)
    by (apply Z.mod_unique with (byte_val b0); lia).
  now rewrite !byte_of_val.
Qed.

(** The five fields read from the first flag byte make up the byte again. *)
Lemma flags_hi_byte (b : byte) (qr : DnsQR) :
  DnsQR_of (Z.shiftr (Z.land (byte_val b) 128) 7) = Return qr ->
  byte_of
    (Z.lor (Z.lor (Z.lor (Z.lor
       (match qr with response => 128 | query => 0 end)
       (Z.shiftl (Z.shiftr (Z.land (byte_val b) 120) 3) 3))
       (if negb (Z.land (byte_val b) 4 =? 0) then 4 else 0))
       (if negb (Z.land (byte_val b) 2 =? 0) then 2 else 0))
       (if negb (Z.land (byte_val b) 1 =? 0) then 1 else 0))
  = b.
Proof.
  destruct b; intro H; vm_compute in H; apply Return_inj in H; subst qr;
    reflexivity.
Qed.

(** So do the three fields read from the second flag byte. *)
Lemma flags_lo_byte (b : byte) :
  byte_of
    (Z.lor (Z.lor (if negb (Z.land (byte_val b) 128 =? 0) then 128 else 0)
                  (Z.shiftl (Z.shiftr (Z.land (byte_val b) 112) 4) 4))
           (Z.land (byte_val b) 15))
  = b.
Proof. destruct b; reflexivity. Qed.

Lemma parse_header_bytes (E : Enums) (data : bytes) (h : Header)
    (qs : list DnsQuestion) (a s d : list DnsRecord) (sfx : bytes) :
  parse_header data = Return h ->
  header_bytes (message_of h qs a s d sfx) = firstn 12 data.
Proof.
  intro H. pose proof (@parse_header_length E data h H) as Hlen.
  destruct data as [|b0 data]; [cbn in Hlen; lia|].
  destruct data as [|b1 data]; [cbn in Hlen; lia|].
  destruct data as [|b2 data]; [cbn in Hlen; lia|].
  destruct data as [|b3 data]; [cbn in Hlen; lia|].
  destruct data as [|b4 data]; [cbn in Hlen; lia|].
  destruct data as [|b5 data]; [cbn in Hlen; lia|].
  destruct data as [|b6 data]; [cbn in Hlen; lia|].
  destruct data as [|b7 data]; [cbn in Hlen; lia|].
  destruct data as [|b8 data]; [cbn in Hlen; lia|].
  destruct data as [|b9 data]; [cbn in Hlen; lia|].
  destruct data as [|b10 data]; [cbn in Hlen; lia|].
  destruct data as [|b11 data]; [cbn in Hlen; lia|].
  clear Hlen.
  unfold parse_header, unpack_H, unpack_HHHH, unpack_bytes, index, field, slice
    in H.
  cbn [length Nat.add Nat.leb Nat.sub nth_error bind skipn firstn] in H.
  bind_inv H qr Hqr. bind_inv H op Hop. bind_inv H rc Hrc.
  unfold DnsOpCode_of in Hop. unfold DnsResponseCode_of in Hrc.
  destruct (DnsOpCode_member _) in Hop; [|discriminate].
  destruct (DnsResponseCode_member _) in Hrc; [|discriminate].
  apply Return_inj in Hop, Hrc, H. subst op rc h.
  unfold header_bytes, flags_hi, flags_lo, message_of.
  cbn [ID QR OPCODE AA TC RD RA Z_ RCODE QDCOUNT ANCOUNT NSCOUNT ARCOUNT
       h_ID h_QR h_OPCODE h_AA h_TC h_RD h_RA h_Z h_RCODE h_QDCOUNT h_ANCOUNT
       h_NSCOUNT h_ARCOUNT firstn].
  rewrite !be16_be_val, (flags_hi_byte _ Hqr), flags_lo_byte. reflexivity.
Qed.

(** X16: decoding loses no bit of the header: the twelve header bytes that
    [encode] writes for a decoded message are the first twelve bytes of the
    buffer it was decoded from. *)
Theorem header_bits_preserved (E : Enums) (fuel : nat) (data : bytes)
    (offset : option nat) (p : DnsPacket) (offset' : nat) (bs : bytes) :
  DnsPacket_parse fuel data offset = Return (p, offset') ->
  DnsPacket_encode p = Return bs ->
  firstn 12 bs = firstn 12 data.
Proof.
  unfold DnsPacket_parse. intros H Henc. bind_inv H h Hh.
  apply parse_sections_Return in H.
  destruct H as (qs & qo & a & s & d & _ & _ & ->).
  rewrite <- (@parse_header_bytes E data h qs a s d (slice_from data offset') Hh).
  apply DnsPacket_encode_header in Henc. destruct Henc as (body & -> & _).
  reflexivity.
Qed.

Lemma header_bits_preserved_witness :
  exists p bs,
    DnsPacket_parse 50 scenario_buffer None = Return (p, 49%nat)
    /\ DnsPacket_encode p = Return bs
    /\ firstn 12 bs = scenario_header 1.
Proof.
  assert (Hrun : exists p,
             DnsPacket_parse 50 scenario_buffer None = Return (p, 49%nat))
    by (eexists; vm_compute; reflexivity).
  destruct Hrun as [p Hrun].
  assert (Henc : exists bs, DnsPacket_encode p = Return bs).
  { pose proof Hrun as Hp. vm_compute in Hp. apply Return_inj in Hp.
    inversion Hp; subst p. eexists. vm_compute. reflexivity. }
  destruct Henc as [bs Henc]. exists p, bs.
  split; [exact Hrun|]. split; [exact Henc|].
  exact (@header_bits_preserved rfc1035 50 scenario_buffer None p 49 bs Hrun Henc).
Defined.

(** X17: [encode] raises [struct.error] when the ID, a flag byte or a stored
    count does not fit its field, whatever the sections hold. *)
Theorem DnsPacket_encode_out_of_range (p : DnsPacket) :
  ~ (0 <= ID p < 65536 /\ 0 <= flags_hi p < 256 /\ 0 <= flags_lo p < 256
     /\ 0 <= QDCOUNT p < 65536 /\ 0 <= ANCOUNT p < 65536
     /\ 0 <= NSCOUNT p < 65536 /\ 0 <= ARCOUNT p < 65536) ->
  DnsPacket_encode p = Raise StructError.
Proof.
  intro H. unfold DnsPacket_encode. cbn [pack_all]. unfold pack_H, pack_B.
  repeat match goal with
         | |- context [if ?c then _ else _] =>
             let Hc := fresh "Hc" in destruct c eqn:Hc; cbn [bind]
         end;
    try reflexivity.
  exfalso. apply H.
  repeat match goal with
         | Hc : _ && _ = true |- _ =>
             apply andb_true_iff in Hc; destruct Hc
         end.
  repeat split; lia.
Qed.

Lemma DnsPacket_encode_out_of_range_witness :
  DnsPacket_encode
    (mkDnsPacket DnsPacket_class 1 query 0 false false true false 0 0
       65536 0 0 0 [] [] [] [] [])
  = Raise StructError.
Proof.
  apply DnsPacket_encode_out_of_range. cbn. lia.
Defined.

Lemma DnsQuestion_parse_bound (fuel : nat) (data : bytes) (off : nat)
    (q : DnsQuestion) (off' : nat) :
  DnsQuestion_parse fuel data off = Return (q, off') ->
  (off' <= length data)%nat.
Proof.
  unfold DnsQuestion_parse. intro H.
  bind_inv H r Hn. destruct r as [name o]. cbn beta iota in H.
  bind_inv H r Hf. destruct r as [qt qc]. cbn beta iota zeta in H.
  inversion H; subst. unfold unpack_HH, unpack_bytes in Hf.
  destruct (o + 4 <=? length data)%nat eqn:Hle; [|discriminate].
  now apply Nat.leb_le.
Qed.

Lemma questions_loop_bound (n fuel : nat) (data : bytes) (QD : Z) :
  forall (off : nat) (qs qs' : list DnsQuestion) (off' : nat),
    (off <= length data)%nat ->
    questions_loop n fuel data off QD qs = Return (qs', off') ->
    (off' <= length data)%nat.
Proof.
  induction n as [|n IH]; intros off qs qs' off' Hoff H; [discriminate|].
  cbn [questions_loop] in H.
  destruct (len qs <? QD).
  - bind_inv H r Hq. destruct r as [q o]. cbn beta iota in H.
    apply DnsQuestion_parse_bound in Hq. exact (IH _ _ _ _ Hq H).
  - inversion H; subst. exact Hoff.
Qed.

Lemma DnsRecord_parse_bound (E : Enums) (fuel : nat) (data : bytes) (off : nat)
    (r : DnsRecord) (off' : nat) :
  DnsRecord_parse fuel data off = Return (r, off') ->
  (off' <= length data)%nat.
Proof.
  unfold DnsRecord_parse. intro H.
  bind_inv H r1 Hname. destruct r1 as [name o]. cbn beta iota in H.
  bind_inv H r2 Hfix. destruct r2 as [[[ty cl] tl] rdlen]. cbn beta iota zeta in H.
  bind_inv H u Hlen. apply assert_Return, Z.eqb_eq in Hlen.
  bind_inv H rec Hrec. inversion H; subst rec off'; clear H.
  unfold unpack_HHIH, unpack_bytes in Hfix.
  destruct (o + 10 <=? length data)%nat eqn:Hle; [|discriminate].
  apply Nat.leb_le in Hle.
  unfold len, slice in Hlen. rewrite length_firstn, length_skipn in Hlen. lia.
Qed.

Lemma records_loop_bound (E : Enums) (n fuel : nat) (data : bytes) (AN NS AR : Z) :
  forall (off : nat) (a s d a' s' d' : list DnsRecord) (off' : nat),
    (off <= length data)%nat ->
    records_loop n fuel data off AN NS AR a s d = Return (a', s', d', off') ->
    (off' <= length data)%nat.
Proof.
  induction n as [|n IH]; intros off a s d a' s' d' off' Hoff H; [discriminate|].
  cbn [records_loop] in H.
  destruct (off <? length data)%nat.
  - bind_inv H r Hr. destruct r as [rr o]. cbn beta iota in H.
    apply DnsRecord_parse_bound in Hr.
    destruct (len a <? AN); [exact (IH _ _ _ _ _ _ _ _ Hr H)|].
    destruct (len s <? NS); [exact (IH _ _ _ _ _ _ _ _ Hr H)|].
    destruct (len d <? AR); [exact (IH _ _ _ _ _ _ _ _ Hr H)|discriminate].
  - inversion H; subst. exact Hoff.
Qed.

(** X18: a message decoded from the start of a buffer accounts for every byte
    of it: the offset [parse] returns is the length of the buffer. *)
Theorem DnsPacket_parse_whole_buffer (E : Enums) (fuel : nat) (data : bytes)
    (p : DnsPacket) (offset' : nat) :
  DnsPacket_parse fuel data None = Return (p, offset') ->
  offset' = length data.
Proof.
  unfold DnsPacket_parse. intro H. bind_inv H h Hh.
  pose proof (@parse_header_length E data h Hh) as Hlen.
  apply parse_sections_Return in H.
  destruct H as (qs & qo & a & s & d & Hqs & Hrs & _).
  apply questions_loop_bound in Hqs; [|exact Hlen].
  pose proof (@records_loop_end E _ _ _ _ _ _ _ _ _ _ _ _ _ _ Hrs) as Hend.
  apply records_loop_bound in Hrs; [|exact Hqs]. lia.
Qed.

Lemma DnsPacket_parse_whole_buffer_witness :
  exists p, DnsPacket_parse 50 scenario_buffer None = Return (p, 49%nat)
            /\ length scenario_buffer = 49%nat.
Proof.
  assert (Hrun : exists p o,
             DnsPacket_parse 50 scenario_buffer None = Return (p, o))
    by (do 2 eexists; vm_compute; reflexivity).
  destruct Hrun as (p & o & Hrun).
  pose proof (@DnsPacket_parse_whole_buffer rfc1035 50 scenario_buffer p o Hrun)
    as Ho.
  assert (Hl : length scenario_buffer = 49%nat) by reflexivity.
  exists p. rewrite Ho, Hl in Hrun. split; [exact Hrun | exact Hl].
Defined.

(** * Compression *)

(** X19: a pointer whose target holds the encoding of a valid name is
    resolved to the labels of that name, appended to the labels read so far;
    the decoder moves on by the two bytes of the pointer, and these bytes,
    with what was read before them, are what it attaches to the result. *)
Theorem pointer_resolves_to_target (fuel : nat) (data : bytes)
    (start offset : nat) (sequence : list string) (b b1 : byte)
    (n : DomainName) (post : bytes) :
  nth_error data offset = Some b ->
  192 <= byte_val b ->
  nth_error data (offset + 1) = Some b1 ->
  valid_name n = true ->
  skipn (pointer_target (byte_val b) (byte_val b1)) data = name_bytes n ++ post ->
  (length data < fuel)%nat ->
  parse_from_loop (S fuel) data start offset sequence
  = Return (mkDomainName (labels (DomainName_init (sequence ++ labels n)))
              (Some (slice data start (offset + 2))),
            (offset + 2)%nat).
Proof.
  intros Hb Hptr Hb1 Hn Htarget Hfuel.
  rewrite parse_from_loop_step. unfold index. rewrite Hb. cbn [bind]. cbv zeta.
  replace (byte_val b =? 0) with false by (symmetry; apply Z.eqb_neq; lia).
  replace (byte_val b <? 64) with false by (symmetry; apply Z.ltb_ge; lia).
  replace (192 <=? byte_val b) with true by (symmetry; apply Z.leb_le; lia).
  rewrite Hb1. cbn [bind].
  pose proof (@parse_from_valid n Hn fuel data _ post Htarget Hfuel) as Hrun.
  (* the byte at the target is a label length or the terminator *)
  assert (Hfirst : exists t, nth_error data
                               (pointer_target (byte_val b) (byte_val b1))
                             = Some t /\ byte_val t < 64).
  { destruct (@valid_name_wire n Hn) as (ls & Hv & _ & Henc & _).
    assert (Hnb : name_bytes n = wire_labels ls ++ [x00])
      by (unfold name_bytes, DomainName_encode; now rewrite Henc).
    rewrite Hnb in Htarget. rewrite <- hd_error_skipn, Htarget.
    destruct ls as [|l ls]; cbn [wire_labels app hd_error].
    - exists x00. split; [reflexivity | vm_compute; reflexivity].
    - cbn [forallb] in Hv. apply andb_true_iff in Hv. destruct Hv as [Hl _].
      apply valid_label_inv in Hl. destruct Hl as [Hlen _].
      eexists. split; [reflexivity|]. rewrite byte_val_byte_of; lia. }
  destruct Hfirst as (t & Ht & Hlt). rewrite Ht. cbn [bind].
  replace (byte_val t <? 64) with true by (symmetry; apply Z.ltb_lt; lia).
  cbn [assert bind].
  unfold parse_from in Hrun. rewrite Hrun. cbn [bind].
  reflexivity.
Qed.

Lemma pointer_resolves_to_target_witness :
  parse_from_loop 60 scenario_buffer 33 33 []
  = Return (mkDomainName ["www"%string; "example"%string; "com"%string]
              (Some (bytes_of [192; 12])), 35%nat).
Proof.
  refine (eq_trans
            (@pointer_resolves_to_target 59 scenario_buffer 33 33 []
               (byte_of 192) (byte_of 12)
               (DomainName_init ["www"%string; "example"%string; "com"%string])
               (skipn 29 scenario_buffer) _ _ _ _ _ _) _).
  - reflexivity.
  - vm_compute. intro; discriminate.
  - reflexivity.
  - vm_compute. reflexivity.
  - vm_compute. reflexivity.
  - vm_compute. lia.
  - vm_compute. reflexivity.
Defined.

(** X20: for a record of a compression-eligible type, RDATA bytes after the
    payload the handler parses are not part of the record's RDATA: the
    record gets the re-encoded payload as [rdata], its length as [rdlength],
    and the whole raw slice as [compressed_rdata].  An SOA record with a
    fifth integer after [expire] is such a record. *)
Theorem DnsRecord_parse_drops_trailing_rdata (E : Enums) (nm : DomainName)
    (ty cl tl : Z) (payload : RData) (rd extra pre post : bytes) (fuel : nat) :
  valid_name nm = true ->
  0 <= ty < 65536 -> 0 <= cl < 65536 -> 0 <= tl < 4294967296 ->
  compression_eligible ty = true ->
  valid_payload (get_handler ty) payload ->
  RData_encode payload = Return rd ->
  extra <> [] ->
  len (rd ++ extra) < 65536 ->
  (length (pre ++ record_bytes (DnsRecord_init nm ty cl tl (rd ++ extra)) ++ post)
   < fuel)%nat ->
  exists r,
    DnsRecord_parse fuel
      (pre ++ record_bytes (DnsRecord_init nm ty cl tl (rd ++ extra)) ++ post)
      (length pre)
    = Return (r, (length pre
                  + length (record_bytes
                              (DnsRecord_init nm ty cl tl (rd ++ extra))))%nat)
    /\ rtype r = ty
    /\ rdata r = rd
    /\ rdlength r = len rd
    /\ compressed_rdata r = Some (rd ++ extra).
Proof.
  intros Hn Ht Hc Htl Helig Hv Henc Hextra Hlen Hfuel.
  set (data := pre ++ record_bytes (DnsRecord_init nm ty cl tl (rd ++ extra))
               ++ post) in *.
  assert (Hdata : skipn (length pre) data
                  = name_bytes nm ++ be16 ty ++ be16 cl ++ be32 tl
                    ++ be16 (len (rd ++ extra)) ++ rd ++ extra ++ post).
  { unfold data. rewrite skipn_prefix. unfold record_bytes, DnsRecord_init.
    cbn [rname_ rtype rclass ttl rdlength rdata].
    now rewrite <- !app_assoc. }
  assert (Hr : 0 <= len (rd ++ extra) < 65536)
    by (pose proof (len_nonneg (rd ++ extra)); lia).
  unfold DnsRecord_parse.
  rewrite (@parse_from_valid _ Hn fuel data (length pre) _ Hdata Hfuel).
  cbn [bind].
  pose proof (@skipn_more _ _ _ _ _ Hdata eq_refl) as Hfix.
  rewrite (@unpack_HHIH_packed data _ ty cl tl (len (rd ++ extra))
             (rd ++ extra ++ post) Ht Hc Htl Hr Hfix).
  cbn [bind]. cbv zeta.
  assert (Hrd : skipn (length pre + length (name_bytes nm) + 10) data
                = rd ++ extra ++ post).
  { apply (@skipn_more data _ 10
             (be16 ty ++ be16 cl ++ be32 tl ++ be16 (len (rd ++ extra)))
             (rd ++ extra ++ post));
      [now rewrite <- !app_assoc | reflexivity]. }
  assert (Hraw : skipn (length pre + length (name_bytes nm) + 10) data
                 = (rd ++ extra) ++ post) by now rewrite <- app_assoc.
  rewrite len_range_to_nat.
  rewrite (@slice_skipn _ _ _ _ _ Hraw eq_refl).
  rewrite Z.eqb_refl. cbn [assert bind]. rewrite Helig.
  destruct (@handler_parse_valid E _ _ _ Hv Henc fuel data _ (extra ++ post)
              Hrd Hfuel) as (payload' & Hparse & Henc').
  rewrite Hparse. cbn [bind]. rewrite Henc'. cbn [bind].
  assert (Hneq : bytes_eqb rd (rd ++ extra) = false).
  { destruct (bytes_eqb rd (rd ++ extra)) eqn:Heq; [|reflexivity].
    apply bytes_eqb_eq in Heq. exfalso. apply Hextra.
    apply (app_inv_head rd). now rewrite app_nil_r. }
  rewrite Hneq. cbn [negb bind].
  exists (set_compressed_rdata
            (DnsRecord_init (received_name nm) ty cl tl rd) (rd ++ extra)).
  split; [|cbn; repeat split].
  f_equal. f_equal. unfold record_bytes, DnsRecord_init.
  cbn [rname_ rtype rclass ttl rdlength rdata].
  rewrite !length_app. cbn [be16 be32 length]. lia.
Qed.

Lemma DnsRecord_parse_drops_trailing_rdata_witness :
  exists r,
    DnsRecord_parse 80
      ([] ++ record_bytes
               (DnsRecord_init example_com 6 1 300
                  ((name_bytes ns1_example_com ++ name_bytes example_com
                    ++ be32 2024 ++ be32 7200 ++ be32 3600 ++ be32 1209600)
                   ++ be32 300)) ++ []) 0
    = Return (r, 73%nat)
    /\ rdata r = name_bytes ns1_example_com ++ name_bytes example_com
                 ++ be32 2024 ++ be32 7200 ++ be32 3600 ++ be32 1209600
    /\ rdlength r = 46.
Proof.
  destruct (@DnsRecord_parse_drops_trailing_rdata rfc1035 example_com 6 1 300
              (RData_SOA 2024 7200 3600 1209600 ns1_example_com example_com)
              (name_bytes ns1_example_com ++ name_bytes example_com
               ++ be32 2024 ++ be32 7200 ++ be32 3600 ++ be32 1209600)
              (be32 300) [] [] 80)
    as (r & Hrun & _ & Hrd & Hlen & _);
    try (vm_compute; first [reflexivity | lia | discriminate
                            | split; first [reflexivity | intro; discriminate]]).
  - change (get_handler 6) with H_SOA. cbn [valid_payload].
    repeat match goal with |- _ /\ _ => split end; crunch.
  - exists r. split; [exact Hrun|]. split; [exact Hrd | exact Hlen].
Defined.
